(** * Divergence detection, correction and audit ledger

    A shallow embedding of the core of the financial ETL framework:
    - [services/audit_logger.py]          (class AuditLogger),
    - [services/divergence_processor.py]  (class DivergenceProcessor),
    - [automation/daily_processor.py]     (class DailyProcessor),
    - [conn.py]                           (context manager db_connection),
    - [api/routers/divergences.py]        (approve and reject end points).

    The PostgreSQL connection is modelled as an explicit state: the committed
    tables, the tables as seen inside the open transaction, the sequences
    that generate ids, a schedule that says which statements fail, and the
    history of what was sent over the connection.  Python code
    that talks to the connection lives in a state-and-exception monad.

    Amounts of the warehouse view are NUMERIC values, exact rationals ([Q]).
    Where the source does float arithmetic on them (the tolerance of the
    trade-marketing rule) they are converted to IEEE 754 binary64 numbers,
    the Standard Library's [spec_float] with precision 53 and exponents up to
    1024, and the arithmetic is done there.  Confidences and thresholds are
    decimal literals that are only compared with each other, and the amounts
    of the value-range rule are only compared with 0 and 100000; those
    comparisons are made on the exact values.  An exception carries its
    class name, whether the class derives from [psycopg2.Error], and its
    text.  Logging calls are left out, and timestamps ([NOW()]) are reduced
    to the flag that says whether the column was stamped. *)

From Stdlib Require Import List String ZArith QArith Lia Bool Arith DecimalString.
From Stdlib Require Import SpecFloat.
Import ListNotations.
Local Open Scope string_scope.
Local Open Scope list_scope.
Local Open Scope Z_scope.

(* ================================================================== *)
(** * Values and rows *)
(* ================================================================== *)

(** A Python [float]: a binary64 number. *)
Definition float64 : Type := spec_float.

(** A value of a disputed column: a NUMERIC value as the database holds it, a
    Python float ([Optional[float]] in the dataclass), or the sentinel text
    that the pending-verification rule stores in the field.  A float written
    to a column is kept as the float that was sent. *)
Inductive valor : Type :=
| VNum (q : Q)
| VFloat (f : float64)
| VTexto (s : string).

(** A calendar date, compared through an order-preserving key. *)
Record Data : Type := mkData { ano : Z; mes : Z; dia : Z }.

Definition data_chave (d : Data) : Z := ano d * 10000 + mes d * 100 + dia d.

(** SQL [x BETWEEN a AND b] on dates. *)
Definition data_between (x a b : Data) : bool :=
  (data_chave a <=? data_chave x) && (data_chave x <=? data_chave b).

(** Values stored in the free-form dictionaries ([Dict[str, Any]]). *)
Inductive dado : Type :=
| DNone
| DNum (q : Q)
| DInt (z : Z)
| DTexto (s : string)
| DData (d : Data).

Definition dict : Type := list (string * dado).

(** The dataclass [Divergencia]; [__post_init__] replaces a missing list or
    dictionary by the empty one, so both fields are plain containers. *)
Record Divergencia : Type := mkDivergencia {
  idnfsexterno : string;
  tipo : string;
  campo_afetado : string;
  valor_atual : option valor;
  valor_esperado : option valor;
  competencia : option string;
  confianca : Q;
  regras_violadas : list string;
  dados_adicionais : dict
}.

(** One element of [dados_anteriores] / [dados_posteriores]. *)
Record Snapshot : Type := mkSnapshot {
  snap_idnfsexterno : string;
  snap_campo : string;
  snap_valor : option valor
}.

(** A row of [audit.operacoes]. *)
Record Operacao : Type := mkOperacao {
  op_id : Z;
  op_tipo_operacao : string;
  op_descricao : string;
  op_usuario : string;
  op_origem : string;
  op_tabela_afetada : option string;
  op_filtros_aplicados : option dict;
  op_query_executada : option string;
  op_metadata : option dict;
  op_status : string;
  op_timestamp_fim : bool;
  op_registros_afetados : option Z;
  op_dados_anteriores : option (list Snapshot);
  op_dados_posteriores : option (list Snapshot);
  op_erro_mensagem : option string
}.

(** A row of [audit.divergencias_processadas]. *)
Record DivergenciaProcessada : Type := mkDivergenciaProcessada {
  dp_id : Z;
  dp_operacao_id : Z;
  dp_idnfsexterno : string;
  dp_tipo_divergencia : string;
  dp_valor_anterior : option valor;
  dp_valor_sugerido : option valor;
  dp_campo_afetado : string;
  dp_competencia : option string;
  dp_status_processamento : string;
  dp_confidence_score : option Q;
  dp_regras_aplicadas : option (list string);
  dp_dados_contextuais : option dict;
  dp_valor_aplicado : option valor;
  dp_processado_em : bool;
  dp_processado_por : option string;
  dp_motivo_rejeicao : option string
}.

(** A row of [audit.sessoes_processamento]. *)
Record Sessao : Type := mkSessao {
  ss_id : Z;
  ss_tipo_sessao : string;
  ss_status : string;
  ss_parametros_execucao : option dict;
  ss_ambiente : string;
  ss_fim_processamento : bool;
  ss_total_registros_analisados : option Z;
  ss_divergencias_detectadas : option Z;
  ss_correcoes_aplicadas : option Z;
  ss_correcoes_pendentes : option Z;
  ss_erros_encontrados : option Z;
  ss_resultado_geral : option string;
  ss_log_completo : option string
}.

(** A row of the target table [byd.controladoria]: its key and the columns
    the corrections write to, by name. *)
Record Controladoria : Type := mkControladoria {
  ct_idnfsexterno : string;
  ct_campos : list (string * option valor)
}.

(** A row of the warehouse view [byd.bonus_view], with the columns the three
    rule scans read.  [bv_dias_pendente] stands for the column the second
    scan lets the database compute from [NOW()]. *)
Record BonusView : Type := mkBonusView {
  bv_idnfsexterno : string;
  bv_des_modelo : option string;
  bv_apontamento : option string;
  bv_competencia : option string;
  bv_bonus_utilizado : option string;
  bv_valor_bonus : option Q;
  bv_trade : option Q;
  bv_bonus_dpto : option Q;
  bv_trade_mkt_dpto : option Q;
  bv_dta_processamento : option Data;
  bv_dias_pendente : option Z
}.

(* ================================================================== *)
(** * Exceptions *)
(* ================================================================== *)

(** An exception in flight, with what the program looks at: the name of its
    class ([type(e).__name__]), whether it is an instance of [psycopg2.Error]
    (the only class, besides [Exception], that a handler of the program
    names), and its text ([str(e)]). *)
Record Excecao : Type := mkExcecao {
  classe : string;
  de_psycopg2 : bool;
  texto : string
}.

(** A database error with this text. *)
Definition erro_bd (t : string) : Excecao := mkExcecao "OperationalError" true t.

(** An exception of a class outside [psycopg2.Error], as the adaptation of a
    parameter raises inside [cursor.execute]. *)
Definition type_error (t : string) : Excecao := mkExcecao "TypeError" false t.

(* ================================================================== *)
(** * The database connection *)
(* ================================================================== *)

Record Database : Type := mkDatabase {
  operacoes : list Operacao;
  divergencias_processadas : list DivergenciaProcessada;
  sessoes_processamento : list Sessao;
  controladoria : list Controladoria;
  bonus_view : list BonusView
}.

Inductive Tabela : Type :=
| TOperacoes | TDivergencias | TSessoes | TControladoria | TBonusView.

Inductive Evento : Type :=
| Insert (t : Tabela)
| Update (t : Tabela)
| Select (t : Tabela)
| Commit
| Rollback.

(** One psycopg2 connection.  All cursors of the program are opened on the
    same connection, so they share its transaction: [working] is what the
    statements of the open transaction see and change, [committed] is what
    survives a rollback.  Sequences are not transactional.  [agenda] is the
    environment: the n-th [execute] or [commit] sent over the connection
    raises the exception [agenda n], if any; [relogio] counts the calls made so
    far.  [rollback] itself does not fail.  A failed statement leaves the
    transaction as it was; the code rolls back before it sends anything else
    in every path that is examined below. *)
Record Connection : Type := mkConnection {
  committed : Database;
  working : Database;
  seq_operacoes : Z;
  seq_divergencias : Z;
  seq_sessoes : Z;
  agenda : nat -> option Excecao;
  relogio : nat;
  historico : list Evento
}.

Definition set_working (w : Database) (c : Connection) : Connection :=
  mkConnection (committed c) w (seq_operacoes c) (seq_divergencias c)
               (seq_sessoes c) (agenda c) (relogio c) (historico c).

Definition set_committed (d : Database) (c : Connection) : Connection :=
  mkConnection d (working c) (seq_operacoes c) (seq_divergencias c)
               (seq_sessoes c) (agenda c) (relogio c) (historico c).

(** A call is sent: it is recorded and the clock advances. *)
Definition envia (ev : Evento) (c : Connection) : Connection :=
  mkConnection (committed c) (working c) (seq_operacoes c) (seq_divergencias c)
               (seq_sessoes c) (agenda c) (S (relogio c)) (historico c ++ [ev]).

(** A schedule given by its first entries; later calls succeed. *)
Definition agenda_de_lista (l : list (option Excecao)) : nat -> option Excecao :=
  fun n => nth n l None.

Definition set_operacoes (l : list Operacao) (d : Database) : Database :=
  mkDatabase l (divergencias_processadas d) (sessoes_processamento d)
             (controladoria d) (bonus_view d).

Definition set_divergencias_processadas (l : list DivergenciaProcessada)
    (d : Database) : Database :=
  mkDatabase (operacoes d) l (sessoes_processamento d)
             (controladoria d) (bonus_view d).

Definition set_sessoes_processamento (l : list Sessao) (d : Database) : Database :=
  mkDatabase (operacoes d) (divergencias_processadas d) l
             (controladoria d) (bonus_view d).

Definition set_controladoria (l : list Controladoria) (d : Database) : Database :=
  mkDatabase (operacoes d) (divergencias_processadas d)
             (sessoes_processamento d) l (bonus_view d).

(* ================================================================== *)
(** * The monad of code that uses the connection *)
(* ================================================================== *)

Inductive Resultado (A : Type) : Type :=
| Retorna (a : A)
| Levanta (e : Excecao).
Arguments Retorna {A} a.
Arguments Levanta {A} e.

Definition M (A : Type) : Type := Connection -> Resultado A * Connection.

Definition ret {A} (a : A) : M A := fun c => (Retorna a, c).

Definition bind {A B} (m : M A) (f : A -> M B) : M B :=
  fun c => match m c with
           | (Retorna a, c') => f a c'
           | (Levanta e, c') => (Levanta e, c')
           end.

Definition raise {A} (e : Excecao) : M A := fun c => (Levanta e, c).

(** [try: m except Exception as e: h e] *)
Definition try_except {A} (m : M A) (h : Excecao -> M A) : M A :=
  fun c => match m c with
           | (Retorna a, c') => (Retorna a, c')
           | (Levanta e, c') => h e c'
           end.

(** [try: m except psycopg2.Error as e: h e]: an exception of another class
    is not caught and leaves the statement as it is. *)
Definition try_except_psycopg2 {A} (m : M A) (h : Excecao -> M A) : M A :=
  fun c => match m c with
           | (Retorna a, c') => (Retorna a, c')
           | (Levanta e, c') => if de_psycopg2 e then h e c' else (Levanta e, c')
           end.

Declare Scope m_scope.
Delimit Scope m_scope with m.
Notation "x <- m ;; k" := (bind m (fun x => k))
  (at level 61, m at next level, right associativity) : m_scope.
Notation "m ;;; k" := (bind m (fun _ => k))
  (at level 61, right associativity) : m_scope.
Local Open Scope m_scope.

(** [cursor.execute(...)] of a statement: it is sent, and either raises or
    takes effect inside the open transaction.  [efeito] computes the
    statement's result and the new state. *)
Definition execute {A} (ev : Evento) (efeito : Connection -> A * Connection) : M A :=
  fun c =>
    match agenda c (relogio c) with
    | Some e => (Levanta e, envia ev c)
    | None => let '(a, c') := efeito (envia ev c) in (Retorna a, c')
    end.

(** [conn.commit()] *)
Definition commit : M unit :=
  fun c =>
    match agenda c (relogio c) with
    | Some e => (Levanta e, envia Commit c)
    | None => (Retorna tt, set_committed (working c) (envia Commit c))
    end.

(** [conn.rollback()] *)
Definition rollback : M unit :=
  fun c =>
    (Retorna tt,
     mkConnection (committed c) (committed c) (seq_operacoes c) (seq_divergencias c)
                  (seq_sessoes c) (agenda c) (relogio c) (historico c ++ [Rollback])).

(** [Json(x) if x else None]: an absent or empty container is stored as NULL. *)
Definition json_or_none {A} (x : option (list A)) : option (list A) :=
  match x with
  | Some (a :: l) => Some (a :: l)
  | _ => None
  end.

(* ================================================================== *)
(** * The audit ledger: class AuditLogger *)
(* ================================================================== *)

Module AuditLogger.

(** Effect of
    [INSERT INTO audit.operacoes (...) VALUES (..., NOW(), 'PENDING', %s) RETURNING id]. *)
Definition insert_operacao (tipo_operacao descricao usuario origem : string)
    (tabela_afetada : option string) (filtros_aplicados : option dict)
    (query_executada : option string) (metadata : option dict)
    (c : Connection) : Z * Connection :=
  let id := seq_operacoes c in
  let linha := mkOperacao id tipo_operacao descricao usuario origem
                 tabela_afetada filtros_aplicados query_executada metadata
                 "PENDING" false None None None None in
  (id, mkConnection (committed c)
         (set_operacoes (operacoes (working c) ++ [linha]) (working c))
         (id + 1) (seq_divergencias c) (seq_sessoes c) (agenda c) (relogio c)
         (historico c)).

Definition iniciar_operacao (tipo_operacao descricao usuario origem : string)
    (tabela_afetada : option string) (filtros_aplicados : option dict)
    (query_executada : option string) (metadata : option dict) : M Z :=
  try_except_psycopg2
    (operacao_id <- execute (Insert TOperacoes)
                      (insert_operacao tipo_operacao descricao usuario origem
                         tabela_afetada (json_or_none filtros_aplicados)
                         query_executada (json_or_none metadata)) ;;
     commit ;;;
     ret operacao_id)
    (fun e => rollback ;;; raise e).

(** Effect of [UPDATE audit.operacoes SET timestamp_fim = NOW(), ..., status = %s,
    registros_afetados = %s, dados_anteriores = %s, dados_posteriores = %s,
    erro_mensagem = %s WHERE id = %s] on one row. *)
Definition finaliza_linha (operacao_id : Z) (status : string)
    (registros_afetados : Z) (dados_anteriores dados_posteriores : option (list Snapshot))
    (erro_mensagem : option string) (o : Operacao) : Operacao :=
  if op_id o =? operacao_id then
    mkOperacao (op_id o) (op_tipo_operacao o) (op_descricao o) (op_usuario o)
      (op_origem o) (op_tabela_afetada o) (op_filtros_aplicados o)
      (op_query_executada o) (op_metadata o)
      status true (Some registros_afetados) dados_anteriores dados_posteriores
      erro_mensagem
  else o.

Definition update_operacao (operacao_id : Z) (status : string)
    (registros_afetados : Z) (dados_anteriores dados_posteriores : option (list Snapshot))
    (erro_mensagem : option string) (c : Connection) : unit * Connection :=
  (tt, set_working
         (set_operacoes
            (map (finaliza_linha operacao_id status registros_afetados
                    dados_anteriores dados_posteriores erro_mensagem)
                 (operacoes (working c)))
            (working c)) c).

Definition finalizar_operacao (operacao_id : Z) (status : string)
    (registros_afetados : Z) (dados_anteriores dados_posteriores : option (list Snapshot))
    (erro_mensagem : option string) : M unit :=
  try_except_psycopg2
    (execute (Update TOperacoes)
       (update_operacao operacao_id status registros_afetados
          (json_or_none dados_anteriores) (json_or_none dados_posteriores)
          erro_mensagem) ;;;
     commit)
    (fun e => rollback ;;; raise e).

(** Effect of [INSERT INTO audit.divergencias_processadas (...) VALUES
    (..., 'DETECTED', NOW(), %s, %s, %s) RETURNING id]. *)
Definition insert_divergencia (operacao_id : Z) (idnfsexterno tipo_divergencia : string)
    (valor_anterior valor_sugerido : option valor) (campo_afetado : string)
    (competencia : option string) (confidence_score : option Q)
    (regras_aplicadas : option (list string)) (dados_contextuais : option dict)
    (c : Connection) : Z * Connection :=
  let id := seq_divergencias c in
  let linha := mkDivergenciaProcessada id operacao_id idnfsexterno tipo_divergencia
                 valor_anterior valor_sugerido campo_afetado competencia
                 "DETECTED" confidence_score regras_aplicadas dados_contextuais
                 None false None None in
  (id, mkConnection (committed c)
         (set_divergencias_processadas
            (divergencias_processadas (working c) ++ [linha]) (working c))
         (seq_operacoes c) (id + 1) (seq_sessoes c) (agenda c) (relogio c)
         (historico c)).

Definition registrar_divergencia (operacao_id : Z) (idnfsexterno tipo_divergencia : string)
    (valor_anterior valor_sugerido : option valor) (campo_afetado : string)
    (competencia : option string) (confidence_score : option Q)
    (regras_aplicadas : option (list string)) (dados_contextuais : option dict) : M Z :=
  try_except_psycopg2
    (divergencia_id <- execute (Insert TDivergencias)
                         (insert_divergencia operacao_id idnfsexterno tipo_divergencia
                            valor_anterior valor_sugerido campo_afetado competencia
                            confidence_score regras_aplicadas
                            (json_or_none dados_contextuais)) ;;
     commit ;;;
     ret divergencia_id)
    (fun e => rollback ;;; raise e).

(** Effect of [UPDATE audit.divergencias_processadas SET status_processamento = %s,
    valor_aplicado = %s, processado_em = NOW(), processado_por = %s,
    motivo_rejeicao = %s WHERE id = %s] on one row.  The statement has no
    condition on the row's present status. *)
Definition atualiza_linha (divergencia_id : Z) (novo_status : string)
    (valor_aplicado : option valor) (processado_por motivo_rejeicao : option string)
    (d : DivergenciaProcessada) : DivergenciaProcessada :=
  if dp_id d =? divergencia_id then
    mkDivergenciaProcessada (dp_id d) (dp_operacao_id d) (dp_idnfsexterno d)
      (dp_tipo_divergencia d) (dp_valor_anterior d) (dp_valor_sugerido d)
      (dp_campo_afetado d) (dp_competencia d)
      novo_status (dp_confidence_score d) (dp_regras_aplicadas d)
      (dp_dados_contextuais d)
      valor_aplicado true processado_por motivo_rejeicao
  else d.

Definition update_divergencia (divergencia_id : Z) (novo_status : string)
    (valor_aplicado : option valor) (processado_por motivo_rejeicao : option string)
    (c : Connection) : unit * Connection :=
  (tt, set_working
         (set_divergencias_processadas
            (map (atualiza_linha divergencia_id novo_status valor_aplicado
                    processado_por motivo_rejeicao)
                 (divergencias_processadas (working c)))
            (working c)) c).

Definition atualizar_status_divergencia (divergencia_id : Z) (novo_status : string)
    (valor_aplicado : option valor) (processado_por motivo_rejeicao : option string)
    : M unit :=
  try_except_psycopg2
    (execute (Update TDivergencias)
       (update_divergencia divergencia_id novo_status valor_aplicado
          processado_por motivo_rejeicao) ;;;
     commit)
    (fun e => rollback ;;; raise e).

(** Effect of [INSERT INTO audit.sessoes_processamento (...) VALUES
    (%s, NOW(), 'RUNNING', %s, %s) RETURNING id]. *)
Definition insert_sessao (tipo_sessao : string) (parametros_execucao : option dict)
    (ambiente : string) (c : Connection) : Z * Connection :=
  let id := seq_sessoes c in
  let linha := mkSessao id tipo_sessao "RUNNING" parametros_execucao ambiente
                 false None None None None None None None in
  (id, mkConnection (committed c)
         (set_sessoes_processamento
            (sessoes_processamento (working c) ++ [linha]) (working c))
         (seq_operacoes c) (seq_divergencias c) (id + 1) (agenda c) (relogio c)
         (historico c)).

Definition iniciar_sessao_processamento (tipo_sessao : string)
    (parametros_execucao : option dict) (ambiente : string) : M Z :=
  try_except_psycopg2
    (sessao_id <- execute (Insert TSessoes)
                    (insert_sessao tipo_sessao (json_or_none parametros_execucao)
                       ambiente) ;;
     commit ;;;
     ret sessao_id)
    (fun e => rollback ;;; raise e).

(** [metricas.get(chave, 0)] *)
Fixpoint metricas_get (metricas : list (string * Z)) (chave : string) : Z :=
  match metricas with
  | [] => 0
  | (k, v) :: resto => if String.eqb k chave then v else metricas_get resto chave
  end.

Definition finaliza_sessao_linha (sessao_id : Z) (status : string)
    (metricas : list (string * Z)) (resultado_geral log_completo : option string)
    (s : Sessao) : Sessao :=
  if ss_id s =? sessao_id then
    mkSessao (ss_id s) (ss_tipo_sessao s) status (ss_parametros_execucao s)
      (ss_ambiente s) true
      (Some (metricas_get metricas "total_registros_analisados"))
      (Some (metricas_get metricas "divergencias_detectadas"))
      (Some (metricas_get metricas "correcoes_aplicadas"))
      (Some (metricas_get metricas "correcoes_pendentes"))
      (Some (metricas_get metricas "erros_encontrados"))
      resultado_geral log_completo
  else s.

Definition update_sessao (sessao_id : Z) (status : string)
    (metricas : list (string * Z)) (resultado_geral log_completo : option string)
    (c : Connection) : unit * Connection :=
  (tt, set_working
         (set_sessoes_processamento
            (map (finaliza_sessao_linha sessao_id status metricas resultado_geral
                    log_completo)
                 (sessoes_processamento (working c)))
            (working c)) c).

Definition finalizar_sessao_processamento (sessao_id : Z) (status : string)
    (metricas : list (string * Z)) (resultado_geral log_completo : option string)
    : M unit :=
  try_except_psycopg2
    (execute (Update TSessoes)
       (update_sessao sessao_id status metricas resultado_geral log_completo) ;;;
     commit)
    (fun e => rollback ;;; raise e).

(** [f"{operacao_id}"]: an integer as decimal text. *)
Definition str_int (z : Z) : string :=
  DecimalString.NilZero.string_of_int (Z.to_int z).

(** The context manager [operacao_auditada]: [corpo] is the block under the
    [with], which receives the operation's id.  The [try] covers the block
    and the SUCCESS finalization; [except Exception] finalizes as FAILED with
    [f"{type(e).__name__}: {str(e)}"] and re-raises. *)
Definition operacao_auditada {A}
    (tipo_operacao descricao usuario origem : string)
    (tabela_afetada : option string) (filtros_aplicados : option dict)
    (query_executada : option string) (metadata : option dict)
    (corpo : Z -> M A) : M A :=
  operacao_id <- iniciar_operacao tipo_operacao descricao usuario origem
                   tabela_afetada filtros_aplicados query_executada metadata ;;
  try_except
    (a <- corpo operacao_id ;;
     finalizar_operacao operacao_id "SUCCESS" 0 None None None ;;;
     ret a)
    (fun e =>
       let erro_msg := (classe e ++ ": " ++ texto e)%string in
       finalizar_operacao operacao_id "FAILED" 0 None None (Some erro_msg) ;;;
       raise e).

(** The dictionary returned by [obter_operacoes_para_rollback]. *)
Record DadosRollback : Type := mkDadosRollback {
  rb_id : Z;
  rb_tipo_operacao : string;
  rb_tabela_afetada : option string;
  rb_dados_anteriores : option (list Snapshot);
  rb_registros_afetados : option Z
}.

(** [SELECT id, tipo_operacao, tabela_afetada, dados_anteriores,
     registros_afetados FROM audit.operacoes WHERE id = %s] and [fetchone()]. *)
Definition select_operacao (operacao_id : Z) (c : Connection)
    : option Operacao * Connection :=
  (match filter (fun o => op_id o =? operacao_id) (operacoes (working c)) with
   | [] => None
   | o :: _ => Some o
   end, c).

(** [obter_operacoes_para_rollback]: a database error is logged and raised
    again ([except psycopg2.Error: ...; raise]), the [ValueError] for a
    missing row is not caught at all; neither path rolls back. *)
Definition obter_operacoes_para_rollback (operacao_id : Z) : M DadosRollback :=
  row <- execute (Select TOperacoes) (select_operacao operacao_id) ;;
  match row with
  | None => raise (mkExcecao "ValueError" false
                     ("Operacao " ++ str_int operacao_id ++ " nao encontrada")%string)
  | Some o =>
      ret (mkDadosRollback (op_id o) (op_tipo_operacao o) (op_tabela_afetada o)
             (op_dados_anteriores o) (op_registros_afetados o))
  end.

End AuditLogger.

(* ================================================================== *)
(** * Detection and correction: class DivergenceProcessor *)
(* ================================================================== *)

Module DivergenceProcessor.

Definition Qlt_bool (a b : Q) : bool := negb (Qle_bool b a).

(** [float(x)] of a NUMERIC value: the binary64 number nearest to it, ties
    to even, as the division of its numerator by its denominator. *)
Definition float_de_Z (z : Z) : float64 :=
  match z with
  | Z0 => S754_zero false
  | Zpos p => S754_finite false p 0
  | Zneg p => S754_finite true p 0
  end.

Definition float (q : Q) : float64 :=
  SFdiv 53 1024 (float_de_Z (Qnum q)) (S754_finite false (Qden q) 0).

(** [float(x) if x else 0.0]: NULL and zero both give [0.0]. *)
Definition float64_or_zero (x : option Q) : float64 :=
  match x with
  | Some q => float q
  | None => S754_zero false
  end.

(** The literal [0.01]. *)
Definition tolerancia : float64 := float (1 # 100).

(** [abs(a - b) > 0.01] on floats. *)
Definition excede_tolerancia (a b : float64) : bool :=
  SFltb tolerancia (SFabs (SFsub 53 1024 a b)).

(** [float(x) if x else 0.0] where the result is only compared with [0] and
    [100000] (the value-range rule): the amount itself. *)
Definition float_or_zero (x : option Q) : Q :=
  match x with
  | Some q => q
  | None => 0%Q
  end.

Definition texto_ou_none (x : option string) : dado :=
  match x with
  | Some s => DTexto s
  | None => DNone
  end.

(** [str(x) if x else None] on the processing date. *)
Definition data_ou_none (x : option Data) : dado :=
  match x with
  | Some d => DData d
  | None => DNone
  end.

Definition inteiro_ou_none (x : option Z) : dado :=
  match x with
  | Some z => DInt z
  | None => DNone
  end.

(** [if data_inicio and data_fim: query += " AND dta_processamento BETWEEN %s AND %s"].
    A NULL date never satisfies BETWEEN. *)
Definition filtro_periodo (data_inicio data_fim : option Data) (r : BonusView) : bool :=
  match data_inicio, data_fim with
  | Some a, Some b =>
      match bv_dta_processamento r with
      | Some x => data_between x a b
      | None => false
      end
  | _, _ => true
  end.

(** [ORDER BY dta_processamento DESC]: NULL dates come first, later dates
    before earlier ones; rows with equal dates keep their order. *)
Definition antes_desc (a b : BonusView) : bool :=
  match bv_dta_processamento a, bv_dta_processamento b with
  | None, _ => true
  | Some _, None => false
  | Some x, Some y => data_chave y <=? data_chave x
  end.

Fixpoint insere_desc (r : BonusView) (l : list BonusView) : list BonusView :=
  match l with
  | [] => [r]
  | x :: resto => if antes_desc r x then r :: x :: resto
                  else x :: insere_desc r resto
  end.

Definition order_by_dta_desc (l : list BonusView) : list BonusView :=
  fold_right insere_desc [] l.

(* ---------------- Rule 1: trade marketing ---------------- *)

Definition where_trade_marketing (data_inicio data_fim : option Data)
    (r : BonusView) : bool :=
  match bv_apontamento r with
  | Some a => String.eqb a "Revisar Divergência!" && filtro_periodo data_inicio data_fim r
  | None => false
  end.

Definition dados_trade (r : BonusView) : dict :=
  [("des_modelo", texto_ou_none (bv_des_modelo r));
   ("bonus_utilizado", texto_ou_none (bv_bonus_utilizado r));
   ("dta_processamento", data_ou_none (bv_dta_processamento r))].

(** The body of the loop over the rows of the first scan. *)
Definition divergencias_da_linha_trade (r : BonusView) : list Divergencia :=
  let valor_bonus := float64_or_zero (bv_valor_bonus r) in
  let trade := float64_or_zero (bv_trade r) in
  let bonus_dpto_atual := float64_or_zero (bv_bonus_dpto r) in
  let trade_mkt_dpto_atual := float64_or_zero (bv_trade_mkt_dpto r) in
  (if excede_tolerancia bonus_dpto_atual valor_bonus then
     [mkDivergencia (bv_idnfsexterno r) "TRADE_MARKETING_BONUS" "bonus_dpto"
        (Some (VFloat bonus_dpto_atual)) (Some (VFloat valor_bonus))
        (bv_competencia r) (95 # 100) ["BONUS_DPTO_DIVERGENTE"] (dados_trade r)]
   else [])
  ++
  (if excede_tolerancia trade_mkt_dpto_atual trade then
     [mkDivergencia (bv_idnfsexterno r) "TRADE_MARKETING_TRADE" "trade_mkt_dpto"
        (Some (VFloat trade_mkt_dpto_atual)) (Some (VFloat trade))
        (bv_competencia r) (95 # 100) ["TRADE_MKT_DPTO_DIVERGENTE"] (dados_trade r)]
   else []).

Definition _detectar_divergencias_trade_marketing (data_inicio data_fim : option Data)
    : M (list Divergencia) :=
  rows <- execute (Select TBonusView)
            (fun c => (order_by_dta_desc
                         (filter (where_trade_marketing data_inicio data_fim)
                                 (bonus_view (working c))), c)) ;;
  ret (flat_map divergencias_da_linha_trade rows).

(* ---------------- Rule 2: pending verification ---------------- *)

(** [WHERE bonus_utilizado = 'PENDENTE VERIFICACAO'
     AND dta_processamento BETWEEN '2025-08-01' AND '2026-12-31'] *)
Definition where_pendentes (r : BonusView) : bool :=
  match bv_bonus_utilizado r, bv_dta_processamento r with
  | Some b, Some x =>
      String.eqb b "PENDENTE VERIFICACAO"
      && data_between x (mkData 2025 8 1) (mkData 2026 12 31)
  | _, _ => false
  end.

Definition divergencia_da_linha_pendente (r : BonusView) : Divergencia :=
  let dias_pendente := bv_dias_pendente r in
  let confianca := (5 # 10)%Q in
  mkDivergencia (bv_idnfsexterno r) "PENDENTE_VERIFICACAO" "bonus_utilizado"
    (Some (VTexto "PENDENTE VERIFICACAO")) None
    (bv_competencia r) confianca ["VERIFICACAO_PENDENTE_PROLONGADA"]
    [("dias_pendente", inteiro_ou_none dias_pendente);
     ("dta_processamento", data_ou_none (bv_dta_processamento r))].

(** The severity over the number of pending rows; the source only logs it. *)
Definition nivel_criticidade (total_pendentes : nat) : string :=
  if (total_pendentes <? 10)%nat then "BAIXA CRITICIDADE"
  else if (total_pendentes <=? 20)%nat then "ATENCAO - Volume moderado de pendentes"
  else "CRITICO - Ajustar Chassis pendentes de verificacao!".

Definition _detectar_pendentes_verificacao (data_inicio data_fim : option Data)
    : M (list Divergencia) :=
  rows <- execute (Select TBonusView)
            (fun c => (filter where_pendentes (bonus_view (working c)), c)) ;;
  ret (map divergencia_da_linha_pendente rows).

(* ---------------- Rule 3: value ranges ---------------- *)

(** [COALESCE(CAST(x AS NUMERIC), 0)] *)
Definition coalesce0 (x : option Q) : Q :=
  match x with
  | Some q => q
  | None => 0%Q
  end.

Definition where_valores (data_inicio data_fim : option Data) (r : BonusView) : bool :=
  (Qlt_bool (coalesce0 (bv_trade r)) 0
   || Qlt_bool (coalesce0 (bv_valor_bonus r)) 0
   || Qlt_bool (coalesce0 (bv_bonus_dpto r)) 0
   || Qlt_bool (100000 # 1) (coalesce0 (bv_trade r))
   || Qlt_bool (100000 # 1) (coalesce0 (bv_valor_bonus r)))
  && filtro_periodo data_inicio data_fim r.

(** The four tests of the loop body, in the order of the source. *)
Definition regras_violadas_da_linha (trade valor_bonus : Q) : list string :=
  (if Qlt_bool trade 0 then ["TRADE_VALOR_NEGATIVO"] else [])
  ++ (if Qlt_bool valor_bonus 0 then ["BONUS_VALOR_NEGATIVO"] else [])
  ++ (if Qlt_bool (100000 # 1) trade then ["TRADE_VALOR_OUTLIER"] else [])
  ++ (if Qlt_bool (100000 # 1) valor_bonus then ["BONUS_VALOR_OUTLIER"] else []).

Definition divergencias_da_linha_valores (r : BonusView) : list Divergencia :=
  let trade := float_or_zero (bv_trade r) in
  let valor_bonus := float_or_zero (bv_valor_bonus r) in
  let regras_violadas := regras_violadas_da_linha trade valor_bonus in
  match regras_violadas with
  | [] => []
  | _ :: _ =>
      [mkDivergencia (bv_idnfsexterno r) "VALIDACAO_VALOR" "valores_bonus"
         None None (bv_competencia r) (7 # 10) regras_violadas
         [("trade", DNum trade); ("valor_bonus", DNum valor_bonus)]]
  end.

Definition _detectar_divergencias_valores (data_inicio data_fim : option Data)
    : M (list Divergencia) :=
  rows <- execute (Select TBonusView)
            (fun c => (filter (where_valores data_inicio data_fim)
                              (bonus_view (working c)), c)) ;;
  ret (flat_map divergencias_da_linha_valores rows).

(* ---------------- detectar_divergencias ---------------- *)

Definition limite_confianca_padrao : Q := 8 # 10.

(** [tipo_divergencia] is accepted and not used by the source. *)
Definition detectar_divergencias (data_inicio data_fim : option Data)
    (tipo_divergencia : option string) (limite_confianca : Q)
    : M (list Divergencia) :=
  divergencias_trade <- _detectar_divergencias_trade_marketing data_inicio data_fim ;;
  divergencias_pendentes <- _detectar_pendentes_verificacao data_inicio data_fim ;;
  divergencias_valores <- _detectar_divergencias_valores data_inicio data_fim ;;
  let divergencias := divergencias_trade ++ divergencias_pendentes ++ divergencias_valores in
  ret (filter (fun d => Qle_bool limite_confianca (confianca d)) divergencias).

(* ---------------- aplicar_correcoes ---------------- *)

(** The value a [detalhes] entry carries besides id, kind and status. *)
Inductive DetalheExtra : Type :=
| ValorAplicado (v : option valor)
| Motivo (m : string)
| Confianca (q : Q).

Record Detalhe : Type := mkDetalhe {
  det_idnfsexterno : string;
  det_tipo : string;
  det_status : string;
  det_extra : DetalheExtra
}.

(** The dictionary [resultado] returned by [aplicar_correcoes]. *)
Record ResultadoCorrecoes : Type := mkResultadoCorrecoes {
  total_divergencias : Z;
  corrigidas_automaticamente : Z;
  pendentes_aprovacao : Z;
  erros : Z;
  detalhes : list Detalhe
}.

Definition limite_auto_aplicacao_padrao : Q := 95 # 100.

(** Value of a column of a row; a column the row does not list is NULL. *)
Fixpoint campo_da_linha (campo : string) (campos : list (string * option valor))
    : option valor :=
  match campos with
  | [] => None
  | (k, v) :: resto => if String.eqb k campo then v else campo_da_linha campo resto
  end.

Fixpoint set_campo (campo : string) (v : option valor)
    (campos : list (string * option valor)) : list (string * option valor) :=
  match campos with
  | [] => [(campo, v)]
  | (k, x) :: resto => if String.eqb k campo then (k, v) :: resto
                       else (k, x) :: set_campo campo v resto
  end.

(** [SELECT {campo} FROM byd.controladoria WHERE idnfsexterno = %s] followed by
    [fetchone()]: the first matching row, as a one-column tuple. *)
Definition select_controladoria (campo id : string) (c : Connection)
    : option (option valor) * Connection :=
  (match filter (fun r => String.eqb (ct_idnfsexterno r) id)
                (controladoria (working c)) with
   | [] => None
   | r :: _ => Some (campo_da_linha campo (ct_campos r))
   end, c).

(** [UPDATE byd.controladoria SET {campo} = %s WHERE idnfsexterno = %s]; the
    result is [cursor.rowcount]. *)
Definition update_controladoria (campo : string) (v : option valor) (id : string)
    (c : Connection) : Z * Connection :=
  let tabela := controladoria (working c) in
  (Z.of_nat (List.length (filter (fun r => String.eqb (ct_idnfsexterno r) id) tabela)),
   set_working
     (set_controladoria
        (map (fun r => if String.eqb (ct_idnfsexterno r) id
                       then mkControladoria (ct_idnfsexterno r)
                              (set_campo campo v (ct_campos r))
                       else r) tabela)
        (working c)) c).

(** The [except Exception as e] branch of [_aplicar_correcao_automatica];
    [op_id] is [Some] when the name is bound (['op_id' in locals()]). *)
Definition tratar_falha_correcao (op_id : option Z) (e : Excecao) : M bool :=
  rollback ;;;
  match op_id with
  | Some id => AuditLogger.finalizar_operacao id "FAILED" 0 None None (Some (texto e))
  | None => ret tt
  end ;;;
  ret false.

(** The statements of the [try] block that follow [iniciar_operacao]. *)
Definition corpo_correcao (divergencia : Divergencia) (usuario : string) (op_id : Z)
    : M bool :=
  valor_anterior <- execute (Select TControladoria)
                      (select_controladoria (campo_afetado divergencia)
                         (idnfsexterno divergencia)) ;;
  registros_afetados <- execute (Update TControladoria)
                          (update_controladoria (campo_afetado divergencia)
                             (valor_esperado divergencia) (idnfsexterno divergencia)) ;;
  div_id <- AuditLogger.registrar_divergencia op_id (idnfsexterno divergencia)
              (tipo divergencia) (valor_atual divergencia) (valor_esperado divergencia)
              (campo_afetado divergencia) (competencia divergencia)
              (Some (confianca divergencia)) (Some (regras_violadas divergencia))
              (Some (dados_adicionais divergencia)) ;;
  AuditLogger.atualizar_status_divergencia div_id "AUTO_APPLIED"
    (valor_esperado divergencia) (Some usuario) None ;;;
  AuditLogger.finalizar_operacao op_id "SUCCESS" registros_afetados
    (Some [mkSnapshot (idnfsexterno divergencia) (campo_afetado divergencia)
             (match valor_anterior with Some v => v | None => None end)])
    (Some [mkSnapshot (idnfsexterno divergencia) (campo_afetado divergencia)
             (valor_esperado divergencia)])
    None ;;;
  commit ;;;
  ret true.

Definition _aplicar_correcao_automatica (divergencia : Divergencia) (usuario : string)
    : M bool :=
  fun c =>
    match AuditLogger.iniciar_operacao "UPDATE"
            ("Correcao automatica: " ++ tipo divergencia)%string
            usuario "AUTOMATION" (Some "byd.controladoria") None None None c with
    | (Levanta e, c1) => tratar_falha_correcao None e c1
    | (Retorna op_id, c1) =>
        try_except (corpo_correcao divergencia usuario op_id)
                   (tratar_falha_correcao (Some op_id)) c1
    end.

Definition _registrar_divergencia_pendente (divergencia : Divergencia) : M Z :=
  op_id <- AuditLogger.iniciar_operacao "DETECT"
             ("Divergencia detectada: " ++ tipo divergencia)%string
             "sistema" "AUTOMATION" None None None None ;;
  div_id <- AuditLogger.registrar_divergencia op_id (idnfsexterno divergencia)
              (tipo divergencia) (valor_atual divergencia) (valor_esperado divergencia)
              (campo_afetado divergencia) (competencia divergencia)
              (Some (confianca divergencia)) (Some (regras_violadas divergencia))
              (Some (dados_adicionais divergencia)) ;;
  AuditLogger.finalizar_operacao op_id "SUCCESS" 0 None None None ;;;
  commit ;;;
  ret div_id.

(** The decision [aplicar_auto] of the loop body. *)
Definition aplicar_auto (modo : string) (limite_auto_aplicacao : Q) (div : Divergencia)
    : bool :=
  String.eqb modo "auto"
  && Qle_bool limite_auto_aplicacao (confianca div)
  && (String.eqb (tipo div) "TRADE_MARKETING_BONUS"
      || String.eqb (tipo div) "TRADE_MARKETING_TRADE").

Definition conta_auto (resultado : ResultadoCorrecoes) (div : Divergencia)
    : ResultadoCorrecoes :=
  mkResultadoCorrecoes (total_divergencias resultado)
    (corrigidas_automaticamente resultado + 1) (pendentes_aprovacao resultado)
    (erros resultado)
    (detalhes resultado ++
       [mkDetalhe (idnfsexterno div) (tipo div) "CORRIGIDO_AUTO"
          (ValorAplicado (valor_esperado div))]).

Definition conta_pendente (resultado : ResultadoCorrecoes) (div : Divergencia)
    : ResultadoCorrecoes :=
  mkResultadoCorrecoes (total_divergencias resultado)
    (corrigidas_automaticamente resultado) (pendentes_aprovacao resultado + 1)
    (erros resultado)
    (detalhes resultado ++
       [mkDetalhe (idnfsexterno div) (tipo div) "PENDENTE_APROVACAO"
          (Confianca (confianca div))]).

Definition conta_erro (resultado : ResultadoCorrecoes) (div : Divergencia)
    (motivo : string) : ResultadoCorrecoes :=
  mkResultadoCorrecoes (total_divergencias resultado)
    (corrigidas_automaticamente resultado) (pendentes_aprovacao resultado)
    (erros resultado + 1)
    (detalhes resultado ++
       [mkDetalhe (idnfsexterno div) (tipo div) "ERRO" (Motivo motivo)]).

(** One iteration of [for div in divergencias], with its [try]/[except]. *)
Definition processar_divergencia (modo usuario : string) (limite_auto_aplicacao : Q)
    (resultado : ResultadoCorrecoes) (div : Divergencia) : M ResultadoCorrecoes :=
  try_except
    (if aplicar_auto modo limite_auto_aplicacao div then
       sucesso <- _aplicar_correcao_automatica div usuario ;;
       if sucesso : bool then ret (conta_auto resultado div)
       else ret (conta_erro resultado div "Falha na aplicacao automatica")
     else
       _registrar_divergencia_pendente div ;;;
       ret (conta_pendente resultado div))
    (fun e => ret (conta_erro resultado div (texto e))).

Fixpoint laco_correcoes (modo usuario : string) (limite_auto_aplicacao : Q)
    (divergencias : list Divergencia) (resultado : ResultadoCorrecoes)
    : M ResultadoCorrecoes :=
  match divergencias with
  | [] => ret resultado
  | div :: resto =>
      resultado' <- processar_divergencia modo usuario limite_auto_aplicacao
                      resultado div ;;
      laco_correcoes modo usuario limite_auto_aplicacao resto resultado'
  end.

Definition aplicar_correcoes (divergencias : list Divergencia) (modo usuario : string)
    (limite_auto_aplicacao : Q) : M ResultadoCorrecoes :=
  laco_correcoes modo usuario limite_auto_aplicacao divergencias
    (mkResultadoCorrecoes (Z.of_nat (List.length divergencias)) 0 0 0 []).

End DivergenceProcessor.

(* ================================================================== *)
(** * The connection scope: conn.py *)
(* ================================================================== *)

(** [with db_connection() as conn: corpo]: commit when the block ends
    normally, rollback and re-raise when the block or the commit raises.
    Obtaining the connection is the caller's concern here. *)
Definition db_connection {A} (corpo : M A) : M A :=
  try_except
    (a <- corpo ;;
     commit ;;;
     ret a)
    (fun e => rollback ;;; raise e).

(** The variables [get_connection] requires, in the order of the source. *)
Definition required_vars : list string :=
  ["DB_HOST"; "DB_NAME"; "DB_USER"; "DB_PASSWORD"].

(** [not os.getenv(var)]: the variable is unset or empty. *)
Definition nao_definida (getenv : string -> option string) (var : string) : bool :=
  match getenv var with
  | None => true
  | Some EmptyString => true
  | Some _ => false
  end.

Definition missing_vars (getenv : string -> option string) : list string :=
  filter (nao_definida getenv) required_vars.

(** [', '.join(l)] *)
Fixpoint join_virgula (l : list string) : string :=
  match l with
  | [] => ""
  | [x] => x
  | x :: resto => (x ++ ", " ++ join_virgula resto)%string
  end.

Definition nova_linha : string := String (Ascii.ascii_of_nat 10) "".

(** The ways [get_connection] fails: its own [ValueError], the
    [psycopg2.Error] it raises in place of the one it caught, and an
    exception of another class that [psycopg2.connect] raised, which it lets
    through. *)
Inductive ErroConexao : Type :=
| ValueError (mensagem : string)
| PsycopgError (mensagem : string)
| OutraExcecao (e : Excecao).

(** [get_connection]: the environment is read through [getenv]; [connect] is
    what the call of [psycopg2.connect] with the configuration does. *)
Definition get_connection (getenv : string -> option string)
    (connect : Resultado Connection) : ErroConexao + Connection :=
  match missing_vars getenv with
  | _ :: _ =>
      inl (ValueError
             ("❌ Variáveis de ambiente obrigatórias não definidas: "
              ++ join_virgula (missing_vars getenv) ++ nova_linha
              ++ "Certifique-se de ter um arquivo .env na raiz do projeto com todas as credenciais.")%string)
  | [] =>
      match connect with
      | Retorna conn => inr conn
      | Levanta e =>
          if de_psycopg2 e then
            inl (PsycopgError
                   ("❌ Erro ao conectar ao banco de dados: " ++ texto e ++ nova_linha
                    ++ "Verifique suas credenciais no arquivo .env")%string)
          else inl (OutraExcecao e)
      end
  end.

(* ================================================================== *)
(** * Approve and reject: api/routers/divergences.py *)
(* ================================================================== *)

Module Divergences.

(** What one pass of the approval loop appends to [resultados]. *)
Inductive ResultadoAprovacao : Type :=
| Aprovado (divergencia_id : Z) (valor_aplicado : option valor)
| Erro (divergencia_id : Z) (mensagem : string).

(** [SELECT idnfsexterno, tipo_divergencia, campo_afetado, valor_sugerido
     FROM audit.divergencias_processadas
     WHERE id = %s AND status_processamento = 'DETECTED'] and [fetchone()]. *)
Definition select_detectada (div_id : Z) (c : Connection)
    : option DivergenciaProcessada * Connection :=
  (match filter (fun d => (dp_id d =? div_id)
                          && String.eqb (dp_status_processamento d) "DETECTED")
                (divergencias_processadas (working c)) with
   | [] => None
   | d :: _ => Some d
   end, c).

(** The body of [for div_id in request.divergencia_ids] in [aprovar_correcoes]. *)
Definition aprovar_uma (usuario : string) (valor_customizado : option valor)
    (div_id : Z) : M ResultadoAprovacao :=
  try_except
    (row <- execute (Select TDivergencias) (select_detectada div_id) ;;
     match row with
     | None => ret (Erro div_id "Divergencia nao encontrada ou ja processada")
     | Some d =>
         let valor_aplicar :=
           match valor_customizado with
           | Some v => Some v
           | None => dp_valor_sugerido d
           end in
         op_id <- AuditLogger.iniciar_operacao "UPDATE"
                    ("Aprovacao manual: " ++ dp_tipo_divergencia d)%string
                    usuario "API" (Some "byd.controladoria") None None None ;;
         execute (Update TControladoria)
           (DivergenceProcessor.update_controladoria (dp_campo_afetado d)
              valor_aplicar (dp_idnfsexterno d)) ;;;
         AuditLogger.atualizar_status_divergencia div_id "APPROVED" valor_aplicar
           (Some usuario) None ;;;
         AuditLogger.finalizar_operacao op_id "SUCCESS" 0 None None None ;;;
         ret (Aprovado div_id valor_aplicar)
     end)
    (fun e => ret (Erro div_id (texto e))).

(** [rejeitar_divergencia]: the ledger is called for whatever id comes in. *)
Definition rejeitar_divergencia (divergencia_id : Z) (motivo usuario : string)
    : M unit :=
  db_connection
    (AuditLogger.atualizar_status_divergencia divergencia_id "REJECTED" None
       (Some usuario) (Some motivo)).

(** The loop of [aprovar_correcoes] over [request.divergencia_ids]. *)
Fixpoint laco_aprovacao (usuario : string) (valor_customizado : option valor)
    (divergencia_ids : list Z) (resultados : list ResultadoAprovacao)
    : M (list ResultadoAprovacao) :=
  match divergencia_ids with
  | [] => ret resultados
  | div_id :: resto =>
      r <- aprovar_uma usuario valor_customizado div_id ;;
      laco_aprovacao usuario valor_customizado resto (resultados ++ [r])
  end.

Definition e_aprovado (r : ResultadoAprovacao) : bool :=
  match r with
  | Aprovado _ _ => true
  | Erro _ _ => false
  end.

Definition id_do_resultado (r : ResultadoAprovacao) : Z :=
  match r with
  | Aprovado id _ => id
  | Erro id _ => id
  end.

(** The answer of [aprovar_correcoes], without its timestamp. *)
Record ResumoAprovacao : Type := mkResumoAprovacao {
  total_processado : Z;
  aprovados : Z;
  erros_aprovacao : Z;
  detalhes_aprovacao : list ResultadoAprovacao
}.

(** [aprovar_correcoes]: the loop, [conn.commit()], the summary, all inside
    [with db_connection()].  The outer handler turns an error into an HTTP
    500 with the error's text. *)
Definition aprovar_correcoes (divergencia_ids : list Z) (usuario : string)
    (valor_customizado : option valor) : M ResumoAprovacao :=
  db_connection
    (resultados <- laco_aprovacao usuario valor_customizado divergencia_ids [] ;;
     commit ;;;
     ret (mkResumoAprovacao
            (Z.of_nat (List.length divergencia_ids))
            (Z.of_nat (List.length (filter e_aprovado resultados)))
            (Z.of_nat (List.length (filter (fun r => negb (e_aprovado r)) resultados)))
            resultados)).

(** [processar_divergencias]: detection and correction with their default
    thresholds, inside [with db_connection()]. *)
Definition processar_divergencias (data_inicio data_fim : option Data)
    (tipo_divergencia : option string) (modo usuario : string)
    : M DivergenceProcessor.ResultadoCorrecoes :=
  db_connection
    (divergencias <- DivergenceProcessor.detectar_divergencias data_inicio data_fim
                       tipo_divergencia DivergenceProcessor.limite_confianca_padrao ;;
     DivergenceProcessor.aplicar_correcoes divergencias modo usuario
       DivergenceProcessor.limite_auto_aplicacao_padrao).

End Divergences.

(* ================================================================== *)
(** * The daily run: class DailyProcessor *)
(* ================================================================== *)

Module DailyProcessor.

Import DivergenceProcessor.

(** The attributes set by [__init__]. *)
Record DailyProcessor : Type := mkDailyProcessor {
  data_inicio : Data;
  data_fim : Data;
  modo : string
}.

(** What the collaborators outside the database do during one run: whether
    [get_connection()] raises, what [gerar_relatorio_divergencias] returns or
    raises (it writes a file), and what [enviar_alerta_divergencias] returns
    or raises. *)
Record Ambiente : Type := mkAmbiente {
  amb_get_connection : option string;
  amb_gerar_relatorio : Resultado string;
  amb_enviar_alerta : Resultado bool
}.

(** The dictionary returned by [executar]; the wall-clock duration is left out. *)
Record ResultadoExecucao : Type := mkResultadoExecucao {
  re_status : string;
  re_sessao_id : option Z;
  re_periodo : option (Data * Data);
  re_metricas : list (string * Z);
  re_resultado_correcoes : option ResultadoCorrecoes;
  re_relatorio_gerado : option string;
  re_erros : list string
}.

Definition texto_de_Z (z : Z) : string :=
  DecimalString.NilZero.string_of_int (Z.to_int z).

(** ETAPA 3: the report is attempted only for a non-empty list; a failure is
    appended to [resultado['erros']]. *)
Definition etapa_relatorio (amb : Ambiente) (divergencias : list Divergencia)
    (erros : list string) : option string * list string :=
  match divergencias with
  | [] => (None, erros)
  | _ :: _ =>
      match amb_gerar_relatorio amb with
      | Retorna caminho => (Some caminho, erros)
      | Levanta e => (None, erros ++ [("Erro ao gerar relatorio: " ++ texto e)%string])
      end
  end.

(** ETAPA 4: the alert is attempted only when something was detected; its
    boolean result is only logged, a failure is appended to the errors. *)
Definition etapa_notificacao (amb : Ambiente) (total_divergencias : Z)
    (erros : list string) : list string :=
  if 0 <? total_divergencias then
    match amb_enviar_alerta amb with
    | Retorna _ => erros
    | Levanta e => erros ++ [("Erro ao enviar notificacao: " ++ texto e)%string]
    end
  else erros.

Definition metricas_da_execucao (total_divergencias : Z)
    (resultado_correcoes : ResultadoCorrecoes) : list (string * Z) :=
  [("total_registros_analisados", total_divergencias);
   ("divergencias_detectadas", total_divergencias);
   ("correcoes_aplicadas", corrigidas_automaticamente resultado_correcoes);
   ("correcoes_pendentes", pendentes_aprovacao resultado_correcoes);
   ("erros_encontrados", erros resultado_correcoes)].

Definition status_final (resultado_correcoes : ResultadoCorrecoes) : string :=
  if erros resultado_correcoes =? 0 then "COMPLETED" else "PARTIAL".

(** What the [try] block has computed when it reaches "Finaliza sessão". *)
Record Etapas : Type := mkEtapas {
  et_sessao_id : Z;
  et_total_divergencias : Z;
  et_resultado_correcoes : ResultadoCorrecoes;
  et_relatorio_path : option string;
  et_erros : list string
}.

(** From [iniciar_sessao_processamento] to the end of ETAPA 4. *)
Definition etapas_1_a_4 (self : DailyProcessor) (amb : Ambiente) : M Etapas :=
  sessao_id <- AuditLogger.iniciar_sessao_processamento
                 (if String.eqb (modo self) "auto" then "DAILY_AUTO" else "MANUAL_RUN")
                 (Some [("data_inicio", DData (data_inicio self));
                        ("data_fim", DData (data_fim self));
                        ("modo", DTexto (modo self))])
                 "PRODUCTION" ;;
  divergencias <- detectar_divergencias (Some (data_inicio self))
                    (Some (data_fim self)) None limite_confianca_padrao ;;
  let total_divergencias := Z.of_nat (List.length divergencias) in
  resultado_correcoes <- aplicar_correcoes divergencias (modo self)
                           "sistema_automatico" limite_auto_aplicacao_padrao ;;
  let '(relatorio_path, erros1) := etapa_relatorio amb divergencias [] in
  let erros2 := etapa_notificacao amb total_divergencias erros1 in
  ret (mkEtapas sessao_id total_divergencias resultado_correcoes relatorio_path erros2).

Definition finalizar (et : Etapas) : M unit :=
  AuditLogger.finalizar_sessao_processamento (et_sessao_id et)
    (status_final (et_resultado_correcoes et))
    (metricas_da_execucao (et_total_divergencias et) (et_resultado_correcoes et))
    (Some ("Processamento concluido com sucesso. "
           ++ texto_de_Z (corrigidas_automaticamente (et_resultado_correcoes et))
           ++ " correcoes aplicadas, "
           ++ texto_de_Z (pendentes_aprovacao (et_resultado_correcoes et))
           ++ " pendentes.")%string)
    None.

(** The dictionary built under "Prepara resultado final". *)
Definition resultado_final (self : DailyProcessor) (et : Etapas) : ResultadoExecucao :=
  mkResultadoExecucao (status_final (et_resultado_correcoes et))
    (Some (et_sessao_id et)) (Some (data_inicio self, data_fim self))
    (metricas_da_execucao (et_total_divergencias et) (et_resultado_correcoes et))
    (Some (et_resultado_correcoes et)) (et_relatorio_path et) (et_erros et).

(** The [except Exception as e] branch of [executar]: the dictionary bound to
    [resultado] at that moment gets status FAILED and one more error.  (The
    critical-failure alert is attempted and its own failure ignored.) *)
Definition marca_falha (resultado : ResultadoExecucao) (e : string) : ResultadoExecucao :=
  mkResultadoExecucao "FAILED" (re_sessao_id resultado) (re_periodo resultado)
    (re_metricas resultado) (re_resultado_correcoes resultado)
    (re_relatorio_gerado resultado) (re_erros resultado ++ [e]).

Definition resultado_inicial (erros : list string) : ResultadoExecucao :=
  mkResultadoExecucao "ERROR" None None [] None None erros.

Definition executar (self : DailyProcessor) (amb : Ambiente) (c : Connection)
    : ResultadoExecucao * Connection :=
  match amb_get_connection amb with
  | Some e => (marca_falha (resultado_inicial []) e, c)
  | None =>
      match etapas_1_a_4 self amb c with
      | (Levanta e, c1) =>
          let '(_, c2) := rollback c1 in
          (marca_falha (resultado_inicial []) (texto e), c2)
      | (Retorna et, c1) =>
          match finalizar et c1 with
          | (Levanta e, c2) =>
              let '(_, c3) := rollback c2 in
              (marca_falha (resultado_inicial (et_erros et)) (texto e), c3)
          | (Retorna _, c2) =>
              (* [return resultado] leaves the [with] block: commit *)
              match commit c2 with
              | (Levanta e, c3) =>
                  let '(_, c4) := rollback c3 in
                  (marca_falha (resultado_final self et) (texto e), c4)
              | (Retorna _, c3) => (resultado_final self et, c3)
              end
          end
      end
  end.

(** [main]: the exit code computed from the result of [executar]. *)
Definition exit_code (resultado : ResultadoExecucao) : Z :=
  if String.eqb (re_status resultado) "COMPLETED"
     || String.eqb (re_status resultado) "PARTIAL"
  then 0 else 1.

End DailyProcessor.

(* ================================================================== *)
(** * Vocabulary of the statements proved below *)
(* ================================================================== *)

(** A ledger write is one statement followed by one commit; this is the
    error the environment raises in one of the two, if it does. *)
Definition falha_da_escrita (c : Connection) : option Excecao :=
  match agenda c (relogio c) with
  | Some e => Some e
  | None => agenda c (S (relogio c))
  end.

(** [m], run on [c], raises [e] after a rollback as its last call: the open
    transaction is back at the last committed state, which is unchanged. *)
Definition falha_propagada {A} (m : M A) (c : Connection) (e : Excecao) : Prop :=
  fst (m c) = Levanta e
  /\ (exists h, historico (snd (m c)) = h ++ [Rollback])
  /\ working (snd (m c)) = committed c
  /\ committed (snd (m c)) = committed c.

(** [m], run on [c], raises [e] and sends no rollback: what was committed
    stays, and so does whatever the open transaction holds. *)
Definition falha_sem_rollback {A} (m : M A) (c : Connection) (e : Excecao) : Prop :=
  fst (m c) = Levanta e
  /\ (exists h, historico (snd (m c)) = historico c ++ h /\ ~ In Rollback h)
  /\ committed (snd (m c)) = committed c.

(** [m], run on [c], returns and leaves nothing uncommitted. *)
Definition escrita_efetivada {A} (m : M A) (c : Connection) : Prop :=
  (exists a, fst (m c) = Retorna a)
  /\ committed (snd (m c)) = working (snd (m c)).

(** A property of all six write operations of the ledger, whatever their
    arguments. *)
Definition todas_as_escritas (P : forall A, M A -> Prop) : Prop :=
  (forall tipo_operacao descricao usuario origem tabela filtros query metadata,
      P _ (AuditLogger.iniciar_operacao tipo_operacao descricao usuario origem
             tabela filtros query metadata))
  /\ (forall operacao_id status registros anteriores posteriores erro,
      P _ (AuditLogger.finalizar_operacao operacao_id status registros
             anteriores posteriores erro))
  /\ (forall operacao_id id tipo_div anterior sugerido campo comp score regras dados,
      P _ (AuditLogger.registrar_divergencia operacao_id id tipo_div anterior
             sugerido campo comp score regras dados))
  /\ (forall divergencia_id novo_status aplicado por motivo,
      P _ (AuditLogger.atualizar_status_divergencia divergencia_id novo_status
             aplicado por motivo))
  /\ (forall tipo_sessao parametros ambiente,
      P _ (AuditLogger.iniciar_sessao_processamento tipo_sessao parametros ambiente))
  /\ (forall sessao_id status metricas resultado_geral log_completo,
      P _ (AuditLogger.finalizar_sessao_processamento sessao_id status metricas
             resultado_geral log_completo)).

(** No call that is still to come fails. *)
Definition sem_falhas (c : Connection) : Prop :=
  forall n, (relogio c <= n)%nat -> agenda c n = None.

(** How many entries of [detalhes] carry a given status. *)
Definition conta_status (s : string) (l : list DivergenceProcessor.Detalhe) : Z :=
  Z.of_nat (List.length
              (filter (fun d => String.eqb (DivergenceProcessor.det_status d) s) l)).

(** What one pass of the loop may do to [resultado]. *)
Inductive passo (resultado : DivergenceProcessor.ResultadoCorrecoes)
    (div : Divergencia) : DivergenceProcessor.ResultadoCorrecoes -> Prop :=
| passo_auto :
    passo resultado div (DivergenceProcessor.conta_auto resultado div)
| passo_pendente :
    passo resultado div (DivergenceProcessor.conta_pendente resultado div)
| passo_erro motivo :
    passo resultado div (DivergenceProcessor.conta_erro resultado div motivo).

(** The bookkeeping of [resultado] from [r0] to [r] while the divergences
    [feitas] are processed: the counters against the entries of [detalhes]. *)
Record avanca (r0 r : DivergenceProcessor.ResultadoCorrecoes)
    (feitas : list Divergencia) : Prop := {
  av_total :
    DivergenceProcessor.total_divergencias r
    = DivergenceProcessor.total_divergencias r0;
  av_soma :
    DivergenceProcessor.corrigidas_automaticamente r
    + DivergenceProcessor.pendentes_aprovacao r + DivergenceProcessor.erros r
    = DivergenceProcessor.corrigidas_automaticamente r0
      + DivergenceProcessor.pendentes_aprovacao r0 + DivergenceProcessor.erros r0
      + Z.of_nat (List.length feitas);
  av_ids :
    map DivergenceProcessor.det_idnfsexterno (DivergenceProcessor.detalhes r)
    = map DivergenceProcessor.det_idnfsexterno (DivergenceProcessor.detalhes r0)
      ++ map idnfsexterno feitas;
  av_auto :
    DivergenceProcessor.corrigidas_automaticamente r
    - DivergenceProcessor.corrigidas_automaticamente r0
    = conta_status "CORRIGIDO_AUTO" (DivergenceProcessor.detalhes r)
      - conta_status "CORRIGIDO_AUTO" (DivergenceProcessor.detalhes r0);
  av_pend :
    DivergenceProcessor.pendentes_aprovacao r
    - DivergenceProcessor.pendentes_aprovacao r0
    = conta_status "PENDENTE_APROVACAO" (DivergenceProcessor.detalhes r)
      - conta_status "PENDENTE_APROVACAO" (DivergenceProcessor.detalhes r0);
  av_erro :
    DivergenceProcessor.erros r - DivergenceProcessor.erros r0
    = conta_status "ERRO" (DivergenceProcessor.detalhes r)
      - conta_status "ERRO" (DivergenceProcessor.detalhes r0)
}.

(** The row [_registrar_divergencia_pendente] leaves in [audit.operacoes]
    for [d] once it is finalized. *)
Definition operacao_detect (d : Divergencia) (id : Z) : Operacao :=
  mkOperacao id "DETECT" ("Divergencia detectada: " ++ tipo d)%string "sistema"
    "AUTOMATION" None None None None "SUCCESS" true (Some 0) None None None.

(** The row [registrar_divergencia] inserts for [d]. *)
Definition linha_detectada (d : Divergencia) (operacao_id id : Z)
    : DivergenciaProcessada :=
  mkDivergenciaProcessada id operacao_id (idnfsexterno d) (tipo d) (valor_atual d)
    (valor_esperado d) (campo_afetado d) (competencia d) "DETECTED"
    (Some (confianca d)) (Some (regras_violadas d))
    (json_or_none (Some (dados_adicionais d))) None false None None.

(** [d] is on the ledger as pending: a DETECTED record owned by a DETECT
    operation that was finalized SUCCESS. *)
Definition registrada_como_pendente (d : Divergencia) (bd : Database) : Prop :=
  exists operacao_id id,
    In (linha_detectada d operacao_id id) (divergencias_processadas bd)
    /\ In (operacao_detect d operacao_id) (operacoes bd).

(** The sequence of [audit.operacoes] is ahead of the ids in the table. *)
Definition ids_frescos (c : Connection) : Prop :=
  forall o, In o (operacoes (working c)) -> op_id o < seq_operacoes c.

(** Statements sent against the target table (its read and its write). *)
Definition toca_alvo (ev : Evento) : bool :=
  match ev with
  | Update TControladoria => true
  | Select TControladoria => true
  | _ => false
  end.

(** The target table is [alvo] inside and outside the open transaction. *)
Definition alvo_intacto (alvo : list Controladoria) (c : Connection) : Prop :=
  controladoria (working c) = alvo /\ controladoria (committed c) = alvo.

(** [m] sends no statement against the target table and leaves it as it is. *)
Definition preserva_alvo {A} (m : M A) : Prop :=
  forall c,
    filter toca_alvo (historico (snd (m c))) = filter toca_alvo (historico c)
    /\ (forall alvo, alvo_intacto alvo c -> alvo_intacto alvo (snd (m c))).

Definition div_trade_exemplo : Divergencia :=
  mkDivergencia "NF-1" "TRADE_MARKETING_BONUS" "bonus_dpto"
    (Some (VFloat (DivergenceProcessor.float 0)))
    (Some (VFloat (DivergenceProcessor.float (50 # 1)))) (Some "2025-09") (95 # 100)
    ["BONUS_DPTO_DIVERGENTE"] [].

Definition div_pendente_exemplo : Divergencia :=
  mkDivergencia "NF-2" "PENDENTE_VERIFICACAO" "bonus_utilizado"
    (Some (VTexto "PENDENTE VERIFICACAO")) None (Some "2025-09") (5 # 10)
    ["VERIFICACAO_PENDENTE_PROLONGADA"] [].

Definition alvo_exemplo : list Controladoria :=
  [mkControladoria "NF-1" [("bonus_dpto", Some (VNum 0));
                           ("trade_mkt_dpto", Some (VNum 0))]].

(** The calls to come succeed up to the [k]-th, which raises [e]. *)
Definition primeira_falha (c : Connection) (k : nat) (e : Excecao) : Prop :=
  (forall i, (i < k)%nat -> agenda c (i + relogio c) = None)
  /\ agenda c (k + relogio c) = Some e.

(** The table of operations has a row with this id. *)
Definition tem_operacao (id : Z) (l : list Operacao) : Prop :=
  exists o, In o l /\ op_id o = id.

(** The row with this id is finalized FAILED with this error message. *)
Definition operacao_falhou (id : Z) (e : string) (l : list Operacao) : Prop :=
  exists o, In o l /\ op_id o = id /\ op_status o = "FAILED"
            /\ op_erro_mensagem o = Some e.

(** What the three rule scans produce on a given view. *)
Definition varredura_trade (data_inicio data_fim : option Data)
    (visao : list BonusView) : list Divergencia :=
  flat_map DivergenceProcessor.divergencias_da_linha_trade
    (DivergenceProcessor.order_by_dta_desc
       (filter (DivergenceProcessor.where_trade_marketing data_inicio data_fim) visao)).

Definition varredura_pendentes (visao : list BonusView) : list Divergencia :=
  map DivergenceProcessor.divergencia_da_linha_pendente
    (filter DivergenceProcessor.where_pendentes visao).

Definition varredura_valores (data_inicio data_fim : option Data)
    (visao : list BonusView) : list Divergencia :=
  flat_map DivergenceProcessor.divergencias_da_linha_valores
    (filter (DivergenceProcessor.where_valores data_inicio data_fim) visao).

(** The divergences of a given kind in a list. *)
Definition do_tipo (t : string) (l : list Divergencia) : list Divergencia :=
  filter (fun d => String.eqb (tipo d) t) l.

(** The table of sessions has a row with this id. *)
Definition tem_sessao (id : Z) (l : list Sessao) : Prop :=
  exists s, In s l /\ ss_id s = id.

(** The session row exists inside and outside the open transaction. *)
Definition sessao_aberta (id : Z) (c : Connection) : Prop :=
  tem_sessao id (sessoes_processamento (working c))
  /\ tem_sessao id (sessoes_processamento (committed c)).

(** The session row is finalized with this status. *)
Definition sessao_finalizada (id : Z) (status : string) (l : list Sessao) : Prop :=
  exists s, In s l /\ ss_id s = id /\ ss_status s = status
            /\ ss_fim_processamento s = true.

(** Running [m] keeps the property [I] of the connection. *)
Definition mantem (I : Connection -> Prop) {A} (m : M A) : Prop :=
  forall c, I c -> I (snd (m c)).

(** An empty ledger next to a target table and a warehouse view, used to run
    the code on concrete inputs. *)
Definition bd_exemplo (alvo : list Controladoria) (visao : list BonusView) : Database :=
  mkDatabase [] [] [] alvo visao.

(** A fresh connection on [bd]: nothing uncommitted, sequences at 1, the
    first calls raising as [falhas] says. *)
Definition conexao_com_excecoes (bd : Database) (falhas : list (option Excecao))
    : Connection :=
  mkConnection bd bd 1 1 1 (agenda_de_lista falhas) 0 [].

(** The same, when the calls that fail raise database errors with the texts
    of [falhas]. *)
Definition conexao_exemplo (bd : Database) (falhas : list (option string)) : Connection :=
  conexao_com_excecoes bd (map (option_map erro_bd) falhas).

Definition linha_trade_exemplo : BonusView :=
  mkBonusView "NF-1" (Some "BYD Seal") (Some "Revisar Divergência!") (Some "2025-09")
    (Some "Trade Marketing") (Some (50 # 1)) (Some 0%Q) (Some 0%Q) (Some 0%Q)
    (Some (mkData 2025 9 1)) None.

Definition linha_pendente_exemplo : BonusView :=
  mkBonusView "NF-2" (Some "BYD Dolphin") None (Some "2025-09")
    (Some "PENDENTE VERIFICACAO") None None None None
    (Some (mkData 2025 9 2)) (Some 40).

Definition linha_valor_exemplo : BonusView :=
  mkBonusView "NF-3" None None (Some "2025-09") None (Some (200000 # 1))
    (Some (-10 # 1)) None None (Some (mkData 2025 9 3)) None.

(** A row the value-range query selects only for its negative [bonus_dpto]. *)
Definition linha_bonus_dpto_negativo : BonusView :=
  mkBonusView "NF-4" None None (Some "2025-09") None (Some 0%Q) (Some 0%Q)
    (Some (-5 # 1)) (Some 0%Q) (Some (mkData 2025 9 4)) None.

Definition visao_exemplo : list BonusView :=
  [linha_trade_exemplo; linha_pendente_exemplo; linha_valor_exemplo].

(** The connection after one successful automatic correction: the ledger
    holds the divergence of [div_trade_exemplo] as AUTO_APPLIED. *)
Definition conexao_aplicada : Connection :=
  snd (DivergenceProcessor.aplicar_correcoes [div_trade_exemplo] "auto"
         "sistema_automatico" DivergenceProcessor.limite_auto_aplicacao_padrao
         (conexao_exemplo (bd_exemplo alvo_exemplo []) [])).

(** A daily run in manual mode over September 2025, and surroundings in
    which only the report cannot be written. *)
Definition execucao_exemplo : DailyProcessor.DailyProcessor :=
  DailyProcessor.mkDailyProcessor (mkData 2025 9 1) (mkData 2025 9 30) "manual".


(** The row with this id is finalized with this status. *)
Definition operacao_com_status (id : Z) (status : string) (l : list Operacao) : Prop :=
  exists o, In o l /\ op_id o = id /\ op_status o = status
            /\ op_timestamp_fim o = true.

(** Begin an operation, finalize it, then ask for its rollback data. *)
Definition registrar_e_consultar (tipo_operacao descricao usuario origem : string)
    (tabela_afetada : option string) (status : string) (registros_afetados : Z)
    (dados_anteriores dados_posteriores : option (list Snapshot))
    (erro_mensagem : option string) : M AuditLogger.DadosRollback :=
  bind (AuditLogger.iniciar_operacao tipo_operacao descricao usuario origem
          tabela_afetada None None None)
    (fun operacao_id =>
       bind (AuditLogger.finalizar_operacao operacao_id status registros_afetados
               dados_anteriores dados_posteriores erro_mensagem)
         (fun _ => AuditLogger.obter_operacoes_para_rollback operacao_id)).

(** The rows of the target table a correction of [d] addresses. *)
Definition linhas_do_alvo (d : Divergencia) (t : list Controladoria)
    : list Controladoria :=
  filter (fun r => String.eqb (ct_idnfsexterno r) (idnfsexterno d)) t.

(** The value a correction of [d] reads before it writes: the disputed
    column of the first addressed row, NULL when no row is addressed. *)
Definition valor_anterior_lido (d : Divergencia) (t : list Controladoria)
    : option valor :=
  match linhas_do_alvo d t with
  | [] => None
  | r :: _ => DivergenceProcessor.campo_da_linha (campo_afetado d) (ct_campos r)
  end.

(** The target table after the correction of [d] is written. *)
Definition alvo_corrigido (d : Divergencia) (t : list Controladoria)
    : list Controladoria :=
  map (fun r => if String.eqb (ct_idnfsexterno r) (idnfsexterno d)
                then mkControladoria (ct_idnfsexterno r)
                       (DivergenceProcessor.set_campo (campo_afetado d)
                          (valor_esperado d) (ct_campos r))
                else r) t.

(** The finalized operation row of a successful automatic correction of [d]
    on the target table [t]. *)
Definition operacao_update (d : Divergencia) (usuario : string) (id : Z)
    (t : list Controladoria) : Operacao :=
  mkOperacao id "UPDATE" ("Correcao automatica: " ++ tipo d)%string usuario
    "AUTOMATION" (Some "byd.controladoria") None None None "SUCCESS" true
    (Some (Z.of_nat (List.length (linhas_do_alvo d t))))
    (Some [mkSnapshot (idnfsexterno d) (campo_afetado d) (valor_anterior_lido d t)])
    (Some [mkSnapshot (idnfsexterno d) (campo_afetado d) (valor_esperado d)])
    None.

(** The divergence record of a successful automatic correction of [d]. *)
Definition linha_aplicada (d : Divergencia) (usuario : string) (operacao_id id : Z)
    : DivergenciaProcessada :=
  mkDivergenciaProcessada id operacao_id (idnfsexterno d) (tipo d) (valor_atual d)
    (valor_esperado d) (campo_afetado d) (competencia d) "AUTO_APPLIED"
    (Some (confianca d)) (Some (regras_violadas d))
    (json_or_none (Some (dados_adicionais d)))
    (valor_esperado d) true (Some usuario) None.

(** The status a divergence gets in [detalhes] when nothing fails. *)
Definition status_sem_falhas (modo : string) (limite : Q) (d : Divergencia) : string :=
  if DivergenceProcessor.aplicar_auto modo limite d
  then "CORRIGIDO_AUTO" else "PENDENTE_APROVACAO".

(** The target table after a batch on which nothing fails: the corrections
    of the divergences that pass the gate, written in the order of the list. *)
Fixpoint alvo_apos_lote (modo : string) (limite : Q) (divergencias : list Divergencia)
    (t : list Controladoria) : list Controladoria :=
  match divergencias with
  | [] => t
  | d :: resto =>
      alvo_apos_lote modo limite resto
        (if DivergenceProcessor.aplicar_auto modo limite d
         then alvo_corrigido d t else t)
  end.

(** The session row is on the table as it was inserted: RUNNING, without an
    end of processing. *)
Definition sessao_em_curso (id : Z) (l : list Sessao) : Prop :=
  exists s, In s l /\ ss_id s = id /\ ss_status s = "RUNNING"
            /\ ss_fim_processamento s = false.

(** The session row carries these counts. *)
Definition sessao_com_metricas (id n aplicadas pendentes falhas : Z)
    (l : list Sessao) : Prop :=
  exists s, In s l /\ ss_id s = id
            /\ ss_fim_processamento s = true
            /\ ss_total_registros_analisados s = Some n
            /\ ss_divergencias_detectadas s = Some n
            /\ ss_correcoes_aplicadas s = Some aplicadas
            /\ ss_correcoes_pendentes s = Some pendentes
            /\ ss_erros_encontrados s = Some falhas.

(** A daily run in automatic mode over September 2025. *)
Definition execucao_auto_exemplo : DailyProcessor.DailyProcessor :=
  DailyProcessor.mkDailyProcessor (mkData 2025 9 1) (mkData 2025 9 30) "auto".

Definition ambiente_exemplo : DailyProcessor.Ambiente :=
  DailyProcessor.mkAmbiente None (Retorna "Datasets/divergencias.csv") (Retorna true).

(** The target table after [campo] is set to [v] on the rows with this id. *)
Definition alvo_com_valor (campo : string) (v : option valor) (id : string)
    (t : list Controladoria) : list Controladoria :=
  map (fun r => if String.eqb (ct_idnfsexterno r) id
                then mkControladoria (ct_idnfsexterno r)
                       (DivergenceProcessor.set_campo campo v (ct_campos r))
                else r) t.

(** The value an approval writes: the custom value of the request when it
    has one, the record's suggested value otherwise. *)
Definition valor_a_aplicar (valor_customizado : option valor)
    (d : DivergenciaProcessada) : option valor :=
  match valor_customizado with
  | Some v => Some v
  | None => dp_valor_sugerido d
  end.

(** The record [d] once it is approved by [usuario] with the value [v]. *)
Definition linha_aprovada (d : DivergenciaProcessada) (v : option valor)
    (usuario : string) : DivergenciaProcessada :=
  mkDivergenciaProcessada (dp_id d) (dp_operacao_id d) (dp_idnfsexterno d)
    (dp_tipo_divergencia d) (dp_valor_anterior d) (dp_valor_sugerido d)
    (dp_campo_afetado d) (dp_competencia d) "APPROVED" (dp_confidence_score d)
    (dp_regras_aplicadas d) (dp_dados_contextuais d) v true (Some usuario) None.

(** The operation row of a manual approval of [d], finalized. *)
Definition operacao_aprovacao (d : DivergenciaProcessada) (usuario : string) (id : Z)
    : Operacao :=
  mkOperacao id "UPDATE" ("Aprovacao manual: " ++ dp_tipo_divergencia d)%string
    usuario "API" (Some "byd.controladoria") None None None "SUCCESS" true
    (Some 0) None None None.

(** A ledger that holds one DETECTED record, with id 1, for the row NF-1. *)
Definition registro_detectado_exemplo : DivergenciaProcessada :=
  linha_detectada div_trade_exemplo 7 1.

Definition conexao_com_registro : Connection :=
  conexao_exemplo
    (mkDatabase [] [registro_detectado_exemplo] [] alvo_exemplo []) [].

(** An environment with every required variable set. *)
Definition getenv_exemplo (var : string) : option string :=
  if String.eqb var "DB_HOST" then Some "db.local"
  else if String.eqb var "DB_NAME" then Some "byd"
  else if String.eqb var "DB_USER" then Some "etl"
  else if String.eqb var "DB_PASSWORD" then Some "segredo"
  else None.

(** The two ledger rows of a registration are in their tables, inside and
    outside the open transaction, and the sequence of operations is past the
    operation's id. *)
Definition registro_persistente (o : Operacao) (l : DivergenciaProcessada)
    (c : Connection) : Prop :=
  In o (operacoes (working c)) /\ In o (operacoes (committed c))
  /\ In l (divergencias_processadas (working c))
  /\ In l (divergencias_processadas (committed c))
  /\ op_id o < seq_operacoes c.

(** The connection on which the loop of a batch of [total] divergences
    processes the divergence that follows [antes]. *)
Definition conexao_apos (modo usuario : string) (limite : Q)
    (antes : list Divergencia) (total : nat) (c : Connection) : Connection :=
  snd (DivergenceProcessor.laco_correcoes modo usuario limite antes
         (DivergenceProcessor.mkResultadoCorrecoes (Z.of_nat total) 0 0 0 []) c).

(** The entries of [detalhes] for a divergence left pending and for one whose
    processing raised. *)
Definition detalhe_pendente (d : Divergencia) : DivergenceProcessor.Detalhe :=
  DivergenceProcessor.mkDetalhe (idnfsexterno d) (tipo d) "PENDENTE_APROVACAO"
    (DivergenceProcessor.Confianca (confianca d)).

Definition detalhe_erro (d : Divergencia) (motivo : string)
    : DivergenceProcessor.Detalhe :=
  DivergenceProcessor.mkDetalhe (idnfsexterno d) (tipo d) "ERRO"
    (DivergenceProcessor.Motivo motivo).

(* ================================================================== *)
(** * The ledger never swallows a write failure *)
(* ================================================================== *)

Ltac abre_escrita :=
  unfold falha_da_escrita, falha_propagada, falha_sem_rollback, escrita_efetivada,
    AuditLogger.iniciar_operacao, AuditLogger.finalizar_operacao,
    AuditLogger.registrar_divergencia, AuditLogger.atualizar_status_divergencia,
    AuditLogger.iniciar_sessao_processamento,
    AuditLogger.finalizar_sessao_processamento,
    try_except_psycopg2, try_except, bind, ret, raise, rollback, execute, commit.

Ltac fecha_falha P :=
  let H := fresh "H" in
  intros H; inversion H; subst; cbn; rewrite P; cbn;
  repeat split; try (eexists; reflexivity);
  try (eexists; split; [rewrite <- ?app_assoc; reflexivity|];
       cbn; intuition discriminate).

Ltac resolve_falha c P :=
  let E1 := fresh "E1" in
  let E2 := fresh "E2" in
  abre_escrita; cbn;
  destruct (agenda c (relogio c)) eqn:E1; cbn;
  [ fecha_falha P
  | rewrite ?E1; cbn;
    destruct (agenda c (S (relogio c))) eqn:E2; cbn;
    [ fecha_falha P
    | let H := fresh "H" in intros H; discriminate H ] ].

Lemma todas_as_escritas_propagam c e :
  falha_da_escrita c = Some e -> de_psycopg2 e = true ->
  todas_as_escritas (fun A m => falha_propagada m c e).
Proof.
  intros F P. unfold todas_as_escritas.
  repeat split; intros; revert F; resolve_falha c P.
Qed.

Lemma todas_as_escritas_deixam_passar c e :
  falha_da_escrita c = Some e -> de_psycopg2 e = false ->
  todas_as_escritas (fun A m => falha_sem_rollback m c e).
Proof.
  intros F P. unfold todas_as_escritas.
  repeat split; intros; revert F; resolve_falha c P.
Qed.

Lemma todas_as_escritas_efetivam c :
  falha_da_escrita c = None ->
  todas_as_escritas (fun A m => escrita_efetivada m c).
Proof.
  intros F. unfold todas_as_escritas.
  repeat split; intros; revert F; abre_escrita; cbn;
    destruct (agenda c (relogio c)) eqn:E1; cbn; try discriminate;
    rewrite ?E1; cbn; intros E2; rewrite E2; cbn; eauto.
Qed.

Lemma todas_as_escritas_impl (P Q : forall A, M A -> Prop) :
  (forall A (m : M A), P A m -> Q A m) ->
  todas_as_escritas P -> todas_as_escritas Q.
Proof.
  intros PQ (H1 & H2 & H3 & H4 & H5 & H6).
  unfold todas_as_escritas. repeat split; intros; apply PQ; auto.
Qed.

Lemma todas_as_escritas_nao_engolem c :
  todas_as_escritas
    (fun A m => forall a, fst (m c) = Retorna a -> falha_da_escrita c = None).
Proof.
  destruct (falha_da_escrita c) as [e|] eqn:F.
  - destruct (de_psycopg2 e) eqn:P.
    + apply (todas_as_escritas_impl (fun A m => falha_propagada m c e)).
      * intros A m [R _] a Ra. rewrite R in Ra. discriminate Ra.
      * now apply todas_as_escritas_propagam.
    + apply (todas_as_escritas_impl (fun A m => falha_sem_rollback m c e)).
      * intros A m [R _] a Ra. rewrite R in Ra. discriminate Ra.
      * now apply todas_as_escritas_deixam_passar.
  - unfold todas_as_escritas. repeat split; intros; reflexivity.
Qed.

(** C7, the claim as stated fails: the statement of a ledger write raises an
    exception that is not a [psycopg2.Error] (the adaptation of a parameter
    inside [cursor.execute]); the exception reaches the caller, but the write
    sends no rollback, and the correction written just before it in the same
    transaction is still pending, neither committed nor rolled back. *)
Lemma ledger_write_type_error_leaves_without_rollback :
  exists c',
    bind (execute (Update TControladoria)
            (DivergenceProcessor.update_controladoria "bonus_dpto"
               (Some (VNum (50 # 1))) "NF-1"))
      (fun registros =>
         AuditLogger.finalizar_operacao 1 "SUCCESS" registros
           (Some [mkSnapshot "NF-1" "bonus_dpto" (Some (VNum 0))]) None None)
      (conexao_com_excecoes (bd_exemplo alvo_exemplo [])
         [None; Some (type_error "Object of type Decimal is not JSON serializable")])
    = (Levanta (type_error "Object of type Decimal is not JSON serializable"), c')
    /\ historico c' = [Update TControladoria; Update TOperacoes]
    /\ controladoria (working c') <> controladoria (committed c').
Proof.
  eexists. split; [vm_compute; reflexivity|].
  split; [reflexivity|]. cbn. discriminate.
Qed.

(** C7, amended.  Whatever the arguments, when the statement or the commit of
    one of the six ledger writes (iniciar_operacao, finalizar_operacao,
    registrar_divergencia, atualizar_status_divergencia,
    iniciar_sessao_processamento, finalizar_sessao_processamento) raises a
    [psycopg2.Error], the write ends with a rollback that puts the
    transaction back at the last committed state and raises that very error
    to the caller.  When it raises an exception of another class, that very
    exception reaches the caller too, but no rollback is sent.  Either way
    the failure is never swallowed: a write that returns normally had no
    failure, and without a failure every write returns with its change
    committed. *)
Theorem ledger_write_failure_rolls_back_and_reraises (c : Connection) :
  (forall e, falha_da_escrita c = Some e -> de_psycopg2 e = true ->
             todas_as_escritas (fun A m => falha_propagada m c e))
  /\ (forall e, falha_da_escrita c = Some e -> de_psycopg2 e = false ->
                todas_as_escritas (fun A m => falha_sem_rollback m c e))
  /\ todas_as_escritas
       (fun A m => forall a, fst (m c) = Retorna a -> falha_da_escrita c = None)
  /\ (falha_da_escrita c = None ->
      todas_as_escritas (fun A m => escrita_efetivada m c)).
Proof.
  split; [ | split; [ | split ] ].
  - intros e F P. now apply todas_as_escritas_propagam.
  - intros e F P. now apply todas_as_escritas_deixam_passar.
  - apply todas_as_escritas_nao_engolem.
  - apply todas_as_escritas_efetivam.
Qed.

Lemma ledger_write_failure_witness :
  falha_da_escrita
    (conexao_exemplo (bd_exemplo [] []) [None; Some "commit failed"])
  = Some (erro_bd "commit failed")
  /\ falha_propagada
       (AuditLogger.registrar_divergencia 7 "NF-1" "VALIDACAO_VALOR" None None
          "valores_bonus" None (Some (7 # 10)%Q) (Some ["TRADE_VALOR_NEGATIVO"])
          None)
       (conexao_exemplo (bd_exemplo [] []) [None; Some "commit failed"])
       (erro_bd "commit failed").
Proof.
  split; [ reflexivity | ].
  destruct (ledger_write_failure_rolls_back_and_reraises
              (conexao_exemplo (bd_exemplo [] []) [None; Some "commit failed"]))
    as [H _].
  destruct (H (erro_bd "commit failed") eq_refl eq_refl) as (_ & _ & H3 & _).
  apply H3.
Defined.

(* ================================================================== *)
(** * The correction loop: every divergence lands in one bucket *)
(* ================================================================== *)

Section Laco.

Import DivergenceProcessor.

Variables (modo usuario : string) (limite : Q).

(** A pass always ends normally: the [except] branch absorbs every error. *)
Lemma processar_divergencia_passo resultado div c :
  exists resultado' c',
    processar_divergencia modo usuario limite resultado div c
    = (Retorna resultado', c')
    /\ passo resultado div resultado'.
Proof.
  unfold processar_divergencia, try_except_psycopg2, try_except, bind, ret.
  destruct (aplicar_auto modo limite div).
  - destruct (_aplicar_correcao_automatica div usuario c) as [[[|]|e] c'];
      eexists; eexists; (split; [reflexivity | constructor]).
  - destruct (_registrar_divergencia_pendente div c) as [[id|e] c'];
      eexists; eexists; (split; [reflexivity | constructor]).
Qed.

Lemma conta_status_app s l d :
  conta_status s (l ++ [d])
  = conta_status s l + (if String.eqb (det_status d) s then 1 else 0).
Proof.
  unfold conta_status. rewrite filter_app, length_app. cbn.
  destruct (String.eqb (det_status d) s); cbn; lia.
Qed.

Lemma avanca_passo r0 div r : passo r0 div r -> avanca r0 r [div].
Proof.
  intros [ | | motivo]; constructor; cbn;
    rewrite ?map_app, ?conta_status_app; cbn; try reflexivity; lia.
Qed.

Lemma avanca_trans r0 r1 r2 l1 l2 :
  avanca r0 r1 l1 -> avanca r1 r2 l2 -> avanca r0 r2 (l1 ++ l2).
Proof.
  intros [A1 A2 A3 A4 A5 A6] [B1 B2 B3 B4 B5 B6]. constructor.
  - congruence.
  - rewrite length_app, Nat2Z.inj_add. lia.
  - rewrite B3, A3, map_app, app_assoc. reflexivity.
  - lia.
  - lia.
  - lia.
Qed.

Lemma laco_correcoes_avanca divergencias : forall resultado c,
  exists resultado' c',
    laco_correcoes modo usuario limite divergencias resultado c
    = (Retorna resultado', c')
    /\ avanca resultado resultado' divergencias.
Proof.
  induction divergencias as [|div resto IH]; intros resultado c; cbn.
  - exists resultado, c. split; [reflexivity|].
    constructor; cbn; rewrite ?app_nil_r; try reflexivity; lia.
  - destruct (processar_divergencia_passo resultado div c) as (r1 & c1 & E1 & P1).
    destruct (IH r1 c1) as (r2 & c2 & E2 & P2).
    exists r2, c2. split.
    + unfold bind. rewrite E1. exact E2.
    + apply (avanca_trans _ _ _ [div] resto (avanca_passo _ _ _ P1) P2).
Qed.

End Laco.

(** C5.  For every list of divergences, every mode, actor, threshold and state
    of the connection, aplicar_correcoes returns a summary whose total is the
    length of the list and whose three counters add up to it; the details
    hold one entry per divergence, in order, and each counter is the number
    of entries with its status, so each divergence is in exactly one bucket. *)
Theorem aplicar_correcoes_counts_partition
    (divergencias : list Divergencia) (modo usuario : string) (limite : Q)
    (c : Connection) :
  exists resultado c',
    DivergenceProcessor.aplicar_correcoes divergencias modo usuario limite c
    = (Retorna resultado, c')
    /\ DivergenceProcessor.total_divergencias resultado
       = Z.of_nat (List.length divergencias)
    /\ DivergenceProcessor.corrigidas_automaticamente resultado
       + DivergenceProcessor.pendentes_aprovacao resultado
       + DivergenceProcessor.erros resultado
       = DivergenceProcessor.total_divergencias resultado
    /\ map DivergenceProcessor.det_idnfsexterno (DivergenceProcessor.detalhes resultado)
       = map idnfsexterno divergencias
    /\ DivergenceProcessor.corrigidas_automaticamente resultado
       = conta_status "CORRIGIDO_AUTO" (DivergenceProcessor.detalhes resultado)
    /\ DivergenceProcessor.pendentes_aprovacao resultado
       = conta_status "PENDENTE_APROVACAO" (DivergenceProcessor.detalhes resultado)
    /\ DivergenceProcessor.erros resultado
       = conta_status "ERRO" (DivergenceProcessor.detalhes resultado).
Proof.
  unfold DivergenceProcessor.aplicar_correcoes.
  destruct (laco_correcoes_avanca modo usuario limite divergencias
              (DivergenceProcessor.mkResultadoCorrecoes
                 (Z.of_nat (List.length divergencias)) 0 0 0 []) c)
    as (r & c' & E & [A1 A2 A3 A4 A5 A6]).
  cbn in *. exists r, c'. repeat split; auto; try lia.
  all: unfold conta_status in *; cbn in *; lia.
Qed.

(* ================================================================== *)
(** * Registering a divergence as pending *)
(* ================================================================== *)

Local Arguments String.append : simpl never.

Ltac abre_processador :=
  unfold DivergenceProcessor._registrar_divergencia_pendente,
    DivergenceProcessor._aplicar_correcao_automatica,
    DivergenceProcessor.corpo_correcao, DivergenceProcessor.tratar_falha_correcao,
    AuditLogger.iniciar_operacao, AuditLogger.finalizar_operacao,
    AuditLogger.registrar_divergencia, AuditLogger.atualizar_status_divergencia,
    try_except_psycopg2, try_except, bind, ret, raise, rollback, execute, commit.

Lemma finaliza_linha_outro id st n a p e o :
  op_id o <> id -> AuditLogger.finaliza_linha id st n a p e o = o.
Proof.
  intros D. unfold AuditLogger.finaliza_linha.
  destruct (Z.eqb_spec (op_id o) id); [contradiction | reflexivity].
Qed.

Lemma map_finaliza_frescos id st n a p e l :
  (forall o, In o l -> op_id o < id) ->
  map (AuditLogger.finaliza_linha id st n a p e) l = l.
Proof.
  induction l as [|o l IH]; intros F; cbn; [reflexivity|].
  rewrite finaliza_linha_outro, IH; auto.
  - intros x Hx. apply F. now right.
  - specialize (F o (or_introl eq_refl)). lia.
Qed.

Lemma registrar_pendente_sem_falhas c d :
  sem_falhas c ->
  exists c',
    DivergenceProcessor._registrar_divergencia_pendente d c
    = (Retorna (seq_divergencias c), c')
    /\ operacoes (working c')
       = map (AuditLogger.finaliza_linha (seq_operacoes c) "SUCCESS" 0 None None None)
           (operacoes (working c))
         ++ [operacao_detect d (seq_operacoes c)]
    /\ divergencias_processadas (working c')
       = divergencias_processadas (working c)
         ++ [linha_detectada d (seq_operacoes c) (seq_divergencias c)]
    /\ seq_operacoes c' = seq_operacoes c + 1
    /\ committed c' = working c'
    /\ sem_falhas c'.
Proof.
  intros H. abre_processador. cbn.
  repeat (rewrite H by (cbn; lia); cbn).
  eexists. split; [reflexivity|]. cbn.
  repeat split.
  - rewrite map_app. cbn.
    unfold AuditLogger.finaliza_linha at 2. cbn. now rewrite Z.eqb_refl.
  - intros n Hn. cbn in *. apply H. lia.
Qed.

Lemma registrar_pendente_registra c d :
  sem_falhas c ->
  exists c',
    DivergenceProcessor._registrar_divergencia_pendente d c
    = (Retorna (seq_divergencias c), c')
    /\ registrada_como_pendente d (committed c').
Proof.
  intros H.
  destruct (registrar_pendente_sem_falhas c d H) as (c' & E & O & D & _ & K & _).
  exists c'. split; [exact E|].
  exists (seq_operacoes c), (seq_divergencias c). rewrite K, O, D.
  split; apply in_or_app; right; now left.
Qed.

Lemma registrar_pendente_ok c d :
  sem_falhas c -> ids_frescos c ->
  exists c',
    DivergenceProcessor._registrar_divergencia_pendente d c
    = (Retorna (seq_divergencias c), c')
    /\ operacoes (working c')
       = operacoes (working c) ++ [operacao_detect d (seq_operacoes c)]
    /\ divergencias_processadas (working c')
       = divergencias_processadas (working c)
         ++ [linha_detectada d (seq_operacoes c) (seq_divergencias c)]
    /\ committed c' = working c'
    /\ sem_falhas c' /\ ids_frescos c'.
Proof.
  intros H F.
  destruct (registrar_pendente_sem_falhas c d H) as (c' & E & O & D & S & K & H').
  rewrite map_finaliza_frescos in O by exact F.
  exists c'. repeat split; auto.
  intros o. rewrite O, S, in_app_iff. cbn.
  intros [Ho | [Ho | []]].
  - specialize (F o Ho). lia.
  - subst o. cbn. lia.
Qed.

(* ================================================================== *)
(** * The gate of automatic application *)
(* ================================================================== *)


Lemma aplicar_auto_iff modo limite div :
  DivergenceProcessor.aplicar_auto modo limite div = true
  <-> modo = "auto"
      /\ (limite <= confianca div)%Q
      /\ (tipo div = "TRADE_MARKETING_BONUS" \/ tipo div = "TRADE_MARKETING_TRADE").
Proof.
  unfold DivergenceProcessor.aplicar_auto.
  rewrite !andb_true_iff, orb_true_iff, !String.eqb_eq, Qle_bool_iff.
  tauto.
Qed.

Lemma processar_nao_elegivel modo usuario limite resultado div c :
  DivergenceProcessor.aplicar_auto modo limite div = false ->
  DivergenceProcessor.processar_divergencia modo usuario limite resultado div c
  = match DivergenceProcessor._registrar_divergencia_pendente div c with
    | (Retorna _, c') => (Retorna (DivergenceProcessor.conta_pendente resultado div), c')
    | (Levanta e, c') =>
        (Retorna (DivergenceProcessor.conta_erro resultado div (texto e)), c')
    end.
Proof.
  intros G. unfold DivergenceProcessor.processar_divergencia, try_except_psycopg2, try_except, bind, ret.
  rewrite G.
  now destruct (DivergenceProcessor._registrar_divergencia_pendente div c) as [[id|e] c'].
Qed.

Lemma sem_falhas_exemplo bd : sem_falhas (conexao_exemplo bd []).
Proof.
  intros n _. unfold conexao_exemplo, conexao_com_excecoes, agenda_de_lista. cbn.
  now destruct n.
Qed.

(** C4, the claim as stated fails: a divergence that is not eligible for
    automatic application is not recorded as pending when the ledger cannot
    be written; it is counted as an error and no ledger row exists for it. *)
Lemma ineligible_divergence_not_pending_when_ledger_fails :
  DivergenceProcessor.aplicar_auto "auto" DivergenceProcessor.limite_auto_aplicacao_padrao
    div_pendente_exemplo = false
  /\ exists resultado c',
       DivergenceProcessor.aplicar_correcoes [div_pendente_exemplo] "auto"
         "sistema_automatico" DivergenceProcessor.limite_auto_aplicacao_padrao
         (conexao_exemplo (bd_exemplo alvo_exemplo []) [Some "connection lost"])
       = (Retorna resultado, c')
       /\ DivergenceProcessor.pendentes_aprovacao resultado = 0
       /\ DivergenceProcessor.erros resultado = 1
       /\ ~ registrada_como_pendente div_pendente_exemplo (committed c')
       /\ ~ registrada_como_pendente div_pendente_exemplo (working c').
Proof.
  split; [reflexivity|].
  eexists. eexists. split; [vm_compute; reflexivity|].
  cbn. repeat split; intros (o & i & [] & _).
Qed.

(* ================================================================== *)
(** * Manual mode leaves the target table alone *)
(* ================================================================== *)

Section Alvo.

Import DivergenceProcessor.

Lemma preserva_ret {A} (a : A) : preserva_alvo (ret a).
Proof. intros c. cbn. split; [reflexivity | auto]. Qed.

Lemma preserva_raise {A} e : preserva_alvo (@raise A e).
Proof. intros c. cbn. split; [reflexivity | auto]. Qed.

Lemma preserva_bind {A B} (m : M A) (f : A -> M B) :
  preserva_alvo m -> (forall a, preserva_alvo (f a)) -> preserva_alvo (bind m f).
Proof.
  intros Hm Hf c. unfold bind.
  destruct (Hm c) as [H1 H2]. destruct (m c) as [[a|e] c1]; cbn in *.
  - destruct (Hf a c1) as [K1 K2]. split; [congruence | auto].
  - split; assumption.
Qed.

Lemma preserva_try {A} (m : M A) (h : Excecao -> M A) :
  preserva_alvo m -> (forall e, preserva_alvo (h e)) -> preserva_alvo (try_except m h).
Proof.
  intros Hm Hh c. unfold try_except.
  destruct (Hm c) as [H1 H2]. destruct (m c) as [[a|e] c1]; cbn in *.
  - split; assumption.
  - destruct (Hh e c1) as [K1 K2]. split; [congruence | auto].
Qed.

Lemma preserva_try_psycopg2 {A} (m : M A) (h : Excecao -> M A) :
  preserva_alvo m -> (forall e, preserva_alvo (h e)) ->
  preserva_alvo (try_except_psycopg2 m h).
Proof.
  intros Hm Hh c. unfold try_except_psycopg2.
  destruct (Hm c) as [H1 H2]. destruct (m c) as [[a|e] c1]; cbn in *.
  - split; assumption.
  - destruct (de_psycopg2 e); cbn; [|split; assumption].
    destruct (Hh e c1) as [K1 K2]. split; [congruence | auto].
Qed.

Lemma preserva_commit : preserva_alvo commit.
Proof.
  intros c. unfold commit.
  destruct (agenda c (relogio c)); cbn; rewrite filter_app; cbn;
    rewrite app_nil_r; (split; [reflexivity|]); intros alvo [W K]; split; cbn; auto.
Qed.

Lemma preserva_rollback : preserva_alvo rollback.
Proof.
  intros c. unfold rollback. cbn. rewrite filter_app. cbn. rewrite app_nil_r.
  split; [reflexivity|]. intros alvo [W K]. split; cbn; auto.
Qed.

(** A statement on another table, whose effect keeps the target table, the
    committed state and the history. *)
Lemma preserva_execute {A} ev (efeito : Connection -> A * Connection) :
  toca_alvo ev = false ->
  (forall c, controladoria (working (snd (efeito c))) = controladoria (working c)
             /\ committed (snd (efeito c)) = committed c
             /\ historico (snd (efeito c)) = historico c) ->
  preserva_alvo (execute ev efeito).
Proof.
  intros T E c. unfold execute.
  destruct (agenda c (relogio c)).
  - cbn. rewrite filter_app. cbn. rewrite T, app_nil_r.
    split; [reflexivity|]. intros alvo [W K]. split; cbn; auto.
  - destruct (E (envia ev c)) as (E1 & E2 & E3).
    destruct (efeito (envia ev c)) as [a c1]. cbn in *.
    rewrite E3, filter_app. cbn. rewrite T, app_nil_r.
    split; [reflexivity|]. intros alvo [W K]. split; congruence.
Qed.

Ltac preserva_escrita :=
  intros;
  apply preserva_try_psycopg2;
  [ repeat (apply preserva_bind; [|intros]);
    try apply preserva_commit; try apply preserva_ret;
    apply preserva_execute; [reflexivity | intros ?; cbn; auto]
  | intros; apply preserva_bind; [apply preserva_rollback | intros; apply preserva_raise] ].

Lemma preserva_ledger :
  todas_as_escritas (fun A m => preserva_alvo m).
Proof.
  unfold todas_as_escritas.
  refine (conj _ (conj _ (conj _ (conj _ (conj _ _))))); preserva_escrita.
Qed.

Lemma preserva_registrar_pendente div : preserva_alvo (_registrar_divergencia_pendente div).
Proof.
  destruct preserva_ledger as (P1 & P2 & P3 & _).
  unfold _registrar_divergencia_pendente.
  repeat (apply preserva_bind; intros);
    auto using preserva_commit, preserva_ret.
Qed.

Lemma aplicar_auto_manual limite div : aplicar_auto "manual" limite div = false.
Proof. reflexivity. Qed.

Lemma processar_manual usuario limite resultado div c :
  processar_divergencia "manual" usuario limite resultado div c
  = match _registrar_divergencia_pendente div c with
    | (Retorna _, c') => (Retorna (conta_pendente resultado div), c')
    | (Levanta e, c') => (Retorna (conta_erro resultado div (texto e)), c')
    end.
Proof. apply processar_nao_elegivel, aplicar_auto_manual. Qed.

Lemma preserva_laco_manual usuario limite divergencias : forall resultado,
  preserva_alvo (laco_correcoes "manual" usuario limite divergencias resultado).
Proof.
  induction divergencias as [|div resto IH]; intros resultado; cbn.
  - apply preserva_ret.
  - apply preserva_bind; [|intros; apply IH].
    intros c. rewrite processar_manual.
    pose proof (preserva_registrar_pendente div c) as P.
    destruct (_registrar_divergencia_pendente div c) as [[id|e] c']; exact P.
Qed.

Lemma laco_manual_sem_auto usuario limite divergencias : forall resultado c,
  exists resultado' c',
    laco_correcoes "manual" usuario limite divergencias resultado c
    = (Retorna resultado', c')
    /\ corrigidas_automaticamente resultado' = corrigidas_automaticamente resultado.
Proof.
  induction divergencias as [|div resto IH]; intros resultado c; cbn.
  - exists resultado, c. split; reflexivity.
  - unfold bind. rewrite processar_manual.
    destruct (_registrar_divergencia_pendente div c) as [[id|e] c1].
    + destruct (IH (conta_pendente resultado div) c1) as (r & c2 & E & K).
      exists r, c2. split; [exact E | exact K].
    + destruct (IH (conta_erro resultado div (texto e)) c1) as (r & c2 & E & K).
      exists r, c2. split; [exact E | exact K].
Qed.

(** Without failures every divergence of a manual batch ends up registered;
    rows that are on the ledger stay there. *)
Lemma laco_manual_ok usuario limite divergencias : forall resultado c,
  sem_falhas c -> ids_frescos c ->
  exists resultado' c',
    laco_correcoes "manual" usuario limite divergencias resultado c
    = (Retorna resultado', c')
    /\ pendentes_aprovacao resultado'
       = pendentes_aprovacao resultado + Z.of_nat (List.length divergencias)
    /\ erros resultado' = erros resultado
    /\ (divergencias = [] \/ committed c' = working c')
    /\ (forall o, In o (operacoes (working c)) -> In o (operacoes (working c')))
    /\ (forall r, In r (divergencias_processadas (working c)) ->
                  In r (divergencias_processadas (working c')))
    /\ (forall d, In d divergencias -> registrada_como_pendente d (working c')).
Proof.
  induction divergencias as [|div resto IH]; intros resultado c H F.
  - exists resultado, c. cbn. repeat split; auto; try lia.
  - cbn [laco_correcoes]. unfold bind. rewrite processar_manual.
    destruct (registrar_pendente_ok c div H F) as (c1 & E & O & D & K & H1 & F1).
    rewrite E.
    destruct (IH (conta_pendente resultado div) c1 H1 F1)
      as (r & c2 & E2 & P & Er & CW & MO & MD & R).
    exists r, c2. split; [exact E2|].
    repeat split.
    + rewrite P. cbn [pendentes_aprovacao conta_pendente List.length].
      rewrite Nat2Z.inj_succ. lia.
    + rewrite Er. reflexivity.
    + right. destruct CW as [-> | CW]; [|exact CW].
      cbn in E2. inversion E2; subst. exact K.
    + intros o Ho. apply MO. rewrite O. apply in_or_app. now left.
    + intros x Hx. apply MD. rewrite D. apply in_or_app. now left.
    + intros d [<- | Hd]; [|now apply R].
      exists (seq_operacoes c), (seq_divergencias c). split.
      * apply MD. rewrite D. apply in_or_app. right. now left.
      * apply MO. rewrite O. apply in_or_app. right. now left.
Qed.

End Alvo.

Lemma ids_frescos_exemplo alvo visao falhas :
  ids_frescos (conexao_exemplo (bd_exemplo alvo visao) falhas).
Proof. intros o []. Qed.

(** C9, the claim as stated fails: in manual mode a divergence whose DETECT
    operation cannot be finalized stays on the ledger under an operation that
    is still PENDING, and the summary counts it as an error, not as pending. *)
Lemma manual_registration_left_unfinished_when_ledger_fails :
  exists resultado c',
    DivergenceProcessor.aplicar_correcoes [div_trade_exemplo] "manual" "sistema"
      DivergenceProcessor.limite_auto_aplicacao_padrao
      (conexao_exemplo (bd_exemplo alvo_exemplo [])
         [None; None; None; None; Some "deadlock detected"])
    = (Retorna resultado, c')
    /\ DivergenceProcessor.pendentes_aprovacao resultado = 0
    /\ DivergenceProcessor.erros resultado = 1
    /\ map op_status (operacoes (committed c')) = ["PENDING"]
    /\ ~ registrada_como_pendente div_trade_exemplo (committed c').
Proof.
  eexists. eexists. split; [vm_compute; reflexivity|].
  cbn. repeat split.
  intros (o & i & _ & [E | []]). discriminate E.
Qed.

(* ================================================================== *)
(** * A correction that fails *)
(* ================================================================== *)

Section Falha.

Import DivergenceProcessor.

Local Arguments tratar_falha_correcao : simpl never.

Lemma tem_operacao_novo id l o : op_id o = id -> tem_operacao id (l ++ [o]).
Proof. intros E. exists o. split; [apply in_or_app; right; now left | exact E]. Qed.

Lemma tem_operacao_finaliza id id' st n a p e l :
  tem_operacao id l ->
  tem_operacao id (map (AuditLogger.finaliza_linha id' st n a p e) l).
Proof.
  intros (o & Ho & E).
  exists (AuditLogger.finaliza_linha id' st n a p e o). split.
  - now apply in_map.
  - unfold AuditLogger.finaliza_linha. now destruct (op_id o =? id').
Qed.

Lemma operacao_falhou_finaliza id n a p e l :
  tem_operacao id l ->
  operacao_falhou id e
    (map (AuditLogger.finaliza_linha id "FAILED" n a p (Some e)) l).
Proof.
  intros (o & Ho & E).
  exists (AuditLogger.finaliza_linha id "FAILED" n a p (Some e) o). split.
  - now apply in_map.
  - unfold AuditLogger.finaliza_linha. rewrite E, Z.eqb_refl. cbn. auto.
Qed.

Lemma finalizar_operacao_historico id st n a p e c :
  exists h,
    historico (snd (AuditLogger.finalizar_operacao id st n a p e c))
    = historico c ++ h.
Proof.
  unfold AuditLogger.finalizar_operacao, try_except_psycopg2, try_except, bind, execute, commit,
    rollback, raise.
  destruct (agenda c (relogio c)) as [e0|] eqn:E0; cbn.
  - destruct (de_psycopg2 e0); cbn; eexists; rewrite <- ?app_assoc; reflexivity.
  - destruct (agenda c (S (relogio c))) as [e1|]; cbn;
      [destruct (de_psycopg2 e1); cbn|];
      eexists; rewrite <- !app_assoc; reflexivity.
Qed.

Lemma tratar_falha_eq op e c :
  tratar_falha_correcao op e c
  = match op with
    | Some id =>
        match AuditLogger.finalizar_operacao id "FAILED" 0 None None (Some (texto e))
                (snd (rollback c)) with
        | (Retorna _, c2) => (Retorna false, c2)
        | (Levanta e', c2) => (Levanta e', c2)
        end
    | None => (Retorna false, snd (rollback c))
    end.
Proof. destruct op; reflexivity. Qed.

(** The [except] branch: a rollback first; the target table is then what was
    last committed, inside and outside the transaction; the result is never
    [True]. *)
Lemma tratar_falha_geral op e c :
  fst (tratar_falha_correcao op e c) <> Retorna true
  /\ (exists h, historico (snd (tratar_falha_correcao op e c))
                = historico c ++ Rollback :: h)
  /\ alvo_intacto (controladoria (committed c)) (snd (tratar_falha_correcao op e c)).
Proof.
  rewrite tratar_falha_eq.
  remember (snd (rollback c)) as c1 eqn:Ec1.
  assert (A1 : alvo_intacto (controladoria (committed c)) c1)
    by (subst c1; split; reflexivity).
  assert (H1 : historico c1 = historico c ++ [Rollback]) by (subst c1; reflexivity).
  clear Ec1.
  destruct op as [id|].
  - destruct preserva_ledger as (_ & P & _).
    specialize (P id "FAILED" 0 None None (Some (texto e)) c1). destruct P as [_ P].
    specialize (P _ A1).
    destruct (finalizar_operacao_historico id "FAILED" 0 None None (Some (texto e)) c1)
      as (h & G).
    destruct (AuditLogger.finalizar_operacao id "FAILED" 0 None None (Some (texto e)) c1)
      as [[[]|e'] c2]; cbn in *.
    + split; [discriminate|]. split; [|exact P].
      exists h. rewrite G, H1, <- app_assoc. reflexivity.
    + split; [discriminate|]. split; [|exact P].
      exists h. rewrite G, H1, <- app_assoc. reflexivity.
  - cbn. split; [discriminate|]. split; [|exact A1].
    exists []. exact H1.
Qed.

(** The [except] branch when the operation was opened and the FAILED
    finalization can be written. *)
Lemma tratar_falha_finaliza id e c :
  agenda c (relogio c) = None -> agenda c (S (relogio c)) = None ->
  tem_operacao id (operacoes (committed c)) ->
  fst (tratar_falha_correcao (Some id) e c) = Retorna false
  /\ operacao_falhou id (texto e)
       (operacoes (committed (snd (tratar_falha_correcao (Some id) e c)))).
Proof.
  intros A0 A1 T.
  unfold tratar_falha_correcao, AuditLogger.finalizar_operacao,
    try_except_psycopg2, try_except, bind, ret, raise, rollback, execute, commit. cbn.
  rewrite A0. cbn. rewrite A1. cbn.
  split; [reflexivity|]. now apply operacao_falhou_finaliza.
Qed.

Lemma tratar_falha_sem_operacao e c :
  fst (tratar_falha_correcao None e c) = Retorna false.
Proof. reflexivity. Qed.

Ltac abre_correcao :=
  unfold _aplicar_correcao_automatica, corpo_correcao,
    AuditLogger.iniciar_operacao, AuditLogger.finalizar_operacao,
    AuditLogger.registrar_divergencia, AuditLogger.atualizar_status_divergencia,
    try_except_psycopg2, try_except, bind, ret, raise, rollback, execute, commit.

Ltac avanca_agenda :=
  repeat (match goal with H : agenda _ _ = _ |- _ => rewrite H end; cbn).

(** A correction whose [k]-th call is the first to fail reaches the [except]
    branch with the error of that call. *)
Lemma correcao_chega_ao_tratador div usuario c k e :
  primeira_falha c k e -> (k <= 10)%nat ->
  exists op c1,
    _aplicar_correcao_automatica div usuario c = tratar_falha_correcao op e c1
    /\ agenda c1 = agenda c
    /\ relogio c1 = (S k + relogio c)%nat
    /\ (exists h, historico c1 = historico c ++ h)
    /\ ((k < 2)%nat -> op = None)
    /\ ((2 <= k)%nat ->
        op = Some (seq_operacoes c)
        /\ tem_operacao (seq_operacoes c) (operacoes (committed c1)))
    /\ ((2 <= k <= 5)%nat ->
        controladoria (committed c1) = controladoria (working c)).
Proof.
  intros [Ok Ko] Le.
  destruct k as [|[|[|[|[|[|[|[|[|[|[|k]]]]]]]]]]]; try lia.
  all: try (pose proof (Ok 0%nat ltac:(lia)) as H0).
  all: try (pose proof (Ok 1%nat ltac:(lia)) as H1).
  all: try (pose proof (Ok 2%nat ltac:(lia)) as H2).
  all: try (pose proof (Ok 3%nat ltac:(lia)) as H3).
  all: try (pose proof (Ok 4%nat ltac:(lia)) as H4).
  all: try (pose proof (Ok 5%nat ltac:(lia)) as H5).
  all: try (pose proof (Ok 6%nat ltac:(lia)) as H6).
  all: try (pose proof (Ok 7%nat ltac:(lia)) as H7).
  all: try (pose proof (Ok 8%nat ltac:(lia)) as H8).
  all: try (pose proof (Ok 9%nat ltac:(lia)) as H9).
  all: clear Ok; abre_correcao; cbn in *; avanca_agenda.
  all: destruct (de_psycopg2 e); cbn.
  all: eexists; eexists; (split; [reflexivity|]); cbn.
  all: split; [reflexivity|]; split; [reflexivity|].
  all: split; [eexists; rewrite <- ?app_assoc; reflexivity|].
  all: split; [intros; try lia; reflexivity|].
  all: split; [intros; try lia | intros; try lia; reflexivity].
  all: split; [reflexivity|].
  all: repeat apply tem_operacao_finaliza; now apply tem_operacao_novo.
Qed.

Lemma processar_elegivel modo usuario limite resultado div c :
  aplicar_auto modo limite div = true ->
  processar_divergencia modo usuario limite resultado div c
  = match _aplicar_correcao_automatica div usuario c with
    | (Retorna true, c') => (Retorna (conta_auto resultado div), c')
    | (Retorna false, c') =>
        (Retorna (conta_erro resultado div "Falha na aplicacao automatica"), c')
    | (Levanta e, c') => (Retorna (conta_erro resultado div (texto e)), c')
    end.
Proof.
  intros G. unfold processar_divergencia, try_except_psycopg2, try_except, bind, ret. rewrite G.
  now destruct (_aplicar_correcao_automatica div usuario c) as [[[|]|e] c'].
Qed.

End Falha.

(** C6, the claim as stated fails, in two runs of a batch of one eligible
    divergence.  In the first the status update (seventh call) fails after the
    divergence record was committed together with the correction write: the
    divergence is counted as an error and its operation is finalized FAILED
    with the message, but the target table keeps the corrected value, the
    write is not rolled back.  In the second the read of the current value
    fails and so does the write that should finalize the operation: the
    divergence is counted as an error, the target table is untouched, and the
    operation record stays PENDING. *)
Lemma failed_correction_write_kept_or_operation_pending :
  (exists resultado c',
      DivergenceProcessor.aplicar_correcoes [div_trade_exemplo] "auto"
        "sistema_automatico" DivergenceProcessor.limite_auto_aplicacao_padrao
        (conexao_exemplo (bd_exemplo alvo_exemplo [])
           [None; None; None; None; None; None; Some "status update failed"])
      = (Retorna resultado, c')
      /\ DivergenceProcessor.erros resultado = 1
      /\ operacao_falhou 1 "status update failed" (operacoes (committed c'))
      /\ controladoria (committed c')
         = [mkControladoria "NF-1"
            [("bonus_dpto", Some (VFloat (DivergenceProcessor.float (50 # 1))));
                                    ("trade_mkt_dpto", Some (VNum 0))]]
      /\ controladoria (committed c') <> alvo_exemplo)
  /\ (exists resultado c',
      DivergenceProcessor.aplicar_correcoes [div_trade_exemplo] "auto"
        "sistema_automatico" DivergenceProcessor.limite_auto_aplicacao_padrao
        (conexao_exemplo (bd_exemplo alvo_exemplo [])
           [None; None; Some "server closed the connection";
            Some "server closed the connection"])
      = (Retorna resultado, c')
      /\ DivergenceProcessor.erros resultado = 1
      /\ controladoria (committed c') = alvo_exemplo
      /\ map op_status (operacoes (committed c')) = ["PENDING"]
      /\ map op_erro_mensagem (operacoes (committed c')) = [None]).
Proof.
  split.
  - eexists. eexists. split; [vm_compute; reflexivity|].
    cbn. repeat split.
    + eexists. split; [left; reflexivity|]. cbn. auto.
    + discriminate.
  - eexists. eexists. split; [vm_compute; reflexivity|].
    cbn. repeat split.
Qed.

(** C6, amended.  Take a divergence that is eligible for automatic application
    and let the [k]-th of the eleven calls of its correction be the first to
    fail, with error [e].  Then the correction does not report success, a
    rollback is sent after the failure, and the loop counts the divergence as
    an error and goes on with the rest of the batch from the state the failed
    correction left.  If the operation record had been opened (the failure is
    not in iniciar_operacao) and the two calls of the finalizing write
    succeed, the correction returns [False] and the record is finalized FAILED
    with the text of [e] as its message; if the failure is in iniciar_operacao there is no
    record to finalize and the correction returns [False].  If the failure comes before any ledger commit
    that follows the write (reading, writing, or the statement or commit of
    registrar_divergencia), the target table is back at its state from before
    the correction, inside and outside the transaction. *)
Theorem failed_correction_counted_and_batch_continues
    (modo usuario : string) (limite : Q)
    (resultado : DivergenceProcessor.ResultadoCorrecoes)
    (div : Divergencia) (resto : list Divergencia)
    (c : Connection) (k : nat) (e : Excecao) :
  DivergenceProcessor.aplicar_auto modo limite div = true ->
  primeira_falha c k e -> (k <= 10)%nat ->
  exists r c',
    DivergenceProcessor._aplicar_correcao_automatica div usuario c = (r, c')
    /\ r <> Retorna true
    /\ (exists h1 h2, historico c' = historico c ++ h1 ++ Rollback :: h2)
    /\ (exists motivo,
          DivergenceProcessor.laco_correcoes modo usuario limite (div :: resto)
            resultado c
          = DivergenceProcessor.laco_correcoes modo usuario limite resto
              (DivergenceProcessor.conta_erro resultado div motivo) c')
    /\ ((k < 2)%nat -> r = Retorna false)
    /\ ((2 <= k)%nat ->
        agenda c (S k + relogio c)%nat = None ->
        agenda c (S (S k) + relogio c)%nat = None ->
        r = Retorna false
        /\ operacao_falhou (seq_operacoes c) (texto e) (operacoes (committed c')))
    /\ ((2 <= k <= 5)%nat -> alvo_intacto (controladoria (working c)) c').
Proof.
  intros G PF Le.
  destruct (correcao_chega_ao_tratador div usuario c k e PF Le)
    as (op & c1 & E & Ag & Rl & (h & Hh) & Op0 & Op2 & Alvo).
  destruct (tratar_falha_geral op e c1) as (NT & (h2 & Hh2) & AI).
  exists (fst (DivergenceProcessor.tratar_falha_correcao op e c1)),
         (snd (DivergenceProcessor.tratar_falha_correcao op e c1)).
  split; [rewrite E; apply surjective_pairing|].
  split; [exact NT|].
  split; [exists h, h2; rewrite Hh2, Hh, <- app_assoc; reflexivity|].
  split; [|split; [|split]].
  - cbn [DivergenceProcessor.laco_correcoes]. unfold bind.
    rewrite (processar_elegivel _ _ _ _ _ _ G), E.
    destruct (DivergenceProcessor.tratar_falha_correcao op e c1) as [[[|]|e'] c'];
      cbn in *.
    + contradiction NT; reflexivity.
    + eexists; reflexivity.
    + eexists; reflexivity.
  - intros K. rewrite (Op0 K). apply tratar_falha_sem_operacao.
  - intros K A1 A2. destruct (Op2 K) as [-> T].
    apply tratar_falha_finaliza; [rewrite Ag, Rl; exact A1 | | exact T].
    rewrite Ag, Rl. exact A2.
  - intros K. rewrite <- (Alvo K). exact AI.
Qed.

Lemma failed_correction_witness :
  DivergenceProcessor.aplicar_auto "auto" DivergenceProcessor.limite_auto_aplicacao_padrao
    div_trade_exemplo = true
  /\ primeira_falha
       (conexao_exemplo (bd_exemplo alvo_exemplo [])
          [None; None; None; Some "could not serialize access"])
       3 (erro_bd "could not serialize access")
  /\ exists r c',
       DivergenceProcessor._aplicar_correcao_automatica div_trade_exemplo
         "sistema_automatico"
         (conexao_exemplo (bd_exemplo alvo_exemplo [])
            [None; None; None; Some "could not serialize access"])
       = (r, c')
       /\ r = Retorna false
       /\ operacao_falhou 1 "could not serialize access" (operacoes (committed c'))
       /\ alvo_intacto alvo_exemplo c'.
Proof.
  assert (PF : primeira_falha
                 (conexao_exemplo (bd_exemplo alvo_exemplo [])
                    [None; None; None; Some "could not serialize access"])
                 3 (erro_bd "could not serialize access")).
  { split; [|reflexivity].
    intros i Hi. destruct i as [|[|[|i]]]; try reflexivity; lia. }
  split; [reflexivity|]. split; [exact PF|].
  destruct (failed_correction_counted_and_batch_continues "auto"
              "sistema_automatico" DivergenceProcessor.limite_auto_aplicacao_padrao
              (DivergenceProcessor.mkResultadoCorrecoes 1 0 0 0 [])
              div_trade_exemplo []
              (conexao_exemplo (bd_exemplo alvo_exemplo [])
                 [None; None; None; Some "could not serialize access"])
              3%nat (erro_bd "could not serialize access") eq_refl PF ltac:(lia))
    as (r & c' & E & _ & _ & _ & _ & F & A).
  exists r, c'. split; [exact E|].
  destruct (F ltac:(lia) eq_refl eq_refl) as [Rf Of].
  split; [exact Rf|]. split; [exact Of|].
  apply A. lia.
Defined.

(* ================================================================== *)
(** * Detection: the three scans and the confidence filter *)
(* ================================================================== *)

Section Deteccao.

Import DivergenceProcessor.

(** Detection either raises or returns the filtered concatenation of the three
    scans of the view as the transaction sees it. *)
Lemma detectar_divergencias_retorna di df t limite c ds c' :
  detectar_divergencias di df t limite c = (Retorna ds, c') ->
  ds = filter (fun d => Qle_bool limite (confianca d))
         (varredura_trade di df (bonus_view (working c))
          ++ varredura_pendentes (bonus_view (working c))
          ++ varredura_valores di df (bonus_view (working c))).
Proof.
  unfold detectar_divergencias, _detectar_divergencias_trade_marketing,
    _detectar_pendentes_verificacao, _detectar_divergencias_valores,
    bind, ret, execute. cbn.
  destruct (agenda c (relogio c)); [discriminate|]. cbn.
  destruct (agenda c (S (relogio c))); [discriminate|]. cbn.
  destruct (agenda c (S (S (relogio c)))); [discriminate|]. cbn.
  intros E. inversion E. reflexivity.
Qed.

(** It returns when its three queries succeed. *)
Lemma detectar_divergencias_ok di df t limite c :
  (forall i, (i < 3)%nat -> agenda c (i + relogio c) = None) ->
  exists c',
    detectar_divergencias di df t limite c
    = (Retorna (filter (fun d => Qle_bool limite (confianca d))
                  (varredura_trade di df (bonus_view (working c))
                   ++ varredura_pendentes (bonus_view (working c))
                   ++ varredura_valores di df (bonus_view (working c)))), c')
    /\ working c' = working c /\ committed c' = committed c
    /\ agenda c' = agenda c /\ relogio c' = (3 + relogio c)%nat
    /\ seq_operacoes c' = seq_operacoes c.
Proof.
  intros Ok.
  pose proof (Ok 0%nat ltac:(lia)) as H0.
  pose proof (Ok 1%nat ltac:(lia)) as H1.
  pose proof (Ok 2%nat ltac:(lia)) as H2.
  unfold detectar_divergencias, _detectar_divergencias_trade_marketing,
    _detectar_pendentes_verificacao, _detectar_divergencias_valores,
    bind, ret, execute. cbn in *.
  rewrite H0. cbn. rewrite H1. cbn. rewrite H2. cbn.
  eexists. repeat split.
Qed.

Lemma linha_trade_forma r d :
  In d (divergencias_da_linha_trade r) ->
  confianca d = 95 # 100
  /\ (tipo d = "TRADE_MARKETING_BONUS" \/ tipo d = "TRADE_MARKETING_TRADE").
Proof.
  unfold divergencias_da_linha_trade. rewrite in_app_iff.
  intros [H | H].
  - destruct (excede_tolerancia _ _); [|destruct H].
    destruct H as [<- | []]. cbn. auto.
  - destruct (excede_tolerancia _ _); [|destruct H].
    destruct H as [<- | []]. cbn. auto.
Qed.

Lemma varredura_trade_forma di df visao d :
  In d (varredura_trade di df visao) ->
  confianca d = 95 # 100
  /\ (tipo d = "TRADE_MARKETING_BONUS" \/ tipo d = "TRADE_MARKETING_TRADE").
Proof.
  unfold varredura_trade. rewrite in_flat_map.
  intros (r & _ & H). now apply (linha_trade_forma r).
Qed.

Lemma varredura_pendentes_forma visao d :
  In d (varredura_pendentes visao) ->
  confianca d = 5 # 10 /\ tipo d = "PENDENTE_VERIFICACAO"
  /\ exists r, In r visao /\ where_pendentes r = true
               /\ d = divergencia_da_linha_pendente r.
Proof.
  unfold varredura_pendentes. rewrite in_map_iff.
  intros (r & <- & H). apply filter_In in H. destruct H as [H1 H2].
  cbn. repeat split. now exists r.
Qed.

Lemma linha_valores_forma r d :
  In d (divergencias_da_linha_valores r) ->
  confianca d = 7 # 10 /\ tipo d = "VALIDACAO_VALOR".
Proof.
  unfold divergencias_da_linha_valores.
  destruct (regras_violadas_da_linha _ _); [intros []|].
  intros [<- | []]. cbn. auto.
Qed.

Lemma varredura_valores_forma di df visao d :
  In d (varredura_valores di df visao) ->
  confianca d = 7 # 10 /\ tipo d = "VALIDACAO_VALOR".
Proof.
  unfold varredura_valores. rewrite in_flat_map.
  intros (r & _ & H). now apply (linha_valores_forma r).
Qed.

Lemma filter_tudo {A} (f : A -> bool) l :
  (forall x, In x l -> f x = true) -> filter f l = l.
Proof.
  induction l as [|a l IH]; intros H; cbn; [reflexivity|].
  rewrite (H a (or_introl eq_refl)), IH; [reflexivity|].
  intros x Hx. apply H. now right.
Qed.

Lemma filter_nada {A} (f : A -> bool) l :
  (forall x, In x l -> f x = false) -> filter f l = [].
Proof.
  induction l as [|a l IH]; intros H; cbn; [reflexivity|].
  rewrite (H a (or_introl eq_refl)), IH; [reflexivity|].
  intros x Hx. apply H. now right.
Qed.

Lemma filter_comm {A} (f g : A -> bool) l :
  filter f (filter g l) = filter g (filter f l).
Proof.
  induction l as [|a l IH]; cbn; [reflexivity|].
  destruct (f a) eqn:F, (g a) eqn:G; cbn; rewrite ?F, ?G, IH; reflexivity.
Qed.

(** The pending-verification divergences that detection returns: all of the
    scan when the threshold is at most 0.5, none otherwise. *)
Lemma pendentes_detectadas di df limite visao :
  do_tipo "PENDENTE_VERIFICACAO"
    (filter (fun d => Qle_bool limite (confianca d))
       (varredura_trade di df visao ++ varredura_pendentes visao
        ++ varredura_valores di df visao))
  = if Qle_bool limite (5 # 10) then varredura_pendentes visao else [].
Proof.
  unfold do_tipo. rewrite filter_comm, !filter_app.
  rewrite (filter_nada _ (varredura_trade di df visao)).
  2:{ intros d Hd. destruct (varredura_trade_forma _ _ _ _ Hd) as [_ [-> | ->]];
        reflexivity. }
  rewrite (filter_nada _ (varredura_valores di df visao)).
  2:{ intros d Hd. destruct (varredura_valores_forma _ _ _ _ Hd) as [_ ->].
      reflexivity. }
  rewrite (filter_tudo _ (varredura_pendentes visao)).
  2:{ intros d Hd. destruct (varredura_pendentes_forma _ _ Hd) as (_ & -> & _).
      reflexivity. }
  rewrite app_nil_r. cbn [app].
  destruct (Qle_bool limite (5 # 10)) eqn:L.
  - apply filter_tudo. intros d Hd.
    destruct (varredura_pendentes_forma _ _ Hd) as (-> & _). exact L.
  - apply filter_nada. intros d Hd.
    destruct (varredura_pendentes_forma _ _ Hd) as (-> & _). exact L.
Qed.

Lemma aplicar_auto_pendente modo limite r :
  aplicar_auto modo limite (divergencia_da_linha_pendente r) = false.
Proof. unfold aplicar_auto. cbn. apply andb_false_r. Qed.

End Deteccao.

(** C8, the claim as stated fails: a row with the pending-verification
    sentinel inside the fixed window gives no divergence in what detection
    returns with its default threshold. *)
Lemma pending_row_absent_from_default_detection :
  DivergenceProcessor.where_pendentes linha_pendente_exemplo = true
  /\ exists c',
       DivergenceProcessor.detectar_divergencias None None None
         DivergenceProcessor.limite_confianca_padrao
         (conexao_exemplo (bd_exemplo [] [linha_pendente_exemplo]) [])
       = (Retorna [], c').
Proof. split; [reflexivity|]. eexists. vm_compute. reflexivity. Qed.

(** C8, amended.  The pending-verification scan, when its query succeeds,
    returns exactly one divergence for every row of the view whose status is
    the sentinel and whose processing date is inside the fixed window, in the
    order of the rows; each is of kind PENDENTE_VERIFICACAO, carries the row's
    id and has confidence 0.5, and none is eligible for automatic application,
    whatever the mode and the threshold.  Detection returns all of them when
    its minimum confidence is at most 0.5 and none of them otherwise, so none
    with the default of 0.8. *)
Theorem pending_verification_scan_and_gate
    (data_inicio data_fim : option Data) (tipo_divergencia : option string)
    (limite : Q) (c : Connection) :
  (agenda c (relogio c) = None ->
   exists c1,
     DivergenceProcessor._detectar_pendentes_verificacao data_inicio data_fim c
     = (Retorna (map DivergenceProcessor.divergencia_da_linha_pendente
                   (filter DivergenceProcessor.where_pendentes
                      (bonus_view (working c)))), c1))
  /\ (forall r,
        confianca (DivergenceProcessor.divergencia_da_linha_pendente r) = 5 # 10
        /\ tipo (DivergenceProcessor.divergencia_da_linha_pendente r)
           = "PENDENTE_VERIFICACAO"
        /\ idnfsexterno (DivergenceProcessor.divergencia_da_linha_pendente r)
           = bv_idnfsexterno r
        /\ forall modo limite_auto,
             DivergenceProcessor.aplicar_auto modo limite_auto
               (DivergenceProcessor.divergencia_da_linha_pendente r) = false)
  /\ (forall ds c',
        DivergenceProcessor.detectar_divergencias data_inicio data_fim
          tipo_divergencia limite c = (Retorna ds, c') ->
        do_tipo "PENDENTE_VERIFICACAO" ds
        = if Qle_bool limite (5 # 10)
          then varredura_pendentes (bonus_view (working c)) else []).
Proof.
  split; [|split].
  - intros H.
    unfold DivergenceProcessor._detectar_pendentes_verificacao, bind, ret, execute.
    rewrite H. cbn. eexists. reflexivity.
  - intros r. repeat split. intros. apply aplicar_auto_pendente.
  - intros ds c' E.
    rewrite (detectar_divergencias_retorna _ _ _ _ _ _ _ E).
    apply pendentes_detectadas.
Qed.

Lemma pending_verification_witness :
  exists ds c',
    DivergenceProcessor.detectar_divergencias None None None (5 # 10)
      (conexao_exemplo (bd_exemplo [] visao_exemplo) [])
    = (Retorna ds, c')
    /\ do_tipo "PENDENTE_VERIFICACAO" ds
       = [DivergenceProcessor.divergencia_da_linha_pendente linha_pendente_exemplo].
Proof.
  destruct (DivergenceProcessor.detectar_divergencias None None None (5 # 10)
              (conexao_exemplo (bd_exemplo [] visao_exemplo) []))
    as [[ds|e] c'] eqn:E.
  - exists ds, c'. split; [reflexivity|].
    destruct (pending_verification_scan_and_gate None None None (5 # 10)
                (conexao_exemplo (bd_exemplo [] visao_exemplo) []))
      as (_ & _ & H).
    rewrite (H ds c' E). reflexivity.
  - vm_compute in E. discriminate E.
Defined.

(** C10.  With the default minimum confidence of 0.8, what detection returns
    is exactly the result of the trade-marketing scan: every element has
    confidence 0.95 and one of the two trade-marketing kinds, and no
    divergence of the pending-verification scan or of the value-range scan is
    in it; detection does return when its three queries succeed.  For any
    threshold, a divergence of the pending-verification scan
    is returned exactly when the threshold is at most 0.5, and one of the
    value-range scan exactly when it is at most 0.7. *)
Theorem default_threshold_keeps_only_trade_marketing
    (data_inicio data_fim : option Data) (tipo_divergencia : option string)
    (c : Connection) :
  ((forall i, (i < 3)%nat -> agenda c (i + relogio c) = None) ->
   exists ds c',
     DivergenceProcessor.detectar_divergencias data_inicio data_fim
       tipo_divergencia DivergenceProcessor.limite_confianca_padrao c
     = (Retorna ds, c'))
  /\ (forall ds c',
      DivergenceProcessor.detectar_divergencias data_inicio data_fim
        tipo_divergencia DivergenceProcessor.limite_confianca_padrao c
      = (Retorna ds, c') ->
      ds = varredura_trade data_inicio data_fim (bonus_view (working c))
      /\ (forall d, In d ds ->
                    confianca d = 95 # 100
                    /\ (tipo d = "TRADE_MARKETING_BONUS"
                        \/ tipo d = "TRADE_MARKETING_TRADE"))
      /\ (forall d, In d (varredura_pendentes (bonus_view (working c)))
                    \/ In d (varredura_valores data_inicio data_fim
                               (bonus_view (working c))) ->
                    ~ In d ds))
  /\ (forall limite ds c',
      DivergenceProcessor.detectar_divergencias data_inicio data_fim
        tipo_divergencia limite c = (Retorna ds, c') ->
      (forall d, In d (varredura_pendentes (bonus_view (working c))) ->
                 (In d ds <-> (limite <= 5 # 10)%Q))
      /\ (forall d, In d (varredura_valores data_inicio data_fim
                            (bonus_view (working c))) ->
                    (In d ds <-> (limite <= 7 # 10)%Q))).
Proof.
  split; [|split].
  - intros Ok.
    destruct (detectar_divergencias_ok data_inicio data_fim tipo_divergencia
                DivergenceProcessor.limite_confianca_padrao c Ok) as (c' & E & _).
    eexists. exists c'. exact E.
  - intros ds c' E.
    rewrite (detectar_divergencias_retorna _ _ _ _ _ _ _ E).
    assert (K : filter
                  (fun d => Qle_bool DivergenceProcessor.limite_confianca_padrao
                              (confianca d))
                  (varredura_trade data_inicio data_fim (bonus_view (working c))
                   ++ varredura_pendentes (bonus_view (working c))
                   ++ varredura_valores data_inicio data_fim (bonus_view (working c)))
                = varredura_trade data_inicio data_fim (bonus_view (working c))).
    { rewrite !filter_app.
      rewrite (filter_tudo _ (varredura_trade _ _ _)).
      2:{ intros d Hd. destruct (varredura_trade_forma _ _ _ _ Hd) as [-> _].
          reflexivity. }
      rewrite (filter_nada _ (varredura_pendentes _)).
      2:{ intros d Hd. destruct (varredura_pendentes_forma _ _ Hd) as (-> & _).
          reflexivity. }
      rewrite (filter_nada _ (varredura_valores _ _ _)).
      2:{ intros d Hd. destruct (varredura_valores_forma _ _ _ _ Hd) as (-> & _).
          reflexivity. }
      now rewrite !app_nil_r. }
    rewrite K. split; [reflexivity|]. split.
    + intros d Hd. now apply (varredura_trade_forma _ _ _ _ Hd).
    + intros d [Hd | Hd] Hin;
        destruct (varredura_trade_forma _ _ _ _ Hin) as [Cf _].
      * destruct (varredura_pendentes_forma _ _ Hd) as (Cp & _).
        rewrite Cp in Cf. discriminate Cf.
      * destruct (varredura_valores_forma _ _ _ _ Hd) as (Cv & _).
        rewrite Cv in Cf. discriminate Cf.
  - intros limite ds c' E.
    rewrite (detectar_divergencias_retorna _ _ _ _ _ _ _ E).
    split; intros d Hd; rewrite filter_In, !in_app_iff, Qle_bool_iff.
    + destruct (varredura_pendentes_forma _ _ Hd) as (-> & _). tauto.
    + destruct (varredura_valores_forma _ _ _ _ Hd) as (-> & _). tauto.
Qed.

Lemma default_threshold_witness :
  exists ds c',
    DivergenceProcessor.detectar_divergencias None None None
      DivergenceProcessor.limite_confianca_padrao
      (conexao_exemplo (bd_exemplo [] visao_exemplo) [])
    = (Retorna ds, c')
    /\ ds = DivergenceProcessor.divergencias_da_linha_trade linha_trade_exemplo
    /\ ~ In (DivergenceProcessor.divergencia_da_linha_pendente linha_pendente_exemplo) ds.
Proof.
  destruct (DivergenceProcessor.detectar_divergencias None None None
              DivergenceProcessor.limite_confianca_padrao
              (conexao_exemplo (bd_exemplo [] visao_exemplo) []))
    as [[ds|e] c'] eqn:E.
  - exists ds, c'. split; [reflexivity|].
    destruct (default_threshold_keeps_only_trade_marketing None None None
                (conexao_exemplo (bd_exemplo [] visao_exemplo) []))
      as (_ & H & _).
    destruct (H ds c' E) as (Eq & _ & No).
    split.
    + rewrite Eq. reflexivity.
    + apply No. left. left. reflexivity.
  - vm_compute in E. discriminate E.
Defined.

(* ================================================================== *)
(** * The value-range scan *)
(* ================================================================== *)


(** A row whose [trade] or [valor_bonus] breaks a bound gives exactly one
    divergence, with confidence 0.7 and the broken bounds as its rules. *)
Lemma linha_valores_uma r :
  DivergenceProcessor.regras_violadas_da_linha
    (DivergenceProcessor.float_or_zero (bv_trade r))
    (DivergenceProcessor.float_or_zero (bv_valor_bonus r)) <> [] ->
  exists d,
    DivergenceProcessor.divergencias_da_linha_valores r = [d]
    /\ idnfsexterno d = bv_idnfsexterno r
    /\ tipo d = "VALIDACAO_VALOR"
    /\ confianca d = 7 # 10
    /\ regras_violadas d
       = DivergenceProcessor.regras_violadas_da_linha
           (DivergenceProcessor.float_or_zero (bv_trade r))
           (DivergenceProcessor.float_or_zero (bv_valor_bonus r))
    /\ regras_violadas d <> [].
Proof.
  intros N. unfold DivergenceProcessor.divergencias_da_linha_valores.
  destruct (DivergenceProcessor.regras_violadas_da_linha _ _) as [|x l] eqn:E;
    [contradiction|].
  eexists. split; [reflexivity|]. cbn. repeat split. discriminate.
Qed.

(** C2, evaluated where the code departs from the claim: the query of the
    value-range scan selects a row whose only broken bound is a negative
    [bonus_dpto], the loop tests [trade] and [valor_bonus] alone, and the scan
    returns no divergence for the row. *)
Theorem value_range_scan_drops_negative_bonus_dpto :
  DivergenceProcessor.where_valores None None linha_bonus_dpto_negativo = true
  /\ DivergenceProcessor.divergencias_da_linha_valores linha_bonus_dpto_negativo = []
  /\ exists c',
       DivergenceProcessor._detectar_divergencias_valores None None
         (conexao_exemplo (bd_exemplo [] [linha_bonus_dpto_negativo]) [])
       = (Retorna [], c').
Proof.
  split; [reflexivity|]. split; [reflexivity|].
  eexists. vm_compute. reflexivity.
Qed.

(* ================================================================== *)
(** * Status updates on the ledger *)
(* ================================================================== *)

(** A status update that is written sets the status of every record with the
    given id, whatever status the record had. *)
Lemma atualizar_status_incondicional id novo_status aplicado por motivo c d :
  falha_da_escrita c = None ->
  In d (divergencias_processadas (working c)) -> dp_id d = id ->
  exists c' d',
    AuditLogger.atualizar_status_divergencia id novo_status aplicado por motivo c
    = (Retorna tt, c')
    /\ In d' (divergencias_processadas (committed c'))
    /\ dp_id d' = id
    /\ dp_status_processamento d' = novo_status.
Proof.
  unfold falha_da_escrita. intros F Hd Hid.
  destruct (agenda c (relogio c)) eqn:E0; [discriminate|].
  unfold AuditLogger.atualizar_status_divergencia, try_except_psycopg2, try_except, bind, execute, commit.
  rewrite E0. cbn. rewrite F. cbn.
  eexists. exists (AuditLogger.atualiza_linha id novo_status aplicado por motivo d).
  split; [reflexivity|]. cbn. split; [now apply in_map|].
  unfold AuditLogger.atualiza_linha. rewrite Hid, Z.eqb_refl. cbn. auto.
Qed.

(** C3, evaluated where the code departs from the claim: the record of a
    correction that was applied automatically is AUTO_APPLIED; a further
    status update, as the reject end point issues it for any id, is written
    and moves the record to REJECTED.  The approve end point, which first
    looks for the record in status DETECTED, refuses the same record and
    leaves it as it is. *)
Theorem terminal_status_overwritten_by_update :
  map dp_status_processamento (divergencias_processadas (committed conexao_aplicada))
  = ["AUTO_APPLIED"]
  /\ map dp_id (divergencias_processadas (committed conexao_aplicada)) = [1]
  /\ (exists c',
        AuditLogger.atualizar_status_divergencia 1 "REJECTED" None (Some "ana")
          (Some "lancamento duplicado") conexao_aplicada
        = (Retorna tt, c')
        /\ map dp_status_processamento (divergencias_processadas (committed c'))
           = ["REJECTED"])
  /\ (exists c',
        Divergences.rejeitar_divergencia 1 "lancamento duplicado" "ana"
          conexao_aplicada
        = (Retorna tt, c')
        /\ map dp_status_processamento (divergencias_processadas (committed c'))
           = ["REJECTED"])
  /\ (exists c',
        Divergences.aprovar_uma "ana" None 1 conexao_aplicada
        = (Retorna (Divergences.Erro 1 "Divergencia nao encontrada ou ja processada"),
           c')
        /\ map dp_status_processamento (divergencias_processadas (committed c'))
           = ["AUTO_APPLIED"]).
Proof.
  split; [reflexivity|]. split; [reflexivity|].
  repeat split; eexists; (split; [vm_compute; reflexivity | reflexivity]).
Qed.

(* ================================================================== *)
(** * The daily run and the status of its session *)
(* ================================================================== *)

Section Sessao.

Import DivergenceProcessor.

Variable id : Z.

Lemma mantem_ret {A} I (a : A) : mantem I (ret a).
Proof. intros c H. exact H. Qed.

Lemma mantem_raise {A} I e : mantem I (@raise A e).
Proof. intros c H. exact H. Qed.

Lemma mantem_bind {A B} I (m : M A) (f : A -> M B) :
  mantem I m -> (forall a, mantem I (f a)) -> mantem I (bind m f).
Proof.
  intros Hm Hf c H. unfold bind. specialize (Hm c H).
  destruct (m c) as [[a|e] c1]; cbn in *; [now apply Hf | exact Hm].
Qed.

Lemma mantem_try {A} I (m : M A) (h : Excecao -> M A) :
  mantem I m -> (forall e, mantem I (h e)) -> mantem I (try_except m h).
Proof.
  intros Hm Hh c H. unfold try_except. specialize (Hm c H).
  destruct (m c) as [[a|e] c1]; cbn in *; [exact Hm | now apply Hh].
Qed.

Lemma mantem_try_psycopg2 {A} I (m : M A) (h : Excecao -> M A) :
  mantem I m -> (forall e, mantem I (h e)) -> mantem I (try_except_psycopg2 m h).
Proof.
  intros Hm Hh c H. unfold try_except_psycopg2. specialize (Hm c H).
  destruct (m c) as [[a|e] c1]; cbn in *; [exact Hm|].
  destruct (de_psycopg2 e); cbn; [now apply Hh | exact Hm].
Qed.

Lemma mantem_commit : mantem (sessao_aberta id) commit.
Proof.
  intros c [W K]. unfold commit.
  destruct (agenda c (relogio c)); split; cbn; assumption.
Qed.

Lemma mantem_rollback : mantem (sessao_aberta id) rollback.
Proof. intros c [W K]. split; cbn; assumption. Qed.

(** A statement whose effect keeps the session row and the committed state. *)
Lemma mantem_execute {A} ev (efeito : Connection -> A * Connection) :
  (forall c, tem_sessao id (sessoes_processamento (working c)) ->
             tem_sessao id (sessoes_processamento (working (snd (efeito c)))))
  -> (forall c, committed (snd (efeito c)) = committed c)
  -> mantem (sessao_aberta id) (execute ev efeito).
Proof.
  intros E1 E2 c [W K]. unfold execute.
  destruct (agenda c (relogio c)).
  - split; cbn; assumption.
  - specialize (E1 (envia ev c) W). specialize (E2 (envia ev c)).
    destruct (efeito (envia ev c)) as [a c1]. cbn in *.
    split; [exact E1 | rewrite E2; exact K].
Qed.

Lemma tem_sessao_app l s : tem_sessao id l -> tem_sessao id (l ++ [s]).
Proof. intros (x & Hx & E). exists x. split; [apply in_or_app; now left | exact E]. Qed.

Lemma tem_sessao_finaliza id' st m r lg l :
  tem_sessao id l ->
  tem_sessao id (map (AuditLogger.finaliza_sessao_linha id' st m r lg) l).
Proof.
  intros (x & Hx & E).
  exists (AuditLogger.finaliza_sessao_linha id' st m r lg x). split.
  - now apply in_map.
  - unfold AuditLogger.finaliza_sessao_linha. now destruct (ss_id x =? id').
Qed.

Ltac mantem_escrita :=
  intros;
  apply mantem_try_psycopg2;
  [ repeat (apply mantem_bind; [|intros]);
    try apply mantem_commit; try apply mantem_ret;
    apply mantem_execute; intros; cbn;
    auto using tem_sessao_app, tem_sessao_finaliza
  | intros; apply mantem_bind; [apply mantem_rollback | intros; apply mantem_raise] ].

Lemma mantem_ledger : todas_as_escritas (fun A m => mantem (sessao_aberta id) m).
Proof.
  unfold todas_as_escritas.
  refine (conj _ (conj _ (conj _ (conj _ (conj _ _))))); mantem_escrita.
Qed.

Lemma mantem_registrar_pendente div :
  mantem (sessao_aberta id) (_registrar_divergencia_pendente div).
Proof.
  destruct mantem_ledger as (P1 & P2 & P3 & _).
  unfold _registrar_divergencia_pendente.
  repeat (apply mantem_bind; intros); auto using mantem_commit, mantem_ret.
Qed.

Lemma mantem_correcao_automatica div usuario :
  mantem (sessao_aberta id) (_aplicar_correcao_automatica div usuario).
Proof.
  destruct mantem_ledger as (P1 & P2 & P3 & P4 & _).
  assert (T : forall op e, mantem (sessao_aberta id) (tratar_falha_correcao op e)).
  { intros op e. unfold tratar_falha_correcao.
    apply mantem_bind; [apply mantem_rollback | intros].
    apply mantem_bind; [|intros; apply mantem_ret].
    destruct op; [apply P2 | apply mantem_ret]. }
  intros c H. unfold _aplicar_correcao_automatica.
  pose proof (P1 "UPDATE" ("Correcao automatica: " ++ tipo div)%string usuario
                "AUTOMATION" (Some "byd.controladoria") None None None c H) as H1.
  destruct (AuditLogger.iniciar_operacao _ _ _ _ _ _ _ _ c) as [[op|e] c1]; cbn in H1.
  - revert c1 H1. apply mantem_try; [|intros; apply T].
    unfold corpo_correcao.
    repeat (apply mantem_bind; [|intros]);
      auto using mantem_commit, mantem_ret;
      apply mantem_execute; intros; cbn; auto.
  - now apply T.
Qed.

Lemma mantem_laco modo usuario limite divergencias : forall resultado,
  mantem (sessao_aberta id) (laco_correcoes modo usuario limite divergencias resultado).
Proof.
  induction divergencias as [|div resto IH]; intros resultado; cbn.
  - apply mantem_ret.
  - apply mantem_bind; [|intros; apply IH].
    unfold processar_divergencia. apply mantem_try; [|intros; apply mantem_ret].
    destruct (aplicar_auto modo limite div).
    + apply mantem_bind; [apply mantem_correcao_automatica|].
      intros [|]; apply mantem_ret.
    + apply mantem_bind; [apply mantem_registrar_pendente|].
      intros; apply mantem_ret.
Qed.

Lemma mantem_detectar di df t limite :
  mantem (sessao_aberta id) (detectar_divergencias di df t limite).
Proof.
  unfold detectar_divergencias, _detectar_divergencias_trade_marketing,
    _detectar_pendentes_verificacao, _detectar_divergencias_valores.
  repeat (apply mantem_bind; [|intros]); try apply mantem_ret;
    apply mantem_execute; intros; cbn; auto.
Qed.

End Sessao.

Lemma iniciar_sessao_abre tipo_sessao parametros ambiente c id c' :
  AuditLogger.iniciar_sessao_processamento tipo_sessao parametros ambiente c
  = (Retorna id, c') ->
  sessao_aberta id c'.
Proof.
  unfold AuditLogger.iniciar_sessao_processamento, try_except_psycopg2, try_except, bind, ret, raise,
    rollback, execute, commit. cbn.
  destruct (agenda c (relogio c)) as [e0|]; cbn;
    [destruct (de_psycopg2 e0); discriminate|].
  destruct (agenda c (S (relogio c))) as [e1|]; cbn;
    [destruct (de_psycopg2 e1); discriminate|].
  intros E. inversion E; subst. cbn.
  split; eexists; (split; [apply in_or_app; right; left; reflexivity | reflexivity]).
Qed.

Lemma finalizar_sessao_escrita id status metricas resultado_geral log c u c' :
  AuditLogger.finalizar_sessao_processamento id status metricas resultado_geral log c
  = (Retorna u, c') ->
  tem_sessao id (sessoes_processamento (working c)) ->
  sessao_finalizada id status (sessoes_processamento (working c'))
  /\ committed c' = working c'.
Proof.
  unfold AuditLogger.finalizar_sessao_processamento, try_except_psycopg2, try_except, bind, ret, raise,
    rollback, execute, commit. cbn.
  destruct (agenda c (relogio c)) as [e0|]; cbn;
    [destruct (de_psycopg2 e0); discriminate|].
  destruct (agenda c (S (relogio c))) as [e1|]; cbn;
    [destruct (de_psycopg2 e1); discriminate|].
  intros E (s & Hs & Es). inversion E; subst. cbn. split; [|reflexivity].
  exists (AuditLogger.finaliza_sessao_linha (ss_id s) status metricas
            resultado_geral log s).
  split; [now apply in_map|].
  unfold AuditLogger.finaliza_sessao_linha. rewrite Z.eqb_refl. cbn. auto.
Qed.

Lemma erros_nao_negativos modo usuario limite divergencias c resultado c' :
  DivergenceProcessor.aplicar_correcoes divergencias modo usuario limite c
  = (Retorna resultado, c') ->
  0 <= DivergenceProcessor.erros resultado.
Proof.
  unfold DivergenceProcessor.aplicar_correcoes. intros E.
  destruct (laco_correcoes_avanca modo usuario limite divergencias
              (DivergenceProcessor.mkResultadoCorrecoes
                 (Z.of_nat (List.length divergencias)) 0 0 0 []) c)
    as (r & c2 & E2 & [_ _ _ _ _ A]).
  rewrite E in E2. inversion E2; subst. cbn in A.
  unfold conta_status in A. cbn in A. lia.
Qed.

(** When the four stages return, the session row is on the ledger, inside and
    outside the transaction. *)
Lemma etapas_sessao self amb c et c1 :
  DailyProcessor.etapas_1_a_4 self amb c = (Retorna et, c1) ->
  sessao_aberta (DailyProcessor.et_sessao_id et) c1
  /\ 0 <= DivergenceProcessor.erros (DailyProcessor.et_resultado_correcoes et).
Proof.
  unfold DailyProcessor.etapas_1_a_4. unfold bind at 1.
  destruct (AuditLogger.iniciar_sessao_processamento _ _ _ c) as [[id|e] c0] eqn:E0;
    [|discriminate].
  apply iniciar_sessao_abre in E0.
  unfold bind at 1.
  pose proof (mantem_detectar id (Some (DailyProcessor.data_inicio self))
                (Some (DailyProcessor.data_fim self)) None
                DivergenceProcessor.limite_confianca_padrao c0 E0) as D.
  destruct (DivergenceProcessor.detectar_divergencias _ _ _ _ c0) as [[ds|e] c0'];
    [|discriminate].
  cbn in D. unfold bind at 1.
  pose proof (mantem_laco id (DailyProcessor.modo self) "sistema_automatico"
                DivergenceProcessor.limite_auto_aplicacao_padrao ds
                (DivergenceProcessor.mkResultadoCorrecoes
                   (Z.of_nat (List.length ds)) 0 0 0 []) c0' D) as L.
  destruct (DivergenceProcessor.aplicar_correcoes ds (DailyProcessor.modo self)
              "sistema_automatico" DivergenceProcessor.limite_auto_aplicacao_padrao c0')
    as [[rc|e] c0''] eqn:Ea; [|discriminate].
  unfold DivergenceProcessor.aplicar_correcoes in Ea. rewrite Ea in L. cbn in L.
  destruct (DailyProcessor.etapa_relatorio amb ds []) as [caminho erros1].
  unfold ret. intros E. inversion E; subst. cbn.
  split; [exact L|].
  eapply erros_nao_negativos. unfold DivergenceProcessor.aplicar_correcoes. exact Ea.
Qed.




(* ================================================================== *)
(** * More on the ledger: updates by id, audited blocks, rollback data *)
(* ================================================================== *)

Lemma set_operacoes_mesmo w : set_operacoes (operacoes w) w = w.
Proof. now destruct w. Qed.

Lemma set_divergencias_mesmo w :
  set_divergencias_processadas (divergencias_processadas w) w = w.
Proof. now destruct w. Qed.

Lemma set_sessoes_mesmo w :
  set_sessoes_processamento (sessoes_processamento w) w = w.
Proof. now destruct w. Qed.

Lemma map_mesmo {A} (f : A -> A) l :
  (forall x, In x l -> f x = x) -> map f l = l.
Proof.
  induction l as [|a l IH]; intros H; cbn; [reflexivity|].
  rewrite (H a (or_introl eq_refl)), IH; [reflexivity|].
  intros x Hx. apply H. now right.
Qed.

(** A finalization that is written: what it returns and what it leaves. *)
Lemma finalizar_operacao_escrita id st n a p e c :
  falha_da_escrita c = None ->
  exists c',
    AuditLogger.finalizar_operacao id st n a p e c = (Retorna tt, c')
    /\ operacoes (working c')
       = map (AuditLogger.finaliza_linha id st n (json_or_none a) (json_or_none p) e)
           (operacoes (working c))
    /\ divergencias_processadas (working c') = divergencias_processadas (working c)
    /\ sessoes_processamento (working c') = sessoes_processamento (working c)
    /\ controladoria (working c') = controladoria (working c)
    /\ committed c' = working c'
    /\ agenda c' = agenda c /\ relogio c' = S (S (relogio c))
    /\ seq_operacoes c' = seq_operacoes c.
Proof.
  unfold falha_da_escrita. intros F.
  destruct (agenda c (relogio c)) eqn:E0; [discriminate|].
  unfold AuditLogger.finalizar_operacao, try_except_psycopg2, try_except, bind, execute, commit.
  rewrite E0. cbn. rewrite F. cbn.
  eexists. repeat split.
Qed.

(** X1.  The three ledger writes that update a row by its id
    (finalizar_operacao, atualizar_status_divergencia,
    finalizar_sessao_processamento) do not notice an id that no row has: when
    the write goes through they return normally and the tables are what they
    were, now committed. *)
Theorem updates_on_unknown_id_change_nothing (c : Connection) :
  falha_da_escrita c = None ->
  (forall id status registros anteriores posteriores erro,
      (forall o, In o (operacoes (working c)) -> op_id o <> id) ->
      exists c',
        AuditLogger.finalizar_operacao id status registros anteriores posteriores
          erro c = (Retorna tt, c')
        /\ working c' = working c /\ committed c' = working c)
  /\ (forall id novo_status aplicado por motivo,
      (forall d, In d (divergencias_processadas (working c)) -> dp_id d <> id) ->
      exists c',
        AuditLogger.atualizar_status_divergencia id novo_status aplicado por motivo c
        = (Retorna tt, c')
        /\ working c' = working c /\ committed c' = working c)
  /\ (forall id status metricas resultado_geral log_completo,
      (forall x, In x (sessoes_processamento (working c)) -> ss_id x <> id) ->
      exists c',
        AuditLogger.finalizar_sessao_processamento id status metricas
          resultado_geral log_completo c = (Retorna tt, c')
        /\ working c' = working c /\ committed c' = working c).
Proof.
  unfold falha_da_escrita. intros F.
  destruct (agenda c (relogio c)) eqn:E0; [discriminate|].
  split; [|split]; intros.
  - unfold AuditLogger.finalizar_operacao, try_except_psycopg2, try_except, bind, execute, commit.
    rewrite E0. cbn. rewrite F. cbn. eexists. split; [reflexivity|]. cbn.
    rewrite map_mesmo, set_operacoes_mesmo; [split; reflexivity|].
    intros o Ho. apply finaliza_linha_outro. auto.
  - unfold AuditLogger.atualizar_status_divergencia, try_except_psycopg2, try_except, bind, execute, commit.
    rewrite E0. cbn. rewrite F. cbn. eexists. split; [reflexivity|]. cbn.
    rewrite map_mesmo, set_divergencias_mesmo; [split; reflexivity|].
    intros d Hd. unfold AuditLogger.atualiza_linha.
    destruct (Z.eqb_spec (dp_id d) id) as [E|_]; [|reflexivity].
    exfalso. now apply (H d Hd).
  - unfold AuditLogger.finalizar_sessao_processamento, try_except_psycopg2, try_except, bind, execute, commit.
    rewrite E0. cbn. rewrite F. cbn. eexists. split; [reflexivity|]. cbn.
    rewrite map_mesmo, set_sessoes_mesmo; [split; reflexivity|].
    intros x Hx. unfold AuditLogger.finaliza_sessao_linha.
    destruct (Z.eqb_spec (ss_id x) id) as [E|_]; [|reflexivity].
    exfalso. now apply (H x Hx).
Qed.

Lemma updates_on_unknown_id_witness :
  falha_da_escrita (conexao_exemplo (bd_exemplo alvo_exemplo []) []) = None
  /\ exists c',
       AuditLogger.atualizar_status_divergencia 99 "APPROVED" None (Some "ana") None
         (conexao_exemplo (bd_exemplo alvo_exemplo []) []) = (Retorna tt, c')
       /\ working c' = working (conexao_exemplo (bd_exemplo alvo_exemplo []) []).
Proof.
  split; [reflexivity|].
  destruct (updates_on_unknown_id_change_nothing
              (conexao_exemplo (bd_exemplo alvo_exemplo []) []) eq_refl)
    as (_ & H & _).
  destruct (H 99 "APPROVED" None (Some "ana") None) as (c' & E & W & _).
  - intros d [].
  - exists c'. split; [exact E | exact W].
Defined.

Lemma operacao_com_status_finaliza id st n a p e l :
  tem_operacao id l ->
  operacao_com_status id st (map (AuditLogger.finaliza_linha id st n a p e) l).
Proof.
  intros (o & Ho & E).
  exists (AuditLogger.finaliza_linha id st n a p e o). split.
  - now apply in_map.
  - unfold AuditLogger.finaliza_linha. rewrite E, Z.eqb_refl. cbn. auto.
Qed.

(** X2.  The audited block.  Once the operation is opened: if the block
    returns and the finalization is written, the value is returned and the
    operation is finalized SUCCESS; if the block raises, the error is never
    swallowed, and when the finalization is written the operation is
    finalized FAILED with the class name and text of the error as its message
    and the very error of the block is raised again. *)
Theorem operacao_auditada_finalizes_by_outcome {A}
    (tipo_operacao descricao usuario origem : string)
    (tabela : option string) (filtros : option dict) (query : option string)
    (metadata : option dict) (corpo : Z -> M A)
    (c c1 : Connection) (id : Z) :
  AuditLogger.iniciar_operacao tipo_operacao descricao usuario origem tabela
    filtros query metadata c = (Retorna id, c1) ->
  (forall a c2,
      corpo id c1 = (Retorna a, c2) ->
      falha_da_escrita c2 = None ->
      tem_operacao id (operacoes (working c2)) ->
      exists c3,
        AuditLogger.operacao_auditada tipo_operacao descricao usuario
          origem tabela filtros query metadata corpo c = (Retorna a, c3)
        /\ operacao_com_status id "SUCCESS" (operacoes (committed c3)))
  /\ (forall e c2,
      corpo id c1 = (Levanta e, c2) ->
      (exists e' c3,
          AuditLogger.operacao_auditada tipo_operacao descricao usuario
            origem tabela filtros query metadata corpo c = (Levanta e', c3))
      /\ (falha_da_escrita c2 = None ->
          tem_operacao id (operacoes (working c2)) ->
          exists c3,
            AuditLogger.operacao_auditada tipo_operacao descricao
              usuario origem tabela filtros query metadata corpo c = (Levanta e, c3)
            /\ operacao_falhou id (classe e ++ ": " ++ texto e)%string
                 (operacoes (committed c3)))).
Proof.
  intros Ini. split.
  - intros a c2 Ec F T.
    destruct (finalizar_operacao_escrita id "SUCCESS" 0 None None None c2 F)
      as (c3 & E3 & O3 & _ & _ & _ & K3 & _).
    exists c3. split.
    + unfold AuditLogger.operacao_auditada, try_except_psycopg2, try_except, bind.
      rewrite Ini, Ec, E3. reflexivity.
    + rewrite K3, O3. now apply operacao_com_status_finaliza.
  - intros e c2 Ec. split.
    + destruct (AuditLogger.finalizar_operacao id "FAILED" 0 None None
                  (Some (classe e ++ ": " ++ texto e)%string) c2)
        as [[[]|e'] c3] eqn:E3.
      * exists e, c3.
        unfold AuditLogger.operacao_auditada, try_except_psycopg2, try_except, bind, raise.
        rewrite Ini, Ec, E3. reflexivity.
      * exists e', c3.
        unfold AuditLogger.operacao_auditada, try_except_psycopg2, try_except, bind, raise.
        rewrite Ini, Ec, E3. reflexivity.
    + intros F T.
      destruct (finalizar_operacao_escrita id "FAILED" 0 None None
                  (Some (classe e ++ ": " ++ texto e)%string) c2 F)
        as (c3 & E3 & O3 & _ & _ & _ & K3 & _).
      exists c3. split.
      * unfold AuditLogger.operacao_auditada, try_except_psycopg2, try_except, bind, raise.
        rewrite Ini, Ec, E3. reflexivity.
      * rewrite K3, O3. now apply operacao_falhou_finaliza.
Qed.

Lemma operacao_auditada_witness :
  exists c3,
    AuditLogger.operacao_auditada "UPDATE"
      "Corrigir bonus" "ana" "API" (Some "byd.controladoria") None None None
      (fun _ => @raise unit (mkExcecao "ValueError" false "valor invalido"))
      (conexao_exemplo (bd_exemplo alvo_exemplo []) [])
    = (Levanta (mkExcecao "ValueError" false "valor invalido"), c3)
    /\ operacao_falhou 1 "ValueError: valor invalido" (operacoes (committed c3)).
Proof.
  destruct (operacao_auditada_finalizes_by_outcome (A := unit)
              "UPDATE" "Corrigir bonus" "ana" "API"
              (Some "byd.controladoria") None None None
              (fun _ => @raise unit (mkExcecao "ValueError" false "valor invalido"))
              (conexao_exemplo (bd_exemplo alvo_exemplo []) [])
              (snd (AuditLogger.iniciar_operacao "UPDATE" "Corrigir bonus" "ana" "API"
                      (Some "byd.controladoria") None None None
                      (conexao_exemplo (bd_exemplo alvo_exemplo []) [])))
              1 eq_refl) as [_ H].
  destruct (H (mkExcecao "ValueError" false "valor invalido") _ eq_refl) as [_ K].
  apply K.
  - reflexivity.
  - eexists. split; [left; reflexivity | reflexivity].
Defined.

Lemma filter_id_frescos id l :
  (forall o, In o l -> op_id o < id) ->
  filter (fun o => op_id o =? id) l = [].
Proof.
  intros F. apply filter_nada. intros o Ho. specialize (F o Ho).
  apply Z.eqb_neq. lia.
Qed.

(** X3.  Rollback data.  After an operation is begun and finalized on a
    connection without failures, obter_operacoes_para_rollback gives back the
    operation's id, kind and table as begun and the affected-row count and
    previous state as finalized (an empty previous state comes back as NULL).
    For an id that no row has it raises the ValueError
    "Operacao <id> nao encontrada" and sends nothing but its query. *)
Theorem rollback_data_round_trip
    (tipo_operacao descricao usuario origem : string) (tabela : option string)
    (status : string) (registros : Z)
    (anteriores posteriores : option (list Snapshot)) (erro : option string)
    (c : Connection) :
  (sem_falhas c -> ids_frescos c ->
   exists c',
     registrar_e_consultar tipo_operacao descricao usuario origem tabela status
       registros anteriores posteriores erro c
     = (Retorna (AuditLogger.mkDadosRollback (seq_operacoes c) tipo_operacao tabela
                   (json_or_none anteriores) (Some registros)), c'))
  /\ (forall id,
        agenda c (relogio c) = None ->
        (forall o, In o (operacoes (working c)) -> op_id o <> id) ->
        AuditLogger.obter_operacoes_para_rollback id c
        = (Levanta (mkExcecao "ValueError" false
                      ("Operacao " ++ AuditLogger.str_int id ++ " nao encontrada")%string),
           envia (Select TOperacoes) c)).
Proof.
  split.
  - intros H F.
    unfold registrar_e_consultar, AuditLogger.obter_operacoes_para_rollback,
      AuditLogger.select_operacao.
    unfold AuditLogger.iniciar_operacao, AuditLogger.finalizar_operacao,
      try_except_psycopg2, try_except, bind, ret, raise, rollback, execute, commit. cbn.
    repeat (rewrite H by (cbn; lia); cbn).
    rewrite map_app, filter_app.
    rewrite map_finaliza_frescos by exact F.
    rewrite filter_id_frescos by exact F.
    cbn. unfold AuditLogger.finaliza_linha. cbn. rewrite Z.eqb_refl. cbn.
    rewrite Z.eqb_refl. cbn. eexists. reflexivity.
  - intros id A0 N.
    unfold AuditLogger.obter_operacoes_para_rollback, AuditLogger.select_operacao,
      bind, execute, raise. rewrite A0. cbn.
    rewrite filter_nada; [reflexivity|].
    intros o Ho. apply Z.eqb_neq. now apply N.
Qed.

Lemma rollback_data_witness :
  exists c',
    registrar_e_consultar "UPDATE" "Correcao manual" "ana" "MANUAL"
      (Some "byd.controladoria") "SUCCESS" 1
      (Some [mkSnapshot "NF-1" "bonus_dpto" (Some (VNum 0))]) None None
      (conexao_exemplo (bd_exemplo alvo_exemplo []) [])
    = (Retorna (AuditLogger.mkDadosRollback 1 "UPDATE" (Some "byd.controladoria")
                  (Some [mkSnapshot "NF-1" "bonus_dpto" (Some (VNum 0))]) (Some 1)),
       c').
Proof.
  destruct (rollback_data_round_trip "UPDATE" "Correcao manual" "ana" "MANUAL"
              (Some "byd.controladoria") "SUCCESS" 1
              (Some [mkSnapshot "NF-1" "bonus_dpto" (Some (VNum 0))]) None None
              (conexao_exemplo (bd_exemplo alvo_exemplo []) [])) as [R _].
  exact (R (sem_falhas_exemplo _) (ids_frescos_exemplo _ _ _)).
Defined.

(* ================================================================== *)
(** * More on detection: the rules row by row, periods, reads only *)
(* ================================================================== *)

Section Regras.

Import DivergenceProcessor.




Lemma in_insere_desc x r l : In x (insere_desc r l) <-> x = r \/ In x l.
Proof.
  induction l as [|a l IH]; cbn.
  - intuition.
  - destruct (antes_desc r a); cbn; [intuition | rewrite IH; intuition].
Qed.

Lemma in_order_by_dta_desc x l : In x (order_by_dta_desc l) <-> In x l.
Proof.
  unfold order_by_dta_desc. induction l as [|a l IH]; cbn; [reflexivity|].
  rewrite in_insere_desc, IH. intuition.
Qed.

(** X5.  The trade-marketing scan, when its query succeeds, returns a
    divergence exactly when some row of the view flagged 'Revisar
    Divergência!' (and, if both dates are given, processed inside the period)
    produces it under the row rule; rows that are not flagged contribute
    nothing. *)
Theorem trade_marketing_scan_reads_flagged_rows
    (data_inicio data_fim : option Data) (c : Connection) :
  agenda c (relogio c) = None ->
  exists l c1,
    _detectar_divergencias_trade_marketing data_inicio data_fim c = (Retorna l, c1)
    /\ forall d,
         In d l <->
         exists r, In r (bonus_view (working c))
                   /\ bv_apontamento r = Some "Revisar Divergência!"
                   /\ filtro_periodo data_inicio data_fim r = true
                   /\ In d (divergencias_da_linha_trade r).
Proof.
  intros A0.
  unfold _detectar_divergencias_trade_marketing, bind, ret, execute.
  rewrite A0. cbn. eexists. eexists. split; [reflexivity|].
  intros d. rewrite in_flat_map. split.
  - intros (r & Hr & Hd). apply in_order_by_dta_desc, filter_In in Hr.
    destruct Hr as [Hr W]. exists r. unfold where_trade_marketing in W.
    destruct (bv_apontamento r) as [a|]; [|discriminate].
    apply andb_true_iff in W. destruct W as [W1 W2].
    apply String.eqb_eq in W1. subst a. auto.
  - intros (r & Hr & Ha & Hp & Hd). exists r. split; [|exact Hd].
    apply in_order_by_dta_desc, filter_In. split; [exact Hr|].
    unfold where_trade_marketing. rewrite Ha, Hp. reflexivity.
Qed.

Lemma trade_marketing_scan_witness :
  exists l c1,
    _detectar_divergencias_trade_marketing None None
      (conexao_exemplo (bd_exemplo [] visao_exemplo) []) = (Retorna l, c1)
    /\ (In (mkDivergencia "NF-1" "TRADE_MARKETING_BONUS" "bonus_dpto"
              (Some (VFloat (float 0))) (Some (VFloat (float (50 # 1))))
              (Some "2025-09") (95 # 100)
              ["BONUS_DPTO_DIVERGENTE"] (dados_trade linha_trade_exemplo)) l).
Proof.
  destruct (trade_marketing_scan_reads_flagged_rows None None
              (conexao_exemplo (bd_exemplo [] visao_exemplo) []) eq_refl)
    as (l & c1 & E & H).
  exists l, c1. split; [exact E|].
  apply H. exists linha_trade_exemplo.
  split; [left; reflexivity|]. split; [reflexivity|]. split; [reflexivity|].
  left. reflexivity.
Defined.



(** X7.  Detection only reads.  Whatever the schedule of failures, it leaves
    the tables (inside and outside the transaction) and the sequences as
    they were and sends nothing but queries on the view, three at most; and
    it fails fast: if one of its three queries raises, detection raises that
    error and returns no partial result. *)
Theorem detection_reads_only_and_fails_fast
    (data_inicio data_fim : option Data) (tipo_divergencia : option string)
    (limite : Q) (c : Connection) :
  working (snd (detectar_divergencias data_inicio data_fim tipo_divergencia limite c))
  = working c
  /\ committed (snd (detectar_divergencias data_inicio data_fim tipo_divergencia
                       limite c))
     = committed c
  /\ (exists h,
        historico (snd (detectar_divergencias data_inicio data_fim tipo_divergencia
                          limite c))
        = historico c ++ h
        /\ Forall (eq (Select TBonusView)) h /\ (List.length h <= 3)%nat)
  /\ (forall k e,
        primeira_falha c k e -> (k < 3)%nat ->
        fst (detectar_divergencias data_inicio data_fim tipo_divergencia limite c)
        = Levanta e).
Proof.
  unfold detectar_divergencias, _detectar_divergencias_trade_marketing,
    _detectar_pendentes_verificacao, _detectar_divergencias_valores,
    bind, ret, execute.
  split; [|split; [|split]].
  - destruct (agenda c (relogio c)); cbn; [reflexivity|].
    destruct (agenda c (S (relogio c))); cbn; [reflexivity|].
    destruct (agenda c (S (S (relogio c)))); cbn; reflexivity.
  - destruct (agenda c (relogio c)); cbn; [reflexivity|].
    destruct (agenda c (S (relogio c))); cbn; [reflexivity|].
    destruct (agenda c (S (S (relogio c)))); cbn; reflexivity.
  - destruct (agenda c (relogio c)); cbn.
    { exists [Select TBonusView]. repeat constructor. }
    destruct (agenda c (S (relogio c))); cbn.
    { exists [Select TBonusView; Select TBonusView].
      rewrite <- app_assoc. repeat constructor. }
    destruct (agenda c (S (S (relogio c)))); cbn;
      exists [Select TBonusView; Select TBonusView; Select TBonusView];
      rewrite <- !app_assoc; repeat constructor.
  - intros k e [Ok Ko] Lt.
    destruct k as [|[|[|k]]]; try lia; cbn in Ko.
    + rewrite Ko. reflexivity.
    + pose proof (Ok 0%nat ltac:(lia)) as H0. cbn in H0.
      rewrite H0. cbn. rewrite Ko. reflexivity.
    + pose proof (Ok 0%nat ltac:(lia)) as H0. cbn in H0.
      pose proof (Ok 1%nat ltac:(lia)) as H1. cbn in H1.
      rewrite H0. cbn. rewrite H1. cbn. rewrite Ko. reflexivity.
Qed.

Lemma detection_fails_fast_witness :
  primeira_falha
    (conexao_exemplo (bd_exemplo [] visao_exemplo) [None; Some "timeout"])
    1 (erro_bd "timeout")
  /\ fst (detectar_divergencias None None None limite_confianca_padrao
            (conexao_exemplo (bd_exemplo [] visao_exemplo) [None; Some "timeout"]))
     = Levanta (erro_bd "timeout").
Proof.
  assert (PF : primeira_falha
                 (conexao_exemplo (bd_exemplo [] visao_exemplo)
                    [None; Some "timeout"]) 1 (erro_bd "timeout")).
  { split; [|reflexivity]. intros i Hi. destruct i; [reflexivity | lia]. }
  split; [exact PF|].
  destruct (detection_reads_only_and_fails_fast None None None
              limite_confianca_padrao
              (conexao_exemplo (bd_exemplo [] visao_exemplo) [None; Some "timeout"]))
    as (_ & _ & _ & H).
  apply (H 1%nat (erro_bd "timeout") PF). lia.
Defined.

(** X8.  Periods.  A period is applied by the trade-marketing and value-range
    scans only when both of its dates are given: with one date alone
    detection does what it does with no date.  The pending-verification scan
    never looks at the period: a row with the sentinel inside the fixed
    window is returned for any period, whenever the minimum confidence is at
    most 0.5. *)
Theorem period_needs_both_dates
    (tipo_divergencia : option string) (limite : Q) (c : Connection) :
  (forall a,
      detectar_divergencias (Some a) None tipo_divergencia limite c
      = detectar_divergencias None None tipo_divergencia limite c
      /\ detectar_divergencias None (Some a) tipo_divergencia limite c
         = detectar_divergencias None None tipo_divergencia limite c)
  /\ (forall data_inicio data_fim r ds c',
        In r (bonus_view (working c)) -> where_pendentes r = true ->
        (limite <= 5 # 10)%Q ->
        detectar_divergencias data_inicio data_fim tipo_divergencia limite c
        = (Retorna ds, c') ->
        In (divergencia_da_linha_pendente r) ds).
Proof.
  split.
  - intros a. split; reflexivity.
  - intros di df r ds c' Hr W L E.
    rewrite (detectar_divergencias_retorna _ _ _ _ _ _ _ E).
    apply filter_In. split.
    + apply in_or_app. right. apply in_or_app. left.
      unfold varredura_pendentes. apply in_map. apply filter_In. auto.
    + cbn. apply Qle_bool_iff. exact L.
Qed.

Lemma period_witness :
  exists ds c',
    detectar_divergencias (Some (mkData 2030 1 1)) (Some (mkData 2030 12 31)) None
      (5 # 10) (conexao_exemplo (bd_exemplo [] visao_exemplo) [])
    = (Retorna ds, c')
    /\ In (divergencia_da_linha_pendente linha_pendente_exemplo) ds.
Proof.
  destruct (detectar_divergencias (Some (mkData 2030 1 1))
              (Some (mkData 2030 12 31)) None (5 # 10)
              (conexao_exemplo (bd_exemplo [] visao_exemplo) []))
    as [[ds|e] c'] eqn:E.
  - exists ds, c'. split; [reflexivity|].
    destruct (period_needs_both_dates None (5 # 10)
                (conexao_exemplo (bd_exemplo [] visao_exemplo) [])) as [_ H].
    apply (H (Some (mkData 2030 1 1)) (Some (mkData 2030 12 31))
             linha_pendente_exemplo ds c').
    + right. left. reflexivity.
    + reflexivity.
    + unfold Qle. cbn. lia.
    + exact E.
  - vm_compute in E. discriminate E.
Defined.

End Regras.

(* ================================================================== *)
(** * Corrections that succeed *)
(* ================================================================== *)

Section Sucesso.

Import DivergenceProcessor.

Ltac abre_tudo :=
  unfold _aplicar_correcao_automatica, corpo_correcao, tratar_falha_correcao,
    select_controladoria, update_controladoria,
    AuditLogger.iniciar_operacao, AuditLogger.finalizar_operacao,
    AuditLogger.registrar_divergencia, AuditLogger.atualizar_status_divergencia,
    try_except_psycopg2, try_except, bind, ret, raise, rollback, execute, commit.

(** An automatic correction on a connection without failures. *)
Lemma correcao_sem_falhas div usuario c :
  sem_falhas c ->
  exists c',
    _aplicar_correcao_automatica div usuario c = (Retorna true, c')
    /\ sem_falhas c'
    /\ committed c' = working c'
    /\ controladoria (working c') = alvo_corrigido div (controladoria (working c))
    /\ In (operacao_update div usuario (seq_operacoes c) (controladoria (working c)))
          (operacoes (working c'))
    /\ In (linha_aplicada div usuario (seq_operacoes c) (seq_divergencias c))
          (divergencias_processadas (working c'))
    /\ bonus_view (working c') = bonus_view (working c).
Proof.
  intros H. abre_tudo. cbn.
  repeat (rewrite H by (cbn; lia); cbn).
  eexists. split; [reflexivity|]. cbn.
  split; [intros n Hn; cbn in *; apply H; lia|].
  split; [reflexivity|]. split; [reflexivity|].
  split; [|split; [|reflexivity]].
  - apply in_map_iff. eexists. split; [|apply in_or_app; right; left; reflexivity].
    unfold AuditLogger.finaliza_linha. cbn. rewrite Z.eqb_refl.
    unfold operacao_update, valor_anterior_lido, linhas_do_alvo.
    destruct (filter _ (controladoria (working c))); reflexivity.
  - apply in_map_iff. eexists. split; [|apply in_or_app; right; left; reflexivity].
    unfold AuditLogger.atualiza_linha. cbn. rewrite Z.eqb_refl. reflexivity.
Qed.

(** X9.  An automatic correction on which nothing fails returns [True] and
    leaves everything committed: in the target table exactly the rows with
    the divergence's id have the disputed column set to the expected value;
    the ledger holds the operation finalized SUCCESS with the number of rows
    the update touched and the value read before and written after, and the
    divergence record AUTO_APPLIED with the expected value as applied value
    and the actor as processor. *)
Theorem automatic_correction_effect
    (div : Divergencia) (usuario : string) (c : Connection) :
  sem_falhas c ->
  exists c',
    _aplicar_correcao_automatica div usuario c = (Retorna true, c')
    /\ committed c' = working c'
    /\ controladoria (committed c') = alvo_corrigido div (controladoria (working c))
    /\ In (operacao_update div usuario (seq_operacoes c) (controladoria (working c)))
          (operacoes (committed c'))
    /\ In (linha_aplicada div usuario (seq_operacoes c) (seq_divergencias c))
          (divergencias_processadas (committed c')).
Proof.
  intros H.
  destruct (correcao_sem_falhas div usuario c H) as (c' & E & _ & K & A & O & D & _).
  exists c'. rewrite K. auto.
Qed.

Lemma automatic_correction_witness :
  exists c',
    _aplicar_correcao_automatica div_trade_exemplo "sistema_automatico"
      (conexao_exemplo (bd_exemplo alvo_exemplo []) []) = (Retorna true, c')
    /\ controladoria (committed c')
       = [mkControladoria "NF-1"
            [("bonus_dpto", Some (VFloat (DivergenceProcessor.float (50 # 1))));
                                  ("trade_mkt_dpto", Some (VNum 0))]].
Proof.
  destruct (automatic_correction_effect div_trade_exemplo "sistema_automatico"
              (conexao_exemplo (bd_exemplo alvo_exemplo []) [])
              (sem_falhas_exemplo _)) as (c' & E & _ & A & _).
  exists c'. split; [exact E|]. rewrite A. reflexivity.
Defined.

Lemma alvo_corrigido_sem_linhas div t :
  (forall r, In r t -> ct_idnfsexterno r <> idnfsexterno div) ->
  alvo_corrigido div t = t /\ linhas_do_alvo div t = [].
Proof.
  intros N. split.
  - unfold alvo_corrigido. apply map_mesmo. intros r Hr.
    destruct (String.eqb_spec (ct_idnfsexterno r) (idnfsexterno div)) as [E|_];
      [exfalso; now apply (N r Hr) | reflexivity].
  - unfold linhas_do_alvo. apply filter_nada. intros r Hr.
    apply String.eqb_neq. now apply N.
Qed.

(** X10.  A correction for an id that the target table does not hold is not
    treated as a failure: when nothing else fails it returns [True], the loop
    counts the divergence as corrected automatically, the target table is
    unchanged, and the operation is finalized SUCCESS with zero affected rows
    and NULL as previous value; the record is AUTO_APPLIED all the same. *)
Theorem correction_of_absent_row_counts_as_applied
    (modo usuario : string) (limite : Q) (resultado : ResultadoCorrecoes)
    (div : Divergencia) (c : Connection) :
  sem_falhas c ->
  aplicar_auto modo limite div = true ->
  (forall r, In r (controladoria (working c)) ->
             ct_idnfsexterno r <> idnfsexterno div) ->
  exists c',
    processar_divergencia modo usuario limite resultado div c
    = (Retorna (conta_auto resultado div), c')
    /\ controladoria (committed c') = controladoria (working c)
    /\ (exists o, In o (operacoes (committed c'))
                  /\ op_id o = seq_operacoes c /\ op_status o = "SUCCESS"
                  /\ op_registros_afetados o = Some 0
                  /\ op_dados_anteriores o
                     = Some [mkSnapshot (idnfsexterno div) (campo_afetado div) None])
    /\ In (linha_aplicada div usuario (seq_operacoes c) (seq_divergencias c))
          (divergencias_processadas (committed c')).
Proof.
  intros H G N.
  destruct (correcao_sem_falhas div usuario c H) as (c' & E & _ & K & A & O & D & _).
  destruct (alvo_corrigido_sem_linhas div _ N) as [A0 L0].
  exists c'. rewrite (processar_elegivel _ _ _ _ _ _ G), E, K, A, A0.
  split; [reflexivity|]. split; [reflexivity|]. split; [|exact D].
  exists (operacao_update div usuario (seq_operacoes c) (controladoria (working c))).
  split; [exact O|]. unfold operacao_update, valor_anterior_lido. rewrite L0.
  cbn. auto.
Qed.

Lemma correction_of_absent_row_witness :
  exists c',
    processar_divergencia "auto" "sistema_automatico" limite_auto_aplicacao_padrao
      (mkResultadoCorrecoes 1 0 0 0 []) div_trade_exemplo
      (conexao_exemplo (bd_exemplo [] []) [])
    = (Retorna (conta_auto (mkResultadoCorrecoes 1 0 0 0 []) div_trade_exemplo), c')
    /\ controladoria (committed c') = [].
Proof.
  destruct (correction_of_absent_row_counts_as_applied "auto" "sistema_automatico"
              limite_auto_aplicacao_padrao (mkResultadoCorrecoes 1 0 0 0 [])
              div_trade_exemplo (conexao_exemplo (bd_exemplo [] []) [])
              (sem_falhas_exemplo _) eq_refl)
    as (c' & E & A & _).
  - intros r [].
  - exists c'. split; [exact E | exact A].
Defined.

Lemma registrar_pendente_alvo c d :
  sem_falhas c ->
  controladoria (working (snd (_registrar_divergencia_pendente d c)))
  = controladoria (working c).
Proof.
  intros H. abre_processador. cbn.
  repeat (rewrite H by (cbn; lia); cbn). reflexivity.
Qed.

Lemma laco_sem_falhas modo usuario limite divergencias : forall resultado c,
  sem_falhas c ->
  exists resultado' c',
    laco_correcoes modo usuario limite divergencias resultado c
    = (Retorna resultado', c')
    /\ sem_falhas c'
    /\ erros resultado' = erros resultado
    /\ corrigidas_automaticamente resultado'
       = corrigidas_automaticamente resultado
         + Z.of_nat (List.length (filter (aplicar_auto modo limite) divergencias))
    /\ pendentes_aprovacao resultado'
       = pendentes_aprovacao resultado
         + Z.of_nat (List.length
                       (filter (fun d => negb (aplicar_auto modo limite d))
                          divergencias))
    /\ map det_status (detalhes resultado')
       = map det_status (detalhes resultado)
         ++ map (status_sem_falhas modo limite) divergencias
    /\ controladoria (working c')
       = alvo_apos_lote modo limite divergencias (controladoria (working c))
    /\ (divergencias = [] \/ committed c' = working c').
Proof.
  induction divergencias as [|div resto IH]; intros resultado c H.
  - exists resultado, c. cbn. rewrite app_nil_r. repeat split; auto; lia.
  - cbn [laco_correcoes]. unfold bind.
    destruct (aplicar_auto modo limite div) eqn:G.
    + rewrite (processar_elegivel _ _ _ _ _ _ G).
      destruct (correcao_sem_falhas div usuario c H)
        as (c1 & E & H1 & K1 & T1 & _).
      rewrite E.
      destruct (IH (conta_auto resultado div) c1 H1)
        as (r & c2 & E2 & H2 & A & B & P & S & T & K).
      exists r, c2. split; [exact E2|]. split; [exact H2|].
      assert (Es : status_sem_falhas modo limite div = "CORRIGIDO_AUTO")
        by (unfold status_sem_falhas; now rewrite G).
      cbn [filter map alvo_apos_lote]. rewrite G, Es. cbn [negb List.length].
      cbn in A, B, P, S. rewrite map_app, <- app_assoc in S. cbn in S.
      rewrite T1 in T.
      rewrite ?Nat2Z.inj_succ. repeat split; try assumption; try lia.
      right. destruct K as [-> | K]; [|exact K].
      cbn in E2. inversion E2; subst. exact K1.
    + rewrite (processar_nao_elegivel _ _ _ _ _ _ G).
      pose proof (registrar_pendente_alvo c div H) as T1.
      destruct (registrar_pendente_sem_falhas c div H)
        as (c1 & E & _ & _ & _ & K1 & H1).
      rewrite E in T1 |- *. cbn in T1.
      destruct (IH (conta_pendente resultado div) c1 H1)
        as (r & c2 & E2 & H2 & A & B & P & S & T & K).
      exists r, c2. split; [exact E2|]. split; [exact H2|].
      assert (Es : status_sem_falhas modo limite div = "PENDENTE_APROVACAO")
        by (unfold status_sem_falhas; now rewrite G).
      cbn [filter map alvo_apos_lote]. rewrite G, Es. cbn [negb List.length].
      cbn in A, B, P, S. rewrite map_app, <- app_assoc in S. cbn in S.
      rewrite T1 in T.
      rewrite ?Nat2Z.inj_succ. repeat split; try assumption; try lia.
      right. destruct K as [-> | K]; [|exact K].
      cbn in E2. inversion E2; subst. exact K1.
Qed.

(** X11.  A batch on which nothing fails: the summary has no errors, counts
    as corrected automatically exactly the divergences that pass the gate
    (mode, threshold, kind) and as pending exactly the others, and the
    details carry, in the order of the input, CORRIGIDO_AUTO for the former
    and PENDENTE_APROVACAO for the latter.  The target table ends as the
    input table with the corrections of the former written in that order,
    and nothing of a non-empty batch is left uncommitted. *)
Theorem batch_without_failures
    (divergencias : list Divergencia) (modo usuario : string) (limite : Q)
    (c : Connection) :
  sem_falhas c ->
  exists resultado c',
    aplicar_correcoes divergencias modo usuario limite c = (Retorna resultado, c')
    /\ erros resultado = 0
    /\ corrigidas_automaticamente resultado
       = Z.of_nat (List.length (filter (aplicar_auto modo limite) divergencias))
    /\ pendentes_aprovacao resultado
       = Z.of_nat (List.length
                     (filter (fun d => negb (aplicar_auto modo limite d))
                        divergencias))
    /\ map det_status (detalhes resultado)
       = map (status_sem_falhas modo limite) divergencias
    /\ controladoria (working c')
       = alvo_apos_lote modo limite divergencias (controladoria (working c))
    /\ (divergencias = [] \/ committed c' = working c').
Proof.
  intros H. unfold aplicar_correcoes.
  destruct (laco_sem_falhas modo usuario limite divergencias
              (mkResultadoCorrecoes (Z.of_nat (List.length divergencias)) 0 0 0 [])
              c H) as (r & c' & E & _ & A & B & P & S & T & K).
  exists r, c'. cbn in *. repeat split; auto.
Qed.

Lemma batch_without_failures_witness :
  exists resultado c',
    aplicar_correcoes [div_trade_exemplo; div_pendente_exemplo] "auto"
      "sistema_automatico" limite_auto_aplicacao_padrao
      (conexao_exemplo (bd_exemplo alvo_exemplo []) [])
    = (Retorna resultado, c')
    /\ erros resultado = 0
    /\ map det_status (detalhes resultado) = ["CORRIGIDO_AUTO"; "PENDENTE_APROVACAO"]
    /\ controladoria (working c')
       = [mkControladoria "NF-1"
            [("bonus_dpto", Some (VFloat (DivergenceProcessor.float (50 # 1))));
                                  ("trade_mkt_dpto", Some (VNum 0))]].
Proof.
  destruct (batch_without_failures [div_trade_exemplo; div_pendente_exemplo]
              "auto" "sistema_automatico" limite_auto_aplicacao_padrao
              (conexao_exemplo (bd_exemplo alvo_exemplo []) [])
              (sem_falhas_exemplo _)) as (r & c' & E & Z0 & _ & _ & S & T & _).
  exists r, c'. split; [exact E|]. split; [exact Z0|].
  split; [rewrite S; reflexivity | rewrite T; reflexivity].
Defined.

End Sucesso.

(* ================================================================== *)
(** * The two routes of the loop, divergence by divergence *)
(* ================================================================== *)

Section Rotas.

Import DivergenceProcessor.

Ltac abre_agenda :=
  repeat match goal with
         | |- context [match agenda ?x ?n with _ => _ end] =>
             destruct (agenda x n); cbn
         | |- context [if de_psycopg2 ?e then _ else _] =>
             destruct (de_psycopg2 e); cbn
         end.

Ltac acha_linha :=
  repeat first
    [ assumption
    | apply in_or_app; left
    | apply in_map_iff; eexists; split; [apply finaliza_linha_outro; lia|] ].

(** A registration that returns has written its two rows and committed
    them, whatever the state of the connection was. *)
Lemma registrar_pendente_retorna d c id c' :
  _registrar_divergencia_pendente d c = (Retorna id, c') ->
  registro_persistente (operacao_detect d (seq_operacoes c))
    (linha_detectada d (seq_operacoes c) (seq_divergencias c)) c'
  /\ committed c' = working c'.
Proof.
  abre_processador. cbn. abre_agenda.
  all: intros E; try discriminate E.
  inversion E; subst. unfold registro_persistente. cbn.
  assert (O : In (operacao_detect d (seq_operacoes c))
                (map (AuditLogger.finaliza_linha (seq_operacoes c) "SUCCESS" 0 None
                        None None)
                   (operacoes (working c)
                    ++ [mkOperacao (seq_operacoes c) "DETECT"
                          ("Divergencia detectada: " ++ tipo d)%string "sistema"
                          "AUTOMATION" None None None None "PENDING" false None None
                          None None]))).
  { apply in_map_iff. eexists. split; [|apply in_or_app; right; left; reflexivity].
    unfold AuditLogger.finaliza_linha. cbn. rewrite Z.eqb_refl. reflexivity. }
  assert (L : In (linha_detectada d (seq_operacoes c) (seq_divergencias c))
                (divergencias_processadas (working c)
                 ++ [linha_detectada d (seq_operacoes c) (seq_divergencias c)]))
    by (apply in_or_app; right; left; reflexivity).
  repeat split; try assumption. lia.
Qed.

Lemma registrar_pendente_mantem o l d :
  mantem (registro_persistente o l) (_registrar_divergencia_pendente d).
Proof.
  intros c (O1 & O2 & L1 & L2 & S). abre_processador. cbn. abre_agenda.
  all: unfold registro_persistente; cbn.
  all: refine (conj _ (conj _ (conj _ (conj _ _)))); try lia; acha_linha.
Qed.

Lemma laco_manual_mantem o l usuario limite divergencias : forall resultado,
  mantem (registro_persistente o l)
    (laco_correcoes "manual" usuario limite divergencias resultado).
Proof.
  induction divergencias as [|div resto IH]; intros resultado; cbn.
  - apply mantem_ret.
  - apply mantem_bind; [|intros; apply IH].
    intros c H. rewrite processar_manual.
    pose proof (registrar_pendente_mantem o l div c H) as P.
    destruct (_registrar_divergencia_pendente div c) as [[id|e] c1]; exact P.
Qed.

Lemma laco_correcoes_app modo usuario limite antes depois : forall resultado c,
  laco_correcoes modo usuario limite (antes ++ depois) resultado c
  = match laco_correcoes modo usuario limite antes resultado c with
    | (Retorna r, c1) => laco_correcoes modo usuario limite depois r c1
    | (Levanta e, c1) => (Levanta e, c1)
    end.
Proof.
  induction antes as [|div resto IH]; intros resultado c; [reflexivity|].
  cbn [app laco_correcoes]. unfold bind.
  destruct (processar_divergencia modo usuario limite resultado div c)
    as [[r1|e] c1]; [apply IH | reflexivity].
Qed.

Lemma laco_correcoes_detalhes modo usuario limite divergencias :
  forall resultado c resultado' c',
    laco_correcoes modo usuario limite divergencias resultado c
    = (Retorna resultado', c') ->
    exists novos,
      detalhes resultado' = detalhes resultado ++ novos
      /\ List.length novos = List.length divergencias.
Proof.
  induction divergencias as [|div resto IH]; intros resultado c r' c'.
  - cbn. intros E. inversion E; subst. exists []. now rewrite app_nil_r.
  - cbn [laco_correcoes]. unfold bind.
    destruct (processar_divergencia_passo modo usuario limite resultado div c)
      as (r1 & c1 & E1 & P1).
    rewrite E1. intros E. destruct (IH _ _ _ _ E) as (novos & D & Ln).
    destruct P1; cbn in D; rewrite <- app_assoc in D;
      eexists; (split; [exact D | cbn; now rewrite Ln]).
Qed.

Lemma nth_error_meio {A} (l1 l2 : list A) x :
  nth_error (l1 ++ x :: l2) (List.length l1) = Some x.
Proof. induction l1; cbn; auto. Qed.

(** The divergence that follows [antes] in a manual batch: what its
    registration does decides its entry, and a registration that returned
    is still on the ledger when the batch ends. *)
Lemma laco_manual_por_divergencia usuario limite antes div depois resultado c r' c' :
  laco_correcoes "manual" usuario limite (antes ++ div :: depois) resultado c
  = (Retorna r', c') ->
  (forall id c1,
      _registrar_divergencia_pendente div
        (snd (laco_correcoes "manual" usuario limite antes resultado c))
      = (Retorna id, c1) ->
      nth_error (detalhes r') (List.length (detalhes resultado) + List.length antes)
      = Some (detalhe_pendente div)
      /\ registrada_como_pendente div (committed c'))
  /\ (forall e c1,
      _registrar_divergencia_pendente div
        (snd (laco_correcoes "manual" usuario limite antes resultado c))
      = (Levanta e, c1) ->
      nth_error (detalhes r') (List.length (detalhes resultado) + List.length antes)
      = Some (detalhe_erro div (texto e))).
Proof.
  rewrite laco_correcoes_app.
  destruct (laco_correcoes "manual" usuario limite antes resultado c)
    as [[ri|e0] ci] eqn:Ea; [|discriminate].
  destruct (laco_correcoes_detalhes _ _ _ _ _ _ _ _ Ea) as (n1 & D1 & L1).
  cbn [laco_correcoes snd]. unfold bind. rewrite processar_manual.
  assert (Ix : (List.length (detalhes resultado) + List.length antes)%nat
               = List.length (detalhes ri))
    by (rewrite D1, length_app, L1; reflexivity).
  rewrite Ix.
  destruct (_registrar_divergencia_pendente div ci) as [[id|e] c1] eqn:Er;
    intros E; split; intros x cx Ex; inversion Ex; subst.
  - destruct (laco_correcoes_detalhes _ _ _ _ _ _ _ _ E) as (n2 & D2 & _).
    cbn in D2. rewrite <- app_assoc in D2. cbn in D2. rewrite D2.
    split; [apply nth_error_meio|].
    destruct (registrar_pendente_retorna _ _ _ _ Er) as [P _].
    pose proof (laco_manual_mantem _ _ usuario limite depois
                  (conta_pendente ri div) cx P) as Q.
    rewrite E in Q. destruct Q as (_ & O & _ & L & _).
    exists (seq_operacoes ci), (seq_divergencias ci). split; assumption.
  - destruct (laco_correcoes_detalhes _ _ _ _ _ _ _ _ E) as (n2 & D2 & _).
    cbn in D2. rewrite <- app_assoc in D2. cbn in D2. rewrite D2.
    apply nth_error_meio.
Qed.

(** C9, amended.  For every list of divergences, aplicar_correcoes in manual
    mode returns without applying anything automatically, sends no statement
    against the target table and leaves that table unchanged, whatever fails.
    Divergence by divergence: when the registration of a divergence returns
    (its ledger writes and its commit went through), its entry in the details
    is PENDENTE_APROVACAO and, when the batch ends, the ledger holds it as a
    DETECTED record under a DETECT operation finalized SUCCESS, committed;
    when its registration raises, its entry is ERRO with the text of the
    error.  When no call fails, every divergence is counted as pending and is
    on the ledger in that way. *)
Theorem manual_mode_registers_without_writing_target
    (divergencias : list Divergencia) (usuario : string) (limite : Q)
    (c : Connection) :
  exists resultado c',
    aplicar_correcoes divergencias "manual" usuario limite c = (Retorna resultado, c')
    /\ corrigidas_automaticamente resultado = 0
    /\ pendentes_aprovacao resultado + erros resultado
       = Z.of_nat (List.length divergencias)
    /\ filter toca_alvo (historico c') = filter toca_alvo (historico c)
    /\ (forall alvo, alvo_intacto alvo c -> alvo_intacto alvo c')
    /\ (forall antes div depois,
          divergencias = antes ++ div :: depois ->
          (forall id c1,
              _registrar_divergencia_pendente div
                (conexao_apos "manual" usuario limite antes
                   (List.length divergencias) c)
              = (Retorna id, c1) ->
              nth_error (detalhes resultado) (List.length antes)
              = Some (detalhe_pendente div)
              /\ registrada_como_pendente div (committed c'))
          /\ (forall e c1,
              _registrar_divergencia_pendente div
                (conexao_apos "manual" usuario limite antes
                   (List.length divergencias) c)
              = (Levanta e, c1) ->
              nth_error (detalhes resultado) (List.length antes)
              = Some (detalhe_erro div (texto e))))
    /\ (sem_falhas c ->
        pendentes_aprovacao resultado = Z.of_nat (List.length divergencias)
        /\ erros resultado = 0
        /\ forall d, In d divergencias -> registrada_como_pendente d (committed c')).
Proof.
  unfold aplicar_correcoes, conexao_apos.
  set (r0 := mkResultadoCorrecoes (Z.of_nat (List.length divergencias)) 0 0 0 []).
  destruct (laco_manual_sem_auto usuario limite divergencias r0 c) as (r & c' & E & A).
  exists r, c'. split; [exact E|].
  destruct (laco_correcoes_avanca "manual" usuario limite divergencias r0 c)
    as (r' & c'' & E' & [_ S _ _ _ _]).
  rewrite E in E'. inversion E'; subst r' c''. clear E'.
  pose proof (preserva_laco_manual usuario limite divergencias r0 c) as [P1 P2].
  rewrite E in P1, P2. cbn in P1, P2, A, S.
  assert (PD : forall antes div depois,
             divergencias = antes ++ div :: depois ->
             (forall id c1,
                 _registrar_divergencia_pendente div
                   (snd (laco_correcoes "manual" usuario limite antes r0 c))
                 = (Retorna id, c1) ->
                 nth_error (detalhes r) (List.length antes)
                 = Some (detalhe_pendente div)
                 /\ registrada_como_pendente div (committed c'))
             /\ (forall e c1,
                 _registrar_divergencia_pendente div
                   (snd (laco_correcoes "manual" usuario limite antes r0 c))
                 = (Levanta e, c1) ->
                 nth_error (detalhes r) (List.length antes)
                 = Some (detalhe_erro div (texto e)))).
  { intros antes div depois Eq. rewrite Eq in E.
    exact (laco_manual_por_divergencia usuario limite antes div depois r0 c r c' E). }
  split; [rewrite A; reflexivity|]. split; [lia|]. split; [exact P1|].
  split; [exact P2|]. split; [exact PD|].
  intros H.
  destruct (laco_sem_falhas "manual" usuario limite divergencias r0 c H)
    as (rx & cx & Ex & _ & Er & _ & Pe & _).
  rewrite E in Ex. inversion Ex; subst rx cx. clear Ex.
  rewrite (filter_tudo _ divergencias) in Pe by reflexivity.
  cbn in Er, Pe. split; [exact Pe|]. split; [exact Er|].
  intros d Hd. apply in_split in Hd. destruct Hd as (antes & depois & Eq).
  destruct (PD antes d depois Eq) as [Ok _].
  destruct (laco_sem_falhas "manual" usuario limite antes r0 c H)
    as (ri & ci & Ei & Hi & _).
  rewrite Ei in Ok. cbn in Ok.
  destruct (registrar_pendente_sem_falhas ci d Hi) as (c1 & E1 & _).
  exact (proj2 (Ok _ _ E1)).
Qed.

Lemma manual_mode_witness :
  alvo_intacto alvo_exemplo
    (conexao_exemplo (bd_exemplo alvo_exemplo [])
       [None; None; None; None; None; None; None; Some "deadlock detected"])
  /\ exists resultado c',
       aplicar_correcoes [div_trade_exemplo; div_pendente_exemplo]
         "manual" "sistema" limite_auto_aplicacao_padrao
         (conexao_exemplo (bd_exemplo alvo_exemplo [])
            [None; None; None; None; None; None; None; Some "deadlock detected"])
       = (Retorna resultado, c')
       /\ alvo_intacto alvo_exemplo c'
       /\ map det_status (detalhes resultado) = ["PENDENTE_APROVACAO"; "ERRO"]
       /\ registrada_como_pendente div_trade_exemplo (committed c').
Proof.
  split; [split; reflexivity|].
  destruct (manual_mode_registers_without_writing_target
              [div_trade_exemplo; div_pendente_exemplo] "sistema"
              limite_auto_aplicacao_padrao
              (conexao_exemplo (bd_exemplo alvo_exemplo [])
                 [None; None; None; None; None; None; None;
                  Some "deadlock detected"]))
    as (r & c' & E & _ & _ & _ & Al & PD & _).
  exists r, c'. split; [exact E|].
  split; [apply (Al alvo_exemplo); split; reflexivity|].
  split; [vm_compute in E; inversion E; reflexivity|].
  destruct (PD [] div_trade_exemplo [div_pendente_exemplo] eq_refl) as [Ok _].
  eapply Ok. vm_compute. reflexivity.
Defined.

(** C4, amended.  A divergence is eligible for automatic application exactly
    when the mode is 'auto', its confidence reaches the threshold and its kind
    is TRADE_MARKETING_BONUS or TRADE_MARKETING_TRADE, and the loop routes it
    by that test.  An eligible divergence goes to the automatic correction
    and to nothing else: it is counted as corrected when the correction
    returns [True] and as an error otherwise, never as pending; when no call
    fails the target table carries its correction and its record is
    AUTO_APPLIED.  A divergence that is not eligible goes to the pending
    registration and never to the correction: no statement is sent against
    the target table, which stays as it was; when its registration returns
    (its ledger writes and its commit went through) it is counted as pending
    and is on the ledger as a DETECTED record under a DETECT operation
    finalized SUCCESS, committed; when its registration raises it is counted
    as an error with the text of the error.  Either way it gets one entry in
    the details. *)
Theorem auto_apply_gate_and_pending_route
    (modo usuario : string) (limite : Q) (resultado : ResultadoCorrecoes)
    (div : Divergencia) (c : Connection) :
  (aplicar_auto modo limite div = true
   <-> modo = "auto"
       /\ (limite <= confianca div)%Q
       /\ (tipo div = "TRADE_MARKETING_BONUS" \/ tipo div = "TRADE_MARKETING_TRADE"))
  /\ (aplicar_auto modo limite div = true ->
      (forall sucesso c',
          _aplicar_correcao_automatica div usuario c = (Retorna sucesso, c') ->
          processar_divergencia modo usuario limite resultado div c
          = (Retorna (if sucesso then conta_auto resultado div
                      else conta_erro resultado div "Falha na aplicacao automatica"),
             c'))
      /\ (forall e c',
            _aplicar_correcao_automatica div usuario c = (Levanta e, c') ->
            processar_divergencia modo usuario limite resultado div c
            = (Retorna (conta_erro resultado div (texto e)), c'))
      /\ (sem_falhas c ->
          exists c',
            processar_divergencia modo usuario limite resultado div c
            = (Retorna (conta_auto resultado div), c')
            /\ controladoria (committed c')
               = alvo_corrigido div (controladoria (working c))
            /\ In (linha_aplicada div usuario (seq_operacoes c) (seq_divergencias c))
                  (divergencias_processadas (committed c'))))
  /\ (aplicar_auto modo limite div = false ->
      filter toca_alvo
        (historico (snd (processar_divergencia modo usuario limite resultado div c)))
      = filter toca_alvo (historico c)
      /\ (forall alvo, alvo_intacto alvo c ->
            alvo_intacto alvo
              (snd (processar_divergencia modo usuario limite resultado div c)))
      /\ (forall id c',
            _registrar_divergencia_pendente div c = (Retorna id, c') ->
            processar_divergencia modo usuario limite resultado div c
            = (Retorna (conta_pendente resultado div), c')
            /\ registrada_como_pendente div (committed c'))
      /\ (forall e c',
            _registrar_divergencia_pendente div c = (Levanta e, c') ->
            processar_divergencia modo usuario limite resultado div c
            = (Retorna (conta_erro resultado div (texto e)), c'))).
Proof.
  split; [apply aplicar_auto_iff | split].
  - intros G. rewrite (processar_elegivel _ _ _ _ _ _ G).
    split; [|split].
    + intros sucesso c' E. rewrite E. now destruct sucesso.
    + intros e c' E. rewrite E. reflexivity.
    + intros H.
      destruct (correcao_sem_falhas div usuario c H)
        as (c' & E & _ & K & T & _ & D & _).
      exists c'. rewrite E, K. auto.
  - intros G. rewrite (processar_nao_elegivel _ _ _ _ _ _ G).
    pose proof (preserva_registrar_pendente div c) as [P1 P2].
    destruct (_registrar_divergencia_pendente div c) as [[id|e] c1] eqn:Er;
      cbn in P1, P2.
    + split; [exact P1|]. split; [exact P2|]. split.
      * intros id' c' E. inversion E; subst. split; [reflexivity|].
        destruct (registrar_pendente_retorna _ _ _ _ Er) as [(_ & O & _ & L & _) _].
        exists (seq_operacoes c), (seq_divergencias c). split; assumption.
      * intros e c' E. discriminate E.
    + split; [exact P1|]. split; [exact P2|]. split.
      * intros id c' E. discriminate E.
      * intros e' c' E. inversion E; subst. reflexivity.
Qed.

Lemma auto_apply_gate_witness :
  aplicar_auto "auto" limite_auto_aplicacao_padrao div_trade_exemplo = true
  /\ aplicar_auto "auto" limite_auto_aplicacao_padrao div_pendente_exemplo = false
  /\ sem_falhas (conexao_exemplo (bd_exemplo alvo_exemplo []) [])
  /\ (exists c',
        processar_divergencia "auto" "sistema_automatico"
          limite_auto_aplicacao_padrao (mkResultadoCorrecoes 2 0 0 0 [])
          div_trade_exemplo (conexao_exemplo (bd_exemplo alvo_exemplo []) [])
        = (Retorna (conta_auto (mkResultadoCorrecoes 2 0 0 0 []) div_trade_exemplo), c')
        /\ controladoria (committed c')
           = alvo_corrigido div_trade_exemplo alvo_exemplo)
  /\ (exists c',
        processar_divergencia "auto" "sistema_automatico"
          limite_auto_aplicacao_padrao (mkResultadoCorrecoes 2 0 0 0 [])
          div_pendente_exemplo (conexao_exemplo (bd_exemplo alvo_exemplo []) [])
        = (Retorna (conta_pendente (mkResultadoCorrecoes 2 0 0 0 [])
                      div_pendente_exemplo), c')
        /\ registrada_como_pendente div_pendente_exemplo (committed c')).
Proof.
  split; [reflexivity|]. split; [reflexivity|].
  split; [apply sem_falhas_exemplo|]. split.
  - destruct (auto_apply_gate_and_pending_route "auto" "sistema_automatico"
                limite_auto_aplicacao_padrao (mkResultadoCorrecoes 2 0 0 0 [])
                div_trade_exemplo (conexao_exemplo (bd_exemplo alvo_exemplo []) []))
      as (_ & El & _).
    destruct (El eq_refl) as (_ & _ & Ok).
    destruct (Ok (sem_falhas_exemplo _)) as (c' & E & T & _).
    exists c'. split; [exact E | exact T].
  - destruct (auto_apply_gate_and_pending_route "auto" "sistema_automatico"
                limite_auto_aplicacao_padrao (mkResultadoCorrecoes 2 0 0 0 [])
                div_pendente_exemplo
                (conexao_exemplo (bd_exemplo alvo_exemplo []) []))
      as (_ & _ & Ne).
    destruct (Ne eq_refl) as (_ & _ & Ok & _).
    destruct (_registrar_divergencia_pendente div_pendente_exemplo
                (conexao_exemplo (bd_exemplo alvo_exemplo []) []))
      as [[id|e] c'] eqn:Er; [|vm_compute in Er; discriminate Er].
    exists c'. exact (Ok id c' eq_refl).
Defined.

End Rotas.

(* ================================================================== *)
(** * The daily run, end to end *)
(* ================================================================== *)

Section Diario.

Import DivergenceProcessor.

(** What the four stages did when they return. *)
Lemma etapas_forma self amb c et c1 :
  DailyProcessor.etapas_1_a_4 self amb c = (Retorna et, c1) ->
  exists c0 ds c0',
    AuditLogger.iniciar_sessao_processamento
      (if String.eqb (DailyProcessor.modo self) "auto"
       then "DAILY_AUTO" else "MANUAL_RUN")
      (Some [("data_inicio", DData (DailyProcessor.data_inicio self));
             ("data_fim", DData (DailyProcessor.data_fim self));
             ("modo", DTexto (DailyProcessor.modo self))])
      "PRODUCTION" c
    = (Retorna (DailyProcessor.et_sessao_id et), c0)
    /\ detectar_divergencias (Some (DailyProcessor.data_inicio self))
         (Some (DailyProcessor.data_fim self)) None limite_confianca_padrao c0
       = (Retorna ds, c0')
    /\ aplicar_correcoes ds (DailyProcessor.modo self) "sistema_automatico"
         limite_auto_aplicacao_padrao c0'
       = (Retorna (DailyProcessor.et_resultado_correcoes et), c1)
    /\ DailyProcessor.et_total_divergencias et = Z.of_nat (List.length ds)
    /\ DailyProcessor.et_relatorio_path et
       = fst (DailyProcessor.etapa_relatorio amb ds [])
    /\ DailyProcessor.et_erros et
       = DailyProcessor.etapa_notificacao amb (Z.of_nat (List.length ds))
           (snd (DailyProcessor.etapa_relatorio amb ds [])).
Proof.
  unfold DailyProcessor.etapas_1_a_4. unfold bind at 1.
  destruct (AuditLogger.iniciar_sessao_processamento _ _ _ c) as [[id|e] c0];
    [|discriminate].
  unfold bind at 1.
  destruct (detectar_divergencias _ _ _ _ c0) as [[ds|e] c0'] eqn:Ed;
    [|discriminate].
  unfold bind at 1.
  destruct (aplicar_correcoes ds _ _ _ c0') as [[rc|e] c0''] eqn:Ea;
    [|discriminate].
  destruct (DailyProcessor.etapa_relatorio amb ds []) as [caminho erros1] eqn:Er.
  unfold ret. intros E. inversion E; subst. cbn.
  exists c0, ds, c0'. rewrite Er. repeat split; assumption.
Qed.

(** A run that does not end FAILED went through every step. *)
Lemma executar_concluido self amb c resultado c' :
  DailyProcessor.executar self amb c = (resultado, c') ->
  DailyProcessor.re_status resultado <> "FAILED" ->
  exists et c1 c2,
    DailyProcessor.amb_get_connection amb = None
    /\ DailyProcessor.etapas_1_a_4 self amb c = (Retorna et, c1)
    /\ DailyProcessor.finalizar et c1 = (Retorna tt, c2)
    /\ commit c2 = (Retorna tt, c')
    /\ resultado = DailyProcessor.resultado_final self et.
Proof.
  unfold DailyProcessor.executar.
  destruct (DailyProcessor.amb_get_connection amb) as [e|].
  { intros E N. inversion E; subst. now contradiction N. }
  destruct (DailyProcessor.etapas_1_a_4 self amb c) as [[et|e] c1] eqn:E1.
  2:{ intros E N. inversion E; subst. now contradiction N. }
  destruct (DailyProcessor.finalizar et c1) as [[[]|e] c2] eqn:E2.
  2:{ intros E N. inversion E; subst. now contradiction N. }
  destruct (commit c2) as [[[]|e] c3] eqn:E3.
  2:{ intros E N. cbn in E. inversion E; subst. now contradiction N. }
  intros E _. inversion E; subst. exists et, c1, c2. repeat split; assumption.
Qed.

(** A result that carries a correction summary comes from stages that
    returned. *)
Lemma executar_correcoes self amb c resultado c' rc :
  DailyProcessor.executar self amb c = (resultado, c') ->
  DailyProcessor.re_resultado_correcoes resultado = Some rc ->
  exists et c1,
    DailyProcessor.etapas_1_a_4 self amb c = (Retorna et, c1)
    /\ DailyProcessor.et_resultado_correcoes et = rc
    /\ DailyProcessor.re_metricas resultado
       = DailyProcessor.metricas_da_execucao
           (DailyProcessor.et_total_divergencias et) rc.
Proof.
  unfold DailyProcessor.executar.
  destruct (DailyProcessor.amb_get_connection amb) as [e|].
  { intros E. inversion E; subst. discriminate. }
  destruct (DailyProcessor.etapas_1_a_4 self amb c) as [[et|e] c1] eqn:E1.
  2:{ intros E. inversion E; subst. discriminate. }
  destruct (DailyProcessor.finalizar et c1) as [[[]|e] c2].
  2:{ intros E. inversion E; subst. discriminate. }
  destruct (commit c2) as [[[]|e] c3]; cbn; intros E R; inversion E; subst;
    cbn in R; inversion R; subst; exists et, c1; repeat split.
Qed.

(** With the default thresholds, what detection returns is the
    trade-marketing scan, and all of it passes the gate of automatic mode. *)
Lemma detectadas_padrao di df visao :
  filter (fun d => Qle_bool limite_confianca_padrao (confianca d))
    (varredura_trade di df visao ++ varredura_pendentes visao
     ++ varredura_valores di df visao)
  = varredura_trade di df visao.
Proof.
  rewrite !filter_app.
  rewrite (filter_tudo _ (varredura_trade di df visao)).
  2:{ intros d Hd. destruct (varredura_trade_forma _ _ _ _ Hd) as [-> _].
      reflexivity. }
  rewrite (filter_nada _ (varredura_pendentes visao)).
  2:{ intros d Hd. destruct (varredura_pendentes_forma _ _ Hd) as (-> & _).
      reflexivity. }
  rewrite (filter_nada _ (varredura_valores di df visao)).
  2:{ intros d Hd. destruct (varredura_valores_forma _ _ _ _ Hd) as [-> _].
      reflexivity. }
  now rewrite !app_nil_r.
Qed.

Lemma varredura_trade_elegivel di df visao d :
  In d (varredura_trade di df visao) ->
  aplicar_auto "auto" limite_auto_aplicacao_padrao d = true.
Proof.
  intros Hd. destruct (varredura_trade_forma _ _ _ _ Hd) as [Cf Tp].
  apply aplicar_auto_iff. split; [reflexivity|]. split; [|exact Tp].
  rewrite Cf. unfold limite_auto_aplicacao_padrao. apply Qle_refl.
Qed.

(** A batch of divergences that all pass the gate registers nothing as
    pending, whatever fails. *)
Lemma laco_so_elegiveis modo usuario limite divergencias :
  (forall d, In d divergencias -> aplicar_auto modo limite d = true) ->
  forall resultado c resultado' c',
    laco_correcoes modo usuario limite divergencias resultado c
    = (Retorna resultado', c') ->
    pendentes_aprovacao resultado' = pendentes_aprovacao resultado.
Proof.
  induction divergencias as [|div resto IH]; intros G resultado c r' c'.
  - cbn. intros E. inversion E. reflexivity.
  - cbn [laco_correcoes]. unfold bind.
    rewrite (processar_elegivel _ _ _ _ _ _ (G div (or_introl eq_refl))).
    assert (G' : forall d, In d resto -> aplicar_auto modo limite d = true)
      by (intros d Hd; apply G; now right).
    destruct (_aplicar_correcao_automatica div usuario c) as [[[|]|e] c1];
      intros E; apply (IH G') in E; rewrite E; reflexivity.
Qed.

Lemma db_connection_retorna {A} (corpo : M A) c a c' :
  db_connection corpo c = (Retorna a, c') ->
  exists c1, corpo c = (Retorna a, c1) /\ commit c1 = (Retorna tt, c').
Proof.
  unfold db_connection, try_except_psycopg2, try_except, bind, ret, raise, rollback.
  destruct (corpo c) as [[x|e] c1]; [|discriminate].
  destruct (commit c1) as [[[]|e] c2] eqn:Ec; [|discriminate].
  intros E. inversion E; subst. exists c1. split; [reflexivity | exact Ec].
Qed.

(** X12.  With the thresholds the callers use (0.8 to detect, 0.95 to apply),
    automatic mode never leaves anything for approval: every divergence that
    detection returns is a trade-marketing one with confidence 0.95, so each
    is either applied or counted as an error.  This holds for the daily run
    and for the processing end point, whatever fails. *)
Theorem auto_mode_leaves_nothing_pending :
  (forall self amb c resultado c' correcoes,
      DailyProcessor.modo self = "auto" ->
      DailyProcessor.executar self amb c = (resultado, c') ->
      DailyProcessor.re_resultado_correcoes resultado = Some correcoes ->
      pendentes_aprovacao correcoes = 0
      /\ corrigidas_automaticamente correcoes + erros correcoes
         = total_divergencias correcoes
      /\ In ("correcoes_pendentes", 0) (DailyProcessor.re_metricas resultado))
  /\ (forall data_inicio data_fim tipo_divergencia usuario c correcoes c',
      Divergences.processar_divergencias data_inicio data_fim tipo_divergencia
        "auto" usuario c = (Retorna correcoes, c') ->
      pendentes_aprovacao correcoes = 0
      /\ corrigidas_automaticamente correcoes + erros correcoes
         = total_divergencias correcoes).
Proof.
  assert (K : forall di df t ds usuario c c0 rc c1,
             detectar_divergencias di df t limite_confianca_padrao c
             = (Retorna ds, c0) ->
             aplicar_correcoes ds "auto" usuario limite_auto_aplicacao_padrao c0
             = (Retorna rc, c1) ->
             pendentes_aprovacao rc = 0
             /\ corrigidas_automaticamente rc + erros rc = total_divergencias rc).
  { intros di df t ds usuario c c0 rc c1 Ed Ea.
    apply detectar_divergencias_retorna in Ed. rewrite detectadas_padrao in Ed.
    unfold aplicar_correcoes in Ea.
    assert (P : pendentes_aprovacao rc = 0).
    { apply (laco_so_elegiveis "auto" usuario limite_auto_aplicacao_padrao ds) in Ea;
        [exact Ea|].
      intros d Hd. subst. eapply varredura_trade_elegivel. exact Hd. }
    split; [exact P|].
    destruct (laco_correcoes_avanca "auto" usuario limite_auto_aplicacao_padrao ds
                (mkResultadoCorrecoes (Z.of_nat (List.length ds)) 0 0 0 []) c0)
      as (r & c2 & E2 & [T S _ _ _ _]).
    rewrite Ea in E2. inversion E2; subst r c2. cbn in T, S. lia. }
  split.
  - intros self amb c resultado c' rc Hm E R.
    destruct (executar_correcoes _ _ _ _ _ _ E R) as (et & c1 & E1 & <- & Mt).
    destruct (etapas_forma _ _ _ _ _ E1) as (c0 & ds & c0' & _ & Ed & Ea & _).
    rewrite Hm in Ea. destruct (K _ _ _ _ _ _ _ _ _ Ed Ea) as [P S].
    split; [exact P|]. split; [exact S|].
    rewrite Mt. unfold DailyProcessor.metricas_da_execucao. rewrite P.
    cbn. auto 6.
  - intros di df t usuario c rc c' E.
    apply db_connection_retorna in E. destruct E as (c1 & E & _).
    unfold bind in E.
    destruct (detectar_divergencias di df t limite_confianca_padrao c)
      as [[ds|e] c0] eqn:Ed; [|discriminate].
    exact (K _ _ _ _ _ _ _ _ _ Ed E).
Qed.

Lemma auto_mode_witness :
  exists resultado c' correcoes,
    DailyProcessor.executar execucao_auto_exemplo ambiente_exemplo
      (conexao_exemplo (bd_exemplo alvo_exemplo visao_exemplo) [])
    = (resultado, c')
    /\ DailyProcessor.re_resultado_correcoes resultado = Some correcoes
    /\ pendentes_aprovacao correcoes = 0.
Proof.
  destruct (DailyProcessor.executar execucao_auto_exemplo ambiente_exemplo
              (conexao_exemplo (bd_exemplo alvo_exemplo visao_exemplo) []))
    as [resultado c'] eqn:E.
  destruct (DailyProcessor.re_resultado_correcoes resultado) as [rc|] eqn:R.
  - exists resultado, c', rc. split; [reflexivity|]. split; [exact R|].
    destruct auto_mode_leaves_nothing_pending as [H _].
    destruct (H execucao_auto_exemplo ambiente_exemplo _ _ _ rc eq_refl E R)
      as [P _].
    exact P.
  - vm_compute in E. inversion E; subst. discriminate R.
Defined.

(** X13.  A run whose session was opened and whose detection then fails (one
    of its three queries raises) ends FAILED with that error as its only
    error, and its result carries neither the session's id nor metrics.  The
    session is never finalized: its row stays RUNNING on the ledger, and
    nothing but the insert, its commit, the queries and a rollback was sent. *)
Theorem failed_detection_leaves_session_running
    (self : DailyProcessor.DailyProcessor) (amb : DailyProcessor.Ambiente)
    (c : Connection) (k : nat) (e : Excecao) :
  DailyProcessor.amb_get_connection amb = None ->
  primeira_falha c k e -> (2 <= k <= 4)%nat ->
  exists resultado c',
    DailyProcessor.executar self amb c = (resultado, c')
    /\ DailyProcessor.re_status resultado = "FAILED"
    /\ DailyProcessor.re_erros resultado = [texto e]
    /\ DailyProcessor.re_sessao_id resultado = None
    /\ DailyProcessor.re_metricas resultado = []
    /\ sessao_em_curso (seq_sessoes c) (sessoes_processamento (committed c'))
    /\ working c' = committed c'
    /\ historico c'
       = historico c ++ [Insert TSessoes; Commit]
         ++ repeat (Select TBonusView) (k - 1) ++ [Rollback].
Proof.
  intros Ha [Ok Ko] Le.
  destruct k as [|[|[|[|[|k]]]]]; try lia.
  all: pose proof (Ok 0%nat ltac:(lia)) as H0.
  all: pose proof (Ok 1%nat ltac:(lia)) as H1.
  all: try (pose proof (Ok 2%nat ltac:(lia)) as H2).
  all: try (pose proof (Ok 3%nat ltac:(lia)) as H3).
  all: clear Ok; unfold DailyProcessor.executar; rewrite Ha.
  all: unfold DailyProcessor.etapas_1_a_4, AuditLogger.iniciar_sessao_processamento,
         detectar_divergencias, _detectar_divergencias_trade_marketing,
         _detectar_pendentes_verificacao, _detectar_divergencias_valores,
         try_except_psycopg2, try_except, bind, ret, raise, rollback, execute, commit.
  all: cbn in *.
  all: repeat (match goal with H : agenda _ _ = _ |- _ => rewrite H end; cbn).
  all: eexists; eexists; (split; [reflexivity|]); cbn.
  all: repeat (split; [reflexivity|]).
  all: split; [|split; [reflexivity | rewrite <- ?app_assoc; reflexivity]].
  all: eexists; (split; [apply in_or_app; right; left; reflexivity|]); cbn; auto.
Qed.

Lemma failed_detection_witness :
  exists resultado c',
    DailyProcessor.executar execucao_auto_exemplo ambiente_exemplo
      (conexao_exemplo (bd_exemplo alvo_exemplo visao_exemplo)
         [None; None; None; Some "connection reset"])
    = (resultado, c')
    /\ DailyProcessor.re_status resultado = "FAILED"
    /\ sessao_em_curso 1 (sessoes_processamento (committed c')).
Proof.
  destruct (failed_detection_leaves_session_running execucao_auto_exemplo
              ambiente_exemplo
              (conexao_exemplo (bd_exemplo alvo_exemplo visao_exemplo)
                 [None; None; None; Some "connection reset"])
              3%nat (erro_bd "connection reset") eq_refl)
    as (r & c' & E & S & _ & _ & _ & R & _).
  - split; [|reflexivity].
    intros i Hi. destruct i as [|[|[|i]]]; try reflexivity; lia.
  - lia.
  - exists r, c'. split; [exact E|]. split; [exact S | exact R].
Defined.

Lemma conta_status_nao_negativo s l : 0 <= conta_status s l.
Proof. unfold conta_status. lia. Qed.

Lemma finalizar_sessao_metricas id status metricas resultado_geral log c u c' :
  AuditLogger.finalizar_sessao_processamento id status metricas resultado_geral log c
  = (Retorna u, c') ->
  tem_sessao id (sessoes_processamento (working c)) ->
  AuditLogger.metricas_get metricas "divergencias_detectadas"
  = AuditLogger.metricas_get metricas "total_registros_analisados" ->
  sessao_com_metricas id
    (AuditLogger.metricas_get metricas "total_registros_analisados")
    (AuditLogger.metricas_get metricas "correcoes_aplicadas")
    (AuditLogger.metricas_get metricas "correcoes_pendentes")
    (AuditLogger.metricas_get metricas "erros_encontrados")
    (sessoes_processamento (working c')).
Proof.
  unfold AuditLogger.finalizar_sessao_processamento, try_except_psycopg2, try_except, bind, ret, raise,
    rollback, execute, commit. cbn.
  destruct (agenda c (relogio c)) as [e0|]; cbn;
    [destruct (de_psycopg2 e0); discriminate|].
  destruct (agenda c (S (relogio c))) as [e1|]; cbn;
    [destruct (de_psycopg2 e1); discriminate|].
  intros E (s & Hs & Es) Eq. inversion E; subst. cbn.
  exists (AuditLogger.finaliza_sessao_linha (ss_id s) status metricas
            resultado_geral log s).
  split; [now apply in_map|].
  unfold AuditLogger.finaliza_sessao_linha. rewrite Z.eqb_refl. cbn.
  rewrite Eq. auto 10.
Qed.

(** X14.  In a run that does not end FAILED the metrics account for every
    detected divergence: the number detected is the number applied plus the
    number left pending plus the number of errors, none of them negative;
    [total_registros_analisados] is that same number of divergences (not a
    number of rows read).  The same counts are on the session row when the
    run returns. *)
Theorem run_metrics_account_for_every_divergence
    (self : DailyProcessor.DailyProcessor) (amb : DailyProcessor.Ambiente)
    (c : Connection) (resultado : DailyProcessor.ResultadoExecucao)
    (c' : Connection) :
  DailyProcessor.executar self amb c = (resultado, c') ->
  DailyProcessor.re_status resultado <> "FAILED" ->
  exists n aplicadas pendentes falhas id,
    DailyProcessor.re_metricas resultado
    = [("total_registros_analisados", n); ("divergencias_detectadas", n);
       ("correcoes_aplicadas", aplicadas); ("correcoes_pendentes", pendentes);
       ("erros_encontrados", falhas)]
    /\ n = aplicadas + pendentes + falhas
    /\ 0 <= aplicadas /\ 0 <= pendentes /\ 0 <= falhas
    /\ DailyProcessor.re_sessao_id resultado = Some id
    /\ sessao_com_metricas id n aplicadas pendentes falhas
         (sessoes_processamento (committed c')).
Proof.
  intros E N.
  destruct (executar_concluido _ _ _ _ _ E N) as (et & c1 & c2 & _ & E1 & E2 & E3 & ->).
  destruct (etapas_sessao _ _ _ _ _ E1) as [[W _] _].
  destruct (etapas_forma _ _ _ _ _ E1) as (c0 & ds & c0' & _ & _ & Ea & Tt & _).
  unfold aplicar_correcoes in Ea.
  destruct (laco_correcoes_avanca (DailyProcessor.modo self) "sistema_automatico"
              limite_auto_aplicacao_padrao ds
              (mkResultadoCorrecoes (Z.of_nat (List.length ds)) 0 0 0 []) c0')
    as (r & cx & Ex & [_ S _ Au Pe Er]).
  rewrite Ea in Ex. inversion Ex; subst r cx. clear Ex.
  cbn in S, Au, Pe, Er.
  pose proof (conta_status_nao_negativo "CORRIGIDO_AUTO"
                (detalhes (DailyProcessor.et_resultado_correcoes et))).
  pose proof (conta_status_nao_negativo "PENDENTE_APROVACAO"
                (detalhes (DailyProcessor.et_resultado_correcoes et))).
  pose proof (conta_status_nao_negativo "ERRO"
                (detalhes (DailyProcessor.et_resultado_correcoes et))).
  unfold conta_status in Au, Pe, Er. cbn in Au, Pe, Er.
  exists (DailyProcessor.et_total_divergencias et),
    (corrigidas_automaticamente (DailyProcessor.et_resultado_correcoes et)),
    (pendentes_aprovacao (DailyProcessor.et_resultado_correcoes et)),
    (erros (DailyProcessor.et_resultado_correcoes et)),
    (DailyProcessor.et_sessao_id et).
  split; [reflexivity|]. split; [lia|].
  split; [lia|]. split; [lia|]. split; [lia|]. split; [reflexivity|].
  unfold DailyProcessor.finalizar in E2.
  pose proof (finalizar_sessao_metricas _ _ _ _ _ _ _ _ E2 W eq_refl) as M.
  unfold commit in E3. destruct (agenda c2 (relogio c2)); [discriminate|].
  inversion E3; subst. cbn. exact M.
Qed.

Lemma run_metrics_witness :
  exists resultado c',
    DailyProcessor.executar execucao_auto_exemplo ambiente_exemplo
      (conexao_exemplo (bd_exemplo alvo_exemplo visao_exemplo) [])
    = (resultado, c')
    /\ DailyProcessor.re_status resultado <> "FAILED"
    /\ DailyProcessor.re_metricas resultado
       = [("total_registros_analisados", 1); ("divergencias_detectadas", 1);
          ("correcoes_aplicadas", 1); ("correcoes_pendentes", 0);
          ("erros_encontrados", 0)]
    /\ sessao_com_metricas 1 1 1 0 0 (sessoes_processamento (committed c')).
Proof.
  destruct (DailyProcessor.executar execucao_auto_exemplo ambiente_exemplo
              (conexao_exemplo (bd_exemplo alvo_exemplo visao_exemplo) []))
    as [resultado c'] eqn:E.
  assert (N : DailyProcessor.re_status resultado <> "FAILED").
  { vm_compute in E. inversion E; subst. cbn. discriminate. }
  assert (Mt : DailyProcessor.re_metricas resultado
               = [("total_registros_analisados", 1); ("divergencias_detectadas", 1);
                  ("correcoes_aplicadas", 1); ("correcoes_pendentes", 0);
                  ("erros_encontrados", 0)]).
  { vm_compute in E. inversion E; subst. reflexivity. }
  assert (Id : DailyProcessor.re_sessao_id resultado = Some 1).
  { vm_compute in E. inversion E; subst. reflexivity. }
  exists resultado, c'. split; [reflexivity|]. split; [exact N|].
  split; [exact Mt|].
  destruct (run_metrics_account_for_every_divergence _ _ _ _ _ E N)
    as (n & a & p & f & id & Mt' & _ & _ & _ & _ & Id' & S).
  rewrite Mt in Mt'. rewrite Id in Id'.
  inversion Mt'; subst. inversion Id'; subst. exact S.
Defined.

(** X15.  The exit code of the script is 0 exactly when no error escaped the
    run: the connection was obtained, the four stages returned, the session
    was finalized and the final commit went through.  Correction errors (a
    PARTIAL run) and report or notification errors do not change it; the
    initial status ERROR is never what a run returns. *)
Theorem exit_code_zero_iff_nothing_escaped
    (self : DailyProcessor.DailyProcessor) (amb : DailyProcessor.Ambiente)
    (c : Connection) :
  (DailyProcessor.exit_code (fst (DailyProcessor.executar self amb c)) = 0
   <-> exists et c1 c2 c3,
         DailyProcessor.amb_get_connection amb = None
         /\ DailyProcessor.etapas_1_a_4 self amb c = (Retorna et, c1)
         /\ DailyProcessor.finalizar et c1 = (Retorna tt, c2)
         /\ commit c2 = (Retorna tt, c3))
  /\ (DailyProcessor.exit_code (fst (DailyProcessor.executar self amb c)) = 1
      <-> DailyProcessor.re_status (fst (DailyProcessor.executar self amb c))
          = "FAILED")
  /\ DailyProcessor.re_status (fst (DailyProcessor.executar self amb c)) <> "ERROR".
Proof.
  unfold DailyProcessor.executar.
  destruct (DailyProcessor.amb_get_connection amb) as [e|].
  { cbn. split; [split; [discriminate|]|split; [tauto | discriminate]].
    intros (et & c1 & c2 & c3 & H & _). discriminate H. }
  destruct (DailyProcessor.etapas_1_a_4 self amb c) as [[et|e] c1].
  2:{ cbn. split; [split; [discriminate|]|split; [tauto | discriminate]].
      intros (et & c1' & c2 & c3 & _ & H & _). discriminate H. }
  destruct (DailyProcessor.finalizar et c1) as [[[]|e] c2] eqn:Ef.
  2:{ cbn. split; [split; [discriminate|]|split; [tauto | discriminate]].
      intros (et' & c1' & c2' & c3 & _ & H1 & H2 & _).
      inversion H1; subst. rewrite H2 in Ef. discriminate. }
  destruct (commit c2) as [[[]|e] c3] eqn:Ec.
  2:{ cbn. split; [split; [discriminate|]|split; [tauto | discriminate]].
      intros (et' & c1' & c2' & c3' & _ & H1 & H2 & H3).
      inversion H1; subst. rewrite H2 in Ef. inversion Ef; subst.
      rewrite H3 in Ec. discriminate. }
  cbn. unfold DailyProcessor.exit_code, DailyProcessor.resultado_final,
         DailyProcessor.status_final. cbn.
  destruct (erros (DailyProcessor.et_resultado_correcoes et) =? 0); cbn.
  all: split; [split; [intros _|reflexivity]|split; [split; discriminate | discriminate]].
  all: exists et, c1, c2, c3; auto.
Qed.

Lemma exit_code_witness :
  DailyProcessor.exit_code
    (fst (DailyProcessor.executar execucao_auto_exemplo
            (DailyProcessor.mkAmbiente (Some "connection refused")
               (Retorna "Datasets/divergencias.csv") (Retorna true))
            (conexao_exemplo (bd_exemplo alvo_exemplo visao_exemplo) [])))
  = 1.
Proof.
  destruct (exit_code_zero_iff_nothing_escaped execucao_auto_exemplo
              (DailyProcessor.mkAmbiente (Some "connection refused")
                 (Retorna "Datasets/divergencias.csv") (Retorna true))
              (conexao_exemplo (bd_exemplo alvo_exemplo visao_exemplo) []))
    as (_ & H & _).
  apply H. reflexivity.
Defined.

Lemma iniciar_sessao_sem_falhas tipo_sessao parametros ambiente c :
  sem_falhas c ->
  exists c0,
    AuditLogger.iniciar_sessao_processamento tipo_sessao parametros ambiente c
    = (Retorna (seq_sessoes c), c0)
    /\ sem_falhas c0
    /\ bonus_view (working c0) = bonus_view (working c)
    /\ controladoria (working c0) = controladoria (working c).
Proof.
  intros H.
  unfold AuditLogger.iniciar_sessao_processamento, try_except_psycopg2, try_except, bind, ret, raise,
    rollback, execute, commit. cbn.
  repeat (rewrite H by (cbn; lia); cbn).
  eexists. split; [reflexivity|]. cbn.
  split; [intros n Hn; cbn in *; apply H; lia|]. split; reflexivity.
Qed.

Lemma finalizar_sessao_sem_falhas id status metricas resultado_geral log c :
  sem_falhas c ->
  exists c',
    AuditLogger.finalizar_sessao_processamento id status metricas resultado_geral
      log c = (Retorna tt, c')
    /\ sem_falhas c'
    /\ committed c' = working c'
    /\ controladoria (working c') = controladoria (working c).
Proof.
  intros H.
  unfold AuditLogger.finalizar_sessao_processamento, try_except_psycopg2, try_except, bind, ret, raise,
    rollback, execute, commit. cbn.
  repeat (rewrite H by (cbn; lia); cbn).
  eexists. split; [reflexivity|]. cbn.
  split; [intros n Hn; cbn in *; apply H; lia|]. split; reflexivity.
Qed.

Lemma alvo_apos_lote_vazio modo limite t : alvo_apos_lote modo limite [] t = t.
Proof. reflexivity. Qed.

(** X16.  A daily run in automatic mode on which nothing fails ends
    COMPLETED with every trade-marketing divergence of the period applied:
    the metrics count them all as detected and as applied, none pending, no
    error; the target table carries their corrections, everything is
    committed and the session row is finalized COMPLETED.  When the period
    has no such divergence, neither the report nor the alert is attempted,
    whatever they would have done, and the target table is untouched. *)
Theorem clean_automatic_run_applies_every_divergence
    (self : DailyProcessor.DailyProcessor) (amb : DailyProcessor.Ambiente)
    (c : Connection) :
  sem_falhas c ->
  DailyProcessor.amb_get_connection amb = None ->
  DailyProcessor.modo self = "auto" ->
  exists resultado c',
    DailyProcessor.executar self amb c = (resultado, c')
    /\ DailyProcessor.re_status resultado = "COMPLETED"
    /\ (forall n,
          n = Z.of_nat (List.length
                          (varredura_trade (Some (DailyProcessor.data_inicio self))
                             (Some (DailyProcessor.data_fim self))
                             (bonus_view (working c)))) ->
          DailyProcessor.re_metricas resultado
          = [("total_registros_analisados", n); ("divergencias_detectadas", n);
             ("correcoes_aplicadas", n); ("correcoes_pendentes", 0);
             ("erros_encontrados", 0)])
    /\ controladoria (committed c')
       = alvo_apos_lote "auto" limite_auto_aplicacao_padrao
           (varredura_trade (Some (DailyProcessor.data_inicio self))
              (Some (DailyProcessor.data_fim self)) (bonus_view (working c)))
           (controladoria (working c))
    /\ committed c' = working c'
    /\ sessao_finalizada (seq_sessoes c) "COMPLETED"
         (sessoes_processamento (committed c'))
    /\ (varredura_trade (Some (DailyProcessor.data_inicio self))
          (Some (DailyProcessor.data_fim self)) (bonus_view (working c)) = [] ->
        DailyProcessor.re_erros resultado = []
        /\ DailyProcessor.re_relatorio_gerado resultado = None
        /\ controladoria (committed c') = controladoria (working c)).
Proof.
  intros H Ha Hm.
  destruct (iniciar_sessao_sem_falhas
              (if String.eqb (DailyProcessor.modo self) "auto"
               then "DAILY_AUTO" else "MANUAL_RUN")
              (Some [("data_inicio", DData (DailyProcessor.data_inicio self));
                     ("data_fim", DData (DailyProcessor.data_fim self));
                     ("modo", DTexto (DailyProcessor.modo self))])
              "PRODUCTION" c H) as (c0 & E0 & H0 & V0 & T0).
  destruct (detectar_divergencias_ok (Some (DailyProcessor.data_inicio self))
              (Some (DailyProcessor.data_fim self)) None limite_confianca_padrao c0)
    as (c0' & Ed & Wd & Kd & Ad & Rd & _).
  { intros i _. apply H0. lia. }
  rewrite detectadas_padrao, V0 in Ed.
  set (ds := varredura_trade (Some (DailyProcessor.data_inicio self))
               (Some (DailyProcessor.data_fim self)) (bonus_view (working c))) in *.
  assert (Hd : sem_falhas c0').
  { intros n Hn. rewrite Ad. apply H0. lia. }
  assert (El : forall d, In d ds -> aplicar_auto "auto" limite_auto_aplicacao_padrao d = true).
  { intros d Hx. eapply varredura_trade_elegivel. exact Hx. }
  destruct (laco_sem_falhas "auto" "sistema_automatico" limite_auto_aplicacao_padrao
              ds (mkResultadoCorrecoes (Z.of_nat (List.length ds)) 0 0 0 []) c0' Hd)
    as (rc & c1 & Ea & H1 & Er & Au & Pe & _ & Tb & _).
  rewrite (filter_tudo _ ds El) in Au.
  rewrite (filter_nada _ ds) in Pe
    by (intros d Hx; rewrite (El d Hx); reflexivity).
  cbn in Er, Au, Pe. rewrite Wd, T0 in Tb.
  set (et := DailyProcessor.mkEtapas (seq_sessoes c) (Z.of_nat (List.length ds)) rc
               (fst (DailyProcessor.etapa_relatorio amb ds []))
               (DailyProcessor.etapa_notificacao amb (Z.of_nat (List.length ds))
                  (snd (DailyProcessor.etapa_relatorio amb ds [])))).
  assert (E1 : DailyProcessor.etapas_1_a_4 self amb c = (Retorna et, c1)).
  { unfold DailyProcessor.etapas_1_a_4. unfold bind at 1. rewrite E0.
    unfold bind at 1. fold ds. rewrite Ed. unfold bind at 1.
    unfold aplicar_correcoes. rewrite Hm, Ea.
    destruct (DailyProcessor.etapa_relatorio amb ds []) as [caminho erros1].
    reflexivity. }
  destruct (etapas_sessao _ _ _ _ _ E1) as [[W _] _].
  destruct (finalizar_sessao_sem_falhas (seq_sessoes c)
              (DailyProcessor.status_final rc)
              (DailyProcessor.metricas_da_execucao (Z.of_nat (List.length ds)) rc)
              (Some ("Processamento concluido com sucesso. "
                     ++ DailyProcessor.texto_de_Z (corrigidas_automaticamente rc)
                     ++ " correcoes aplicadas, "
                     ++ DailyProcessor.texto_de_Z (pendentes_aprovacao rc)
                     ++ " pendentes.")%string)
              None c1 H1) as (c2 & E2 & H2 & K2 & T2).
  destruct (finalizar_sessao_escrita _ _ _ _ _ _ _ _ E2 W) as [Fin _].
  assert (St : DailyProcessor.status_final rc = "COMPLETED").
  { unfold DailyProcessor.status_final. rewrite Er. reflexivity. }
  exists (DailyProcessor.resultado_final self et),
    (set_committed (working c2) (envia Commit c2)).
  split.
  { unfold DailyProcessor.executar. rewrite Ha, E1.
    unfold DailyProcessor.finalizar. cbn [DailyProcessor.et_sessao_id
      DailyProcessor.et_resultado_correcoes DailyProcessor.et_total_divergencias et].
    rewrite E2. unfold commit. rewrite (H2 (relogio c2)) by lia. reflexivity. }
  cbn. unfold DailyProcessor.metricas_da_execucao. rewrite St, Er, Au, Pe, T2, Tb.
  split; [reflexivity|]. split; [intros n ->; reflexivity|].
  split; [reflexivity|].
  split; [reflexivity|]. split; [rewrite St in Fin; exact Fin|].
  intros Vz. rewrite Vz. cbn. auto.
Qed.

Lemma clean_automatic_run_witness :
  exists resultado c',
    DailyProcessor.executar execucao_auto_exemplo ambiente_exemplo
      (conexao_exemplo (bd_exemplo alvo_exemplo visao_exemplo) [])
    = (resultado, c')
    /\ DailyProcessor.re_status resultado = "COMPLETED"
    /\ controladoria (committed c')
       = [mkControladoria "NF-1"
            [("bonus_dpto", Some (VFloat (DivergenceProcessor.float (50 # 1))));
                                  ("trade_mkt_dpto", Some (VNum 0))]].
Proof.
  destruct (clean_automatic_run_applies_every_divergence execucao_auto_exemplo
              ambiente_exemplo
              (conexao_exemplo (bd_exemplo alvo_exemplo visao_exemplo) [])
              (sem_falhas_exemplo _) eq_refl eq_refl)
    as (r & c' & E & S & _ & T & _).
  exists r, c'. split; [exact E|]. split; [exact S|].
  rewrite T. vm_compute. reflexivity.
Defined.

End Diario.

(* ================================================================== *)
(** * Connections and the approval end points *)
(* ================================================================== *)

Section Conexao.

(** X17.  get_connection validates before it connects.  A variable is missing
    when it is unset or empty; if one of DB_HOST, DB_NAME, DB_USER,
    DB_PASSWORD is missing, the call fails with a ValueError that names the
    missing ones in that order, whatever connecting would have done.  It
    returns a connection exactly when none is missing and connecting
    succeeds; DB_PORT is never required. *)
Theorem get_connection_validates_environment
    (getenv : string -> option string) (connect : Resultado Connection) :
  (forall var, In var (missing_vars getenv)
               <-> In var required_vars
                   /\ (getenv var = None \/ getenv var = Some ""))
  /\ ~ In "DB_PORT" (missing_vars getenv)
  /\ (missing_vars getenv <> [] ->
      exists mensagem,
        get_connection getenv connect = inl (ValueError mensagem)
        /\ mensagem
           = ("❌ Variáveis de ambiente obrigatórias não definidas: "
              ++ join_virgula (missing_vars getenv) ++ nova_linha
              ++ "Certifique-se de ter um arquivo .env na raiz do projeto com todas as credenciais.")%string)
  /\ (forall conn,
        get_connection getenv connect = inr conn
        <-> missing_vars getenv = [] /\ connect = Retorna conn).
Proof.
  split; [|split; [|split]].
  - intros var. unfold missing_vars. rewrite filter_In. unfold nao_definida.
    destruct (getenv var) as [[|a x]|]; intuition congruence.
  - unfold missing_vars. rewrite filter_In. cbn. intuition discriminate.
  - intros N. unfold get_connection.
    destruct (missing_vars getenv); [now contradiction N|].
    eexists. split; reflexivity.
  - intros conn. unfold get_connection.
    destruct (missing_vars getenv).
    + destruct connect as [conn'|e]; split.
      * intros E. inversion E. auto.
      * intros [_ E]. inversion E. reflexivity.
      * destruct (de_psycopg2 e); discriminate.
      * intros [_ E]. discriminate E.
    + split; [discriminate|]. intros [E _]. discriminate E.
Qed.

Lemma get_connection_witness :
  exists mensagem,
    get_connection
      (fun var => if String.eqb var "DB_NAME" then None else getenv_exemplo var)
      (Levanta (erro_bd "connection refused"))
    = inl (ValueError mensagem).
Proof.
  destruct (get_connection_validates_environment
              (fun var => if String.eqb var "DB_NAME" then None
                          else getenv_exemplo var)
              (Levanta (erro_bd "connection refused"))) as (_ & _ & H & _).
  destruct H as (m & E & _); [discriminate|].
  exists m. exact E.
Defined.

(** X18.  The connection scope.  When the block under [with db_connection()]
    returns and the commit goes through, everything the block did is
    committed.  When the block raises, or returns and the commit raises, the
    same error leaves the scope after a rollback: the open transaction is
    dropped, and what stays in the database is what had been committed by
    then, which includes whatever the block committed itself. *)
Theorem db_connection_commits_or_rolls_back
    (A : Type) (corpo : M A) (c : Connection) :
  (forall a c',
      db_connection corpo c = (Retorna a, c') ->
      exists c1, corpo c = (Retorna a, c1)
                 /\ agenda c1 (relogio c1) = None
                 /\ working c' = working c1 /\ committed c' = working c1)
  /\ (forall e c',
      db_connection corpo c = (Levanta e, c') ->
      working c' = committed c'
      /\ (exists h, historico c' = h ++ [Rollback])
      /\ exists c1,
           committed c' = committed c1
           /\ (corpo c = (Levanta e, c1)
               \/ exists a, corpo c = (Retorna a, c1)
                            /\ agenda c1 (relogio c1) = Some e)).
Proof.
  unfold db_connection, try_except_psycopg2, try_except, bind, ret, raise, rollback, commit.
  destruct (corpo c) as [[a|e] c1].
  - destruct (agenda c1 (relogio c1)) as [e|] eqn:Ag; cbn; split.
    + discriminate.
    + intros e' c' E. inversion E; subst. cbn.
      split; [reflexivity|]. split; [eexists; reflexivity|].
      exists c1. split; [reflexivity|]. right. exists a. auto.
    + intros a' c' E. inversion E; subst. cbn. exists c1. auto.
    + discriminate.
  - cbn. split; [discriminate|].
    intros e' c' E. inversion E; subst. cbn.
    split; [reflexivity|]. split; [eexists; reflexivity|].
    exists c1. auto.
Qed.

Lemma db_connection_witness :
  exists c',
    db_connection
      (AuditLogger.iniciar_operacao "UPDATE" "ajuste" "ana" "API" None None None None)
      (conexao_exemplo (bd_exemplo alvo_exemplo []) [None; None; Some "commit failed"])
    = (Levanta (erro_bd "commit failed"), c')
    /\ working c' = committed c'
    /\ map op_status (operacoes (committed c')) = ["PENDING"].
Proof.
  destruct (db_connection
              (AuditLogger.iniciar_operacao "UPDATE" "ajuste" "ana" "API" None None
                 None None)
              (conexao_exemplo (bd_exemplo alvo_exemplo [])
                 [None; None; Some "commit failed"])) as [r c'] eqn:E.
  assert (R : r = Levanta (erro_bd "commit failed")).
  { vm_compute in E. inversion E. reflexivity. }
  subst r. exists c'. split; [reflexivity|].
  destruct (db_connection_commits_or_rolls_back Z
              (AuditLogger.iniciar_operacao "UPDATE" "ajuste" "ana" "API" None None
                 None None)
              (conexao_exemplo (bd_exemplo alvo_exemplo [])
                 [None; None; Some "commit failed"])) as [_ H].
  destruct (H _ _ E) as (W & _ & _).
  split; [exact W|]. vm_compute in E. inversion E. reflexivity.
Defined.

End Conexao.

Section Aprovacao.

Import Divergences.

(** The approval of an id that has no DETECTED record: one query, the error
    entry, nothing else. *)
Lemma aprovar_uma_recusa usuario valor_customizado div_id c :
  agenda c (relogio c) = None ->
  (forall d, In d (divergencias_processadas (working c)) ->
             dp_id d = div_id -> dp_status_processamento d <> "DETECTED") ->
  aprovar_uma usuario valor_customizado div_id c
  = (Retorna (Erro div_id "Divergencia nao encontrada ou ja processada"),
     envia (Select TDivergencias) c).
Proof.
  intros A0 N.
  unfold aprovar_uma, try_except_psycopg2, try_except. unfold bind at 1. unfold execute at 1.
  rewrite A0. unfold select_detectada.
  rewrite filter_nada; [reflexivity|].
  intros d Hd. cbn in Hd.
  destruct (Z.eqb_spec (dp_id d) div_id) as [E|_]; [|reflexivity].
  cbn. apply String.eqb_neq. now apply N.
Qed.

(** X19.  Approving an id that has no record, or whose record is no longer
    DETECTED (applied, approved or rejected before), changes nothing: the
    entry for that id says 'Divergencia nao encontrada ou ja processada', and
    apart from the one query nothing is sent: no operation is opened, the
    target table and the ledger are as they were. *)
Theorem approval_refuses_processed_or_unknown
    (usuario : string) (valor_customizado : option valor) (div_id : Z)
    (c : Connection) :
  agenda c (relogio c) = None ->
  (forall d, In d (divergencias_processadas (working c)) ->
             dp_id d = div_id -> dp_status_processamento d <> "DETECTED") ->
  exists c',
    aprovar_uma usuario valor_customizado div_id c
    = (Retorna (Erro div_id "Divergencia nao encontrada ou ja processada"), c')
    /\ working c' = working c /\ committed c' = committed c
    /\ seq_operacoes c' = seq_operacoes c
    /\ historico c' = historico c ++ [Select TDivergencias].
Proof.
  intros A0 N. rewrite (aprovar_uma_recusa _ _ _ _ A0 N).
  eexists. split; [reflexivity|]. cbn. auto.
Qed.

Lemma approval_refusal_witness :
  exists c',
    aprovar_uma "ana" None 42 conexao_com_registro
    = (Retorna (Erro 42 "Divergencia nao encontrada ou ja processada"), c')
    /\ working c' = working conexao_com_registro.
Proof.
  destruct (approval_refuses_processed_or_unknown "ana" None 42
              conexao_com_registro eq_refl) as (c' & E & W & _).
  - intros d [<- | []] Id. discriminate Id.
  - exists c'. split; [exact E | exact W].
Defined.

Lemma select_detectada_unica (d : DivergenciaProcessada) l :
  NoDup (map dp_id l) -> In d l -> dp_status_processamento d = "DETECTED" ->
  filter (fun x => (dp_id x =? dp_id d)
                   && String.eqb (dp_status_processamento x) "DETECTED") l
  = [d].
Proof.
  intros ND Hd St. induction l as [|a l IH]; [destruct Hd|].
  cbn in ND. apply NoDup_cons_iff in ND. destruct ND as [Na ND].
  cbn [filter]. destruct Hd as [-> | Hd].
  - rewrite Z.eqb_refl, St. cbn. f_equal.
    apply filter_nada. intros x Hx.
    destruct (Z.eqb_spec (dp_id x) (dp_id d)) as [E|_]; [|reflexivity].
    exfalso. apply Na. rewrite <- E. now apply in_map.
  - destruct (Z.eqb_spec (dp_id a) (dp_id d)) as [E|_].
    + exfalso. apply Na. rewrite E. now apply in_map.
    + cbn. now apply IH.
Qed.

Lemma atualiza_linha_aprovada d v usuario :
  AuditLogger.atualiza_linha (dp_id d) "APPROVED" v (Some usuario) None d
  = linha_aprovada d v usuario.
Proof. unfold AuditLogger.atualiza_linha. now rewrite Z.eqb_refl. Qed.

Lemma aprovar_uma_sem_falhas usuario valor_customizado d c :
  sem_falhas c ->
  NoDup (map dp_id (divergencias_processadas (working c))) ->
  In d (divergencias_processadas (working c)) ->
  dp_status_processamento d = "DETECTED" ->
  exists c',
    aprovar_uma usuario valor_customizado (dp_id d) c
    = (Retorna (Aprovado (dp_id d) (valor_a_aplicar valor_customizado d)), c')
    /\ sem_falhas c'
    /\ committed c' = working c'
    /\ controladoria (working c')
       = alvo_com_valor (dp_campo_afetado d) (valor_a_aplicar valor_customizado d)
           (dp_idnfsexterno d) (controladoria (working c))
    /\ divergencias_processadas (working c')
       = map (AuditLogger.atualiza_linha (dp_id d) "APPROVED"
                (valor_a_aplicar valor_customizado d) (Some usuario) None)
           (divergencias_processadas (working c))
    /\ In (operacao_aprovacao d usuario (seq_operacoes c)) (operacoes (working c')).
Proof.
  intros H ND Hd St.
  unfold aprovar_uma, try_except_psycopg2, try_except. unfold bind at 1. unfold execute at 1.
  rewrite (H (relogio c)) by lia. unfold select_detectada.
  cbn [working envia]. rewrite (select_detectada_unica d _ ND Hd St).
  fold (valor_a_aplicar valor_customizado d).
  unfold AuditLogger.iniciar_operacao, AuditLogger.finalizar_operacao,
    AuditLogger.atualizar_status_divergencia,
    try_except_psycopg2, try_except, bind, ret, raise, rollback, execute, commit. cbn.
  repeat (rewrite H by (cbn; lia); cbn).
  eexists. split; [reflexivity|]. cbn.
  split; [intros n Hn; cbn in *; apply H; lia|].
  split; [reflexivity|]. split; [reflexivity|]. split; [reflexivity|].
  apply in_map_iff. eexists.
  split; [|apply in_or_app; right; left; reflexivity].
  unfold AuditLogger.finaliza_linha. cbn. rewrite Z.eqb_refl. reflexivity.
Qed.

(** X20.  Approving a DETECTED record when nothing fails: the value written
    is the request's custom value if it has one and the record's suggested
    value otherwise; it is set on the record's column on the rows of the
    target table with the record's id; the record becomes APPROVED with that
    value and the approver; the operation is finalized SUCCESS, with zero
    affected rows and no before or after data whatever was updated; all of
    it is committed.  A second approval of the same id is then refused. *)
Theorem approval_applies_once
    (usuario : string) (valor_customizado : option valor)
    (d : DivergenciaProcessada) (c : Connection) :
  sem_falhas c ->
  NoDup (map dp_id (divergencias_processadas (working c))) ->
  In d (divergencias_processadas (working c)) ->
  dp_status_processamento d = "DETECTED" ->
  exists c',
    aprovar_uma usuario valor_customizado (dp_id d) c
    = (Retorna (Aprovado (dp_id d) (valor_a_aplicar valor_customizado d)), c')
    /\ committed c' = working c'
    /\ controladoria (working c')
       = alvo_com_valor (dp_campo_afetado d) (valor_a_aplicar valor_customizado d)
           (dp_idnfsexterno d) (controladoria (working c))
    /\ In (linha_aprovada d (valor_a_aplicar valor_customizado d) usuario)
          (divergencias_processadas (working c'))
    /\ In (operacao_aprovacao d usuario (seq_operacoes c)) (operacoes (working c'))
    /\ forall usuario' valor',
         fst (aprovar_uma usuario' valor' (dp_id d) c')
         = Retorna (Erro (dp_id d) "Divergencia nao encontrada ou ja processada").
Proof.
  intros H ND Hd St.
  destruct (aprovar_uma_sem_falhas usuario valor_customizado d c H ND Hd St)
    as (c' & E & H' & K & T & D & O).
  exists c'. split; [exact E|]. split; [exact K|]. split; [exact T|].
  split; [|split; [exact O|]].
  - rewrite D, <- atualiza_linha_aprovada. now apply in_map.
  - intros u' v'. rewrite aprovar_uma_recusa; [reflexivity| |].
    + apply H'. lia.
    + rewrite D. intros x Hx Id. apply in_map_iff in Hx.
      destruct Hx as (y & <- & Hy).
      unfold AuditLogger.atualiza_linha in *.
      destruct (Z.eqb_spec (dp_id y) (dp_id d)) as [E'|Ne]; cbn in *;
        [discriminate | contradiction].
Qed.

Lemma approval_witness :
  exists c',
    aprovar_uma "ana" (Some (VNum (45 # 1))) 1 conexao_com_registro
    = (Retorna (Aprovado 1 (Some (VNum (45 # 1)))), c')
    /\ controladoria (committed c')
       = [mkControladoria "NF-1" [("bonus_dpto", Some (VNum (45 # 1)));
                                  ("trade_mkt_dpto", Some (VNum 0))]]
    /\ fst (aprovar_uma "rui" None 1 c')
       = Retorna (Erro 1 "Divergencia nao encontrada ou ja processada").
Proof.
  destruct (approval_applies_once "ana" (Some (VNum (45 # 1)))
              registro_detectado_exemplo conexao_com_registro
              (sem_falhas_exemplo _))
    as (c' & E & K & T & _ & _ & R).
  - repeat constructor. intros [].
  - left. reflexivity.
  - reflexivity.
  - exists c'. split; [exact E|]. split; [rewrite K, T; reflexivity|].
    apply (R "rui" None).
Defined.

Lemma bind_retorna {A B} (m : M A) (f : A -> M B) c b c' :
  bind m f c = (Retorna b, c') ->
  exists a c1, m c = (Retorna a, c1) /\ f a c1 = (Retorna b, c').
Proof.
  unfold bind. destruct (m c) as [[a|e] c1]; [|discriminate].
  intros E. now exists a, c1.
Qed.

(** One pass of the approval loop always ends normally, with an entry for
    the id it was given. *)
Lemma aprovar_uma_retorna usuario valor_customizado div_id c :
  exists r c',
    aprovar_uma usuario valor_customizado div_id c = (Retorna r, c')
    /\ id_do_resultado r = div_id.
Proof.
  unfold aprovar_uma, try_except_psycopg2, try_except.
  match goal with |- context [match ?m c with _ => _ end] =>
    destruct (m c) as [[r|e] c1] eqn:E end.
  - exists r, c1. split; [reflexivity|].
    apply bind_retorna in E. destruct E as ([d|] & c2 & _ & E).
    + apply bind_retorna in E. destruct E as (op & c3 & _ & E).
      apply bind_retorna in E. destruct E as (n & c4 & _ & E).
      apply bind_retorna in E. destruct E as (u & c5 & _ & E).
      apply bind_retorna in E. destruct E as (u' & c6 & _ & E).
      inversion E. reflexivity.
    + inversion E. reflexivity.
  - eexists. eexists. split; reflexivity.
Qed.

Lemma laco_aprovacao_retorna usuario valor_customizado divergencia_ids :
  forall resultados c,
  exists rs c',
    laco_aprovacao usuario valor_customizado divergencia_ids resultados c
    = (Retorna rs, c')
    /\ map id_do_resultado rs = map id_do_resultado resultados ++ divergencia_ids.
Proof.
  induction divergencia_ids as [|id resto IH]; intros resultados c; cbn.
  - exists resultados, c. now rewrite app_nil_r.
  - destruct (aprovar_uma_retorna usuario valor_customizado id c) as (r & c1 & E & I).
    destruct (IH (resultados ++ [r]) c1) as (rs & c2 & E2 & M2).
    exists rs, c2. unfold bind. rewrite E. split; [exact E2|].
    rewrite M2, map_app, <- app_assoc, <- I. reflexivity.
Qed.

Lemma filter_particao {A} (f : A -> bool) l :
  (List.length (filter f l) + List.length (filter (fun x => negb (f x)) l)
   = List.length l)%nat.
Proof.
  induction l as [|a l IH]; cbn; [reflexivity|].
  destruct (f a); cbn; lia.
Qed.

(** X21.  The batch approval end point.  No approval that fails aborts the
    batch: the loop always reaches its end with one entry per requested id,
    in the order of the request.  The end point then answers with the number
    of ids as total and approved plus errors equal to it, everything
    committed, unless one of its two final commits fails, in which case that
    error leaves the end point. *)
Theorem approval_batch_summary
    (divergencia_ids : list Z) (usuario : string)
    (valor_customizado : option valor) (c : Connection) :
  exists resultados c1,
    laco_aprovacao usuario valor_customizado divergencia_ids [] c
    = (Retorna resultados, c1)
    /\ map id_do_resultado resultados = divergencia_ids
    /\ (forall e, falha_da_escrita c1 = Some e ->
          fst (aprovar_correcoes divergencia_ids usuario valor_customizado c)
          = Levanta e)
    /\ (falha_da_escrita c1 = None ->
        exists resumo c',
          aprovar_correcoes divergencia_ids usuario valor_customizado c
          = (Retorna resumo, c')
          /\ detalhes_aprovacao resumo = resultados
          /\ total_processado resumo = Z.of_nat (List.length divergencia_ids)
          /\ aprovados resumo + erros_aprovacao resumo = total_processado resumo
          /\ committed c' = working c' /\ working c' = working c1).
Proof.
  destruct (laco_aprovacao_retorna usuario valor_customizado divergencia_ids [] c)
    as (rs & c1 & E & Ids).
  cbn in Ids. exists rs, c1. split; [exact E|]. split; [exact Ids|].
  unfold falha_da_escrita, aprovar_correcoes, db_connection, try_except_psycopg2, try_except, bind.
  rewrite E. unfold ret, raise, rollback, commit.
  destruct (agenda c1 (relogio c1)) as [e0|] eqn:A0; cbn.
  - split; [|discriminate]. intros e Ee. inversion Ee. reflexivity.
  - destruct (agenda c1 (S (relogio c1))) as [e1|] eqn:A1; cbn.
    + split; [|discriminate]. intros e Ee. inversion Ee. reflexivity.
    + split; [discriminate|]. intros _.
      eexists. eexists. split; [reflexivity|]. cbn.
      split; [reflexivity|]. split; [reflexivity|].
      split; [|split; reflexivity].
      rewrite <- Nat2Z.inj_add, filter_particao, <- Ids, length_map. reflexivity.
Qed.

Lemma approval_batch_witness :
  exists resumo c',
    aprovar_correcoes [1; 42] "ana" None conexao_com_registro = (Retorna resumo, c')
    /\ aprovados resumo = 1 /\ erros_aprovacao resumo = 1
    /\ map id_do_resultado (detalhes_aprovacao resumo) = [1; 42].
Proof.
  destruct (approval_batch_summary [1; 42] "ana" None conexao_com_registro)
    as (rs & c1 & E & Ids & _ & Ok).
  assert (F : falha_da_escrita c1 = None).
  { vm_compute in E. inversion E. reflexivity. }
  destruct (Ok F) as (resumo & c' & Er & D & _).
  exists resumo, c'. split; [exact Er|].
  rewrite D, Ids.
  vm_compute in Er. inversion Er. repeat split.
Defined.

End Aprovacao.

(* ================================================================== *)
(** * Runs that only detect *)
(* ================================================================== *)

Section SoDeteccao.

Import DivergenceProcessor.

Lemma aplicar_auto_outro_modo modo limite div :
  modo <> "auto" -> aplicar_auto modo limite div = false.
Proof.
  intros N. destruct (aplicar_auto modo limite div) eqn:G; [|reflexivity].
  apply aplicar_auto_iff in G. destruct G as [G _]. contradiction.
Qed.

Lemma preserva_laco_outro_modo modo usuario limite divergencias :
  modo <> "auto" ->
  forall resultado,
    preserva_alvo (laco_correcoes modo usuario limite divergencias resultado).
Proof.
  intros N.
  induction divergencias as [|div resto IH]; intros resultado; cbn.
  - apply preserva_ret.
  - apply preserva_bind; [|intros; apply IH].
    intros c.
    rewrite (processar_nao_elegivel _ _ _ _ _ _ (aplicar_auto_outro_modo _ _ _ N)).
    pose proof (preserva_registrar_pendente div c) as P.
    destruct (_registrar_divergencia_pendente div c) as [[id|e] c']; exact P.
Qed.

Lemma laco_outro_modo_sem_auto modo usuario limite divergencias :
  modo <> "auto" ->
  forall resultado c,
    corrigidas_automaticamente
      (match fst (laco_correcoes modo usuario limite divergencias resultado c) with
       | Retorna r => r
       | Levanta _ => resultado
       end)
    = corrigidas_automaticamente resultado.
Proof.
  intros N.
  induction divergencias as [|div resto IH]; intros resultado c; cbn.
  - reflexivity.
  - unfold bind.
    rewrite (processar_nao_elegivel _ _ _ _ _ _ (aplicar_auto_outro_modo _ _ _ N)).
    destruct (_registrar_divergencia_pendente div c) as [[id|e] c1].
    + specialize (IH (conta_pendente resultado div) c1).
      destruct (laco_correcoes modo usuario limite resto _ c1) as [[r|e] c2];
        exact IH.
    + specialize (IH (conta_erro resultado div (texto e)) c1).
      destruct (laco_correcoes modo usuario limite resto _ c1) as [[r|e'] c2];
        exact IH.
Qed.

Lemma preserva_detectar di df t limite :
  preserva_alvo (detectar_divergencias di df t limite).
Proof.
  unfold detectar_divergencias, _detectar_divergencias_trade_marketing,
    _detectar_pendentes_verificacao, _detectar_divergencias_valores.
  repeat (apply preserva_bind; [|intros]); try apply preserva_ret;
    apply preserva_execute; try reflexivity; intros ?; cbn; auto.
Qed.

Lemma preserva_aplicar_outro_modo divergencias modo usuario limite :
  modo <> "auto" ->
  preserva_alvo (aplicar_correcoes divergencias modo usuario limite).
Proof. intros N. unfold aplicar_correcoes. now apply preserva_laco_outro_modo. Qed.

Lemma preserva_db_connection {A} (corpo : M A) :
  preserva_alvo corpo -> preserva_alvo (db_connection corpo).
Proof.
  intros P. unfold db_connection. apply preserva_try.
  - apply preserva_bind; [exact P | intros].
    apply preserva_bind; [apply preserva_commit | intros; apply preserva_ret].
  - intros. apply preserva_bind; [apply preserva_rollback | intros; apply preserva_raise].
Qed.

Lemma preserva_etapas self amb :
  DailyProcessor.modo self <> "auto" ->
  preserva_alvo (DailyProcessor.etapas_1_a_4 self amb).
Proof.
  intros N. destruct preserva_ledger as (_ & _ & _ & _ & P5 & _).
  unfold DailyProcessor.etapas_1_a_4.
  apply preserva_bind; [apply P5 | intros id].
  apply preserva_bind; [apply preserva_detectar | intros ds].
  apply preserva_bind; [now apply preserva_aplicar_outro_modo | intros rc].
  destruct (DailyProcessor.etapa_relatorio amb ds []) as [caminho erros1].
  apply preserva_ret.
Qed.

Lemma executar_preserva self amb c :
  DailyProcessor.modo self <> "auto" ->
  filter toca_alvo (historico (snd (DailyProcessor.executar self amb c)))
  = filter toca_alvo (historico c)
  /\ (forall alvo, alvo_intacto alvo c ->
                   alvo_intacto alvo (snd (DailyProcessor.executar self amb c))).
Proof.
  intros N.
  pose proof (preserva_etapas self amb N c) as [P1 P2].
  unfold DailyProcessor.executar.
  destruct (DailyProcessor.amb_get_connection amb); [split; [reflexivity | auto]|].
  destruct (DailyProcessor.etapas_1_a_4 self amb c) as [[et|e] c1]; cbn in P1, P2.
  2:{ destruct (preserva_rollback c1) as [Q1 Q2]. cbn in *.
      split; [congruence | intros alvo Al; apply Q2, P2, Al]. }
  destruct preserva_ledger as (_ & _ & _ & _ & _ & P6).
  unfold DailyProcessor.finalizar.
  match goal with
  | |- context [AuditLogger.finalizar_sessao_processamento ?a ?b ?m ?r ?l ?cc] =>
      destruct (P6 a b m r l cc) as [F1 F2];
      destruct (AuditLogger.finalizar_sessao_processamento a b m r l cc)
        as [[[]|e] c2]
  end; cbn in F1, F2.
  2:{ destruct (preserva_rollback c2) as [Q1 Q2]. cbn in *.
      split; [congruence | intros alvo Al; apply Q2, F2, P2, Al]. }
  destruct (preserva_commit c2) as [C1 C2].
  destruct (commit c2) as [[[]|e] c3]; cbn in C1, C2.
  2:{ destruct (preserva_rollback c3) as [Q1 Q2]. cbn in *.
      split; [congruence | intros alvo Al; apply Q2, C2, F2, P2, Al]. }
  cbn. split; [congruence | intros alvo Al; apply C2, F2, P2, Al].
Qed.

(** X22.  Only automatic mode writes to the target table.  A daily run in any
    other mode, and the processing end point in any other mode (its default
    is manual), send no statement against the target table and leave it as
    it was, inside and outside the transaction, whatever fails; and their
    summaries count nothing as corrected automatically. *)
Theorem only_automatic_mode_writes_target :
  (forall self amb c,
      DailyProcessor.modo self <> "auto" ->
      filter toca_alvo (historico (snd (DailyProcessor.executar self amb c)))
      = filter toca_alvo (historico c)
      /\ (forall alvo, alvo_intacto alvo c ->
                       alvo_intacto alvo (snd (DailyProcessor.executar self amb c)))
      /\ (forall rc,
            DailyProcessor.re_resultado_correcoes
              (fst (DailyProcessor.executar self amb c)) = Some rc ->
            corrigidas_automaticamente rc = 0))
  /\ (forall data_inicio data_fim tipo_divergencia modo usuario c,
      modo <> "auto" ->
      filter toca_alvo
        (historico (snd (Divergences.processar_divergencias data_inicio data_fim
                           tipo_divergencia modo usuario c)))
      = filter toca_alvo (historico c)
      /\ (forall alvo, alvo_intacto alvo c ->
            alvo_intacto alvo
              (snd (Divergences.processar_divergencias data_inicio data_fim
                      tipo_divergencia modo usuario c)))
      /\ (forall rc,
            fst (Divergences.processar_divergencias data_inicio data_fim
                   tipo_divergencia modo usuario c) = Retorna rc ->
            corrigidas_automaticamente rc = 0)).
Proof.
  split.
  - intros self amb c N.
    assert (R : forall rc,
               DailyProcessor.re_resultado_correcoes
                 (fst (DailyProcessor.executar self amb c)) = Some rc ->
               corrigidas_automaticamente rc = 0).
    { intros rc R.
      destruct (DailyProcessor.executar self amb c) as [r c'] eqn:E.
      destruct (executar_correcoes _ _ _ _ _ _ E R) as (et & c1 & E1 & <- & _).
      destruct (etapas_forma _ _ _ _ _ E1) as (c0 & ds & c0' & _ & _ & Ea & _).
      unfold aplicar_correcoes in Ea.
      pose proof (laco_outro_modo_sem_auto _ "sistema_automatico"
                    limite_auto_aplicacao_padrao ds N
                    (mkResultadoCorrecoes (Z.of_nat (List.length ds)) 0 0 0 []) c0')
        as L.
      rewrite Ea in L. exact L. }
    destruct (executar_preserva self amb c N) as [H1 H2]. auto.
  - intros di df t modo usuario c N.
    assert (P : preserva_alvo (Divergences.processar_divergencias di df t modo usuario)).
    { unfold Divergences.processar_divergencias. apply preserva_db_connection.
      apply preserva_bind; [apply preserva_detectar | intros ds].
      now apply preserva_aplicar_outro_modo. }
    destruct (P c) as [P1 P2]. split; [exact P1|]. split; [exact P2|].
    intros rc R.
    destruct (Divergences.processar_divergencias di df t modo usuario c)
      as [r c'] eqn:E.
    cbn in R. subst r. apply db_connection_retorna in E.
    destruct E as (c1 & E & _). apply bind_retorna in E.
    destruct E as (ds & c0 & _ & Ea). unfold aplicar_correcoes in Ea.
    pose proof (laco_outro_modo_sem_auto _ usuario limite_auto_aplicacao_padrao ds N
                  (mkResultadoCorrecoes (Z.of_nat (List.length ds)) 0 0 0 []) c0) as L.
    rewrite Ea in L. exact L.
Qed.

Lemma only_automatic_mode_witness :
  alvo_intacto alvo_exemplo
    (snd (DailyProcessor.executar execucao_exemplo ambiente_exemplo
            (conexao_exemplo (bd_exemplo alvo_exemplo visao_exemplo) []))).
Proof.
  destruct only_automatic_mode_writes_target as [H _].
  destruct (H execucao_exemplo ambiente_exemplo
              (conexao_exemplo (bd_exemplo alvo_exemplo visao_exemplo) []))
    as (_ & A & _).
  - discriminate.
  - apply A. split; reflexivity.
Defined.

End SoDeteccao.
